(** * DLEAPP: the artifact dispatch pipeline of [dleapp.py]

    A shallow embedding of [validate_args], [create_profile], [main] and
    [crunch_artifacts], with the properties of the dispatch pipeline, of
    the command line and of the profile session proved over it.

    Python values are modelled as the code uses them: strings as [string],
    [plugin.search] as a string, a tuple or a list, the decoded profile as a
    JSON value whose objects are finite maps, the profile's plugin set as a
    [gset string].  The interpreter's effects are explicit: a computation
    takes the state of the outside world (file system, archive caches,
    clock), returns the new one, the observable calls it made, in order, and
    either a value or the exception it raised. *)

From Stdlib Require Import ZArith Ascii.
From stdpp Require Import base strings list gmap pretty sorting.

Local Open Scope Z_scope.

(** ** Exceptions

    Instances of Python's [Exception].  The classes named by the handlers of
    [dleapp.py] and those that its own statements raise are kept apart;
    [OtherException] stands for every other subclass.  [KeyboardInterrupt] and [SystemExit], which are not
    [Exception]s, are outside the model, except for the exit of
    [parser.error], which is an outcome of [main]. *)

Inductive exn_class :=
| FileExistsError
| FileNotFoundError
| PermissionError
| OSError
| TypeError
| IndexError
| ValueError
| EOFError
| OtherException.

#[global] Instance exn_class_eq_dec : EqDecision exn_class.
Proof. solve_decision. Defined.

Record exn := Exn {
  exn_cls : exn_class;         (* type(ex) *)
  exn_str : string;            (* str(ex) *)
  exn_traceback : string       (* traceback.format_exc() while handling ex *)
}.

Inductive result (A : Type) :=
| Ok (a : A)
| Raised (ex : exn).
Arguments Ok {A} a.
Arguments Raised {A} ex.

(** ** String helpers *)

Definition nl : string := String (Ascii.ascii_of_nat 10) "".

(** The long-path prefix [\\?\] (four characters). *)
Definition long_path_prefix : string := "\\?\".

(** [s.startswith(p)] *)
Fixpoint startswith (s p : string) {struct p} : bool :=
  match p, s with
  | EmptyString, _ => true
  | String a p', String b s' => Ascii.eqb a b && startswith s' p'
  | String _ _, EmptyString => false
  end.

(** [s[n:]] *)
Fixpoint str_from (n : nat) (s : string) : string :=
  match n, s with
  | O, _ => s
  | S n', String _ s' => str_from n' s'
  | S _, EmptyString => EmptyString
  end.

(** [s[n]], [None] where Python raises [IndexError]. *)
Definition str_index (s : string) (n : nat) : option Ascii.ascii := String.get n s.

(** [s.replace('/', '\\')] *)
Fixpoint replace_slashes (s : string) : string :=
  match s with
  | EmptyString => EmptyString
  | String c s' =>
      String (if Ascii.eqb c "/"%char then "\"%char else c) (replace_slashes s')
  end.

(** The idiom of lines 273-274 and 314-317:
    [if p.startswith('\\\\?\\'): p = p[4:]]. *)
Definition strip_long_path (p : string) : string :=
  if startswith p long_path_prefix then str_from 4 p else p.

(** Truth value of an optional string argument ([None] and [''] are false). *)
Definition truthy (o : option string) : bool :=
  match o with
  | None => false
  | Some s => negb (String.eqb s "")
  end.

(** The value of an optional string argument when it is true. *)
Definition given (o : option string) : option string :=
  match o with
  | Some s => if String.eqb s "" then None else Some s
  | None => None
  end.

(** ** The outside world

    What [dleapp.py] imports and calls but does not define: the operating
    system, the seekers of [scripts.search_files], [scripts.ilapfuncs],
    [scripts.report], the clock, the console.  The calls that the source
    guards ([FileSeeker*], [os.mkdir], [plugin.method], [json.load]) may
    raise, and so may [open] for writing (lines 99, 143 and 253), [input]
    at the end of the input and [int] beyond the interpreter's limit on
    digits.  The other calls are total here: the loggers, the report
    generator, [seeker.search], and the reading of a profile file that
    exists, as text. *)

(** ** Decoded JSON

    The values [json.load] returns: [None], [bool], [int], [float], [str],
    [list] and [dict] with string keys.  A float is kept by its exact value
    [m * 2^e], which is all that [==] looks at. *)

Inductive pyfloat :=
| FNan
| FInf (negative : bool)
| FDyadic (m e : Z).

#[local] Unset Elimination Schemes.
Inductive json :=
| JNull
| JBool (b : bool)
| JInt (z : Z)
| JFloat (f : pyfloat)
| JStr (s : string)
| JList (items : list json)
| JDict (members : gmap string json).
#[local] Set Elimination Schemes.

(** [v == s] for a [str] [s]. *)
Definition py_eq_str (v : json) (s : string) : bool :=
  match v with
  | JStr s' => String.eqb s' s
  | _ => false
  end.

Definition float_eq_int (f : pyfloat) (z : Z) : bool :=
  match f with
  | FDyadic m e =>
      if 0 <=? e then m * 2 ^ e =? z else m =? z * 2 ^ (- e)
  | _ => false
  end.

(** [v == z] for an [int] [z]: [bool] is a subclass of [int], and a float
    compares by value. *)
Definition py_eq_int (v : json) (z : Z) : bool :=
  match v with
  | JInt z' => z' =? z
  | JBool b => (if b then 1 else 0) =? z
  | JFloat f => float_eq_int f z
  | _ => false
  end.

(** [d.get(key)], [None] when the key is absent. *)
Definition dict_get (d : gmap string json) (key : string) : json :=
  default JNull (d !! key).

(** [d.get(key, dflt)] *)
Definition dict_get_default (d : gmap string json) (key : string)
    (dflt : json) : json :=
  default dflt (d !! key).

(** [OutputParameters] of [scripts.ilapfuncs]: the two attributes read here. *)
Record OutputParameters := {
  report_folder_base : string;
  temp_folder : string
}.

Class Externals := {
  World : Type;
  Seeker : Type;
  Secs : Type;
  CaseData : Type;
  dleapp_version : string;
  is_platform_windows : bool;
  os_path_exists : World -> string -> bool;
  os_path_isdir : World -> string -> bool;
  os_path_join : string -> string -> string;
  os_path_abspath : World -> string -> string;
  os_mkdir : string -> World -> World * result unit;
  FileSeekerDir : string -> World -> World * result Seeker;
  FileSeekerTar : string -> string -> World -> World * result Seeker;
  FileSeekerZip : string -> string -> World -> World * result Seeker;
  seeker_search : Seeker -> string -> World -> World * list string;
  process_time : World -> Secs;
  secs_sub : Secs -> Secs -> Secs;
  strftime_HMS : Secs -> string;
  empty_casedata : CaseData;
  OutputParameters_init : string -> World -> World * OutputParameters;
  file_read : World -> string -> string;
  json_load : string -> string + json;
  (* open(path, mode) with mode "w+", "wt" or "a": the file is there
     afterwards, or the call raises *)
  open_for_writing : string -> string -> World -> World * result unit;
  (* the lines that the calls of input() read, up to the end of the input *)
  typed_lines : World -> list string;
  (* str of a tuple of two strings *)
  str_of_tuple : string * string -> string;
  (* sys.get_int_max_str_digits(): 0 when there is no limit *)
  int_max_str_digits : N
}.

Section Dispatch.
Context `{E : Externals}.

(** ** Observable calls *)

Inductive event :=
| EPrint (line : string)
| ELogfunc (message : string)
| ELogdevinfo
| EAuditOpen (path : string)
| EAuditWrite (text : string)
| EAuditClose
| EMkdir (path : string)
| EInvoke (plugin_name : string) (files_found : list string)
          (category_folder : string) (wrap_text : bool)
| ESetProgressBar (value : Z)
| EGenerateReport (report_folder_base : string) (run_time_secs : Secs)
                  (run_time_HMS : string) (extracttype : string)
                  (input_path : string) (casedata : CaseData)
| EPathsWrite (text : string)
| EInput (prompt : string)
| EDump (filename : string) (value : json).

(** ** Computations: world state, trace of calls, exceptions *)

Definition M (A : Type) : Type := World -> World * list event * result A.

Definition ret {A} (a : A) : M A := fun w => (w, [], Ok a).

Definition bind {A B} (m : M A) (k : A -> M B) : M B :=
  fun w =>
    match m w with
    | (w1, tr1, Ok a) => let '(w2, tr2, r) := k a w1 in (w2, tr1 ++ tr2, r)
    | (w1, tr1, Raised ex) => (w1, tr1, Raised ex)
    end.

Definition emit (e : event) : M unit := fun w => (w, [e], Ok tt).

Definition raise {A} (ex : exn) : M A := fun w => (w, [], Raised ex).

(** An external call that changes the world and may raise. *)
Definition call {A} (f : World -> World * result A) : M A :=
  fun w => let '(w', r) := f w in (w', [], r).

(** An external call that changes the world and returns. *)
Definition call_total {A} (f : World -> World * A) : M A :=
  fun w => let '(w', a) := f w in (w', [], Ok a).

(** An external call that only reads the world. *)
Definition ask {A} (f : World -> A) : M A := fun w => (w, [], Ok (f w)).

(** [try: body / except <classes> as ex: handler ex] *)
Definition try_except {A} (body : M A) (caught : exn_class -> bool)
    (handler : exn -> M A) : M A :=
  fun w =>
    match body w with
    | (w1, tr1, Raised ex) =>
        if caught (exn_cls ex)
        then let '(w2, tr2, r) := handler ex w1 in (w2, tr1 ++ tr2, r)
        else (w1, tr1, Raised ex)
    | done => done
    end.

Declare Scope py_scope.
Notation "x ← m ; k" := (bind m (fun x => k))
  (at level 20, m at level 100, k at level 200, only parsing) : py_scope.
Notation "m ;; k" := (bind m (fun _ => k))
  (at level 100, k at level 200, only parsing, right associativity) : py_scope.
Local Open Scope py_scope.

Definition logfunc (message : string) : M unit := emit (ELogfunc message).
Definition print (line : string) : M unit := emit (EPrint line).
Definition log_write (text : string) : M unit := emit (EAuditWrite text).

(** ** Plugins *)

(** [plugin.search] is a single pattern, a tuple or a list of patterns. *)
Inductive search_spec :=
| SearchStr (regex : string)
| SearchTuple (regexes : list string)
| SearchList (regexes : list string).

Record PluginSpec := {
  name : string;
  module_name : string;
  category : string;
  search : search_spec;
  method : list string -> string -> Seeker -> bool -> M unit
}.

(** Control after a block of the loop body: fall through to the next
    statement, or [continue] with the next plugin. *)
Inductive flow := Fallthrough | Continue.

(** ** [crunch_artifacts] *)

(** Lines 224-244.  [None] is the [return False] of either branch. *)
Definition open_seeker (extracttype input_path : string)
    (out_params : OutputParameters) : M (option Seeker) :=
  try_except
    (if String.eqb extracttype "fs" then
       seeker ← call (FileSeekerDir input_path); ret (Some seeker)
     else if String.eqb extracttype "tar" || String.eqb extracttype "gz" then
       seeker ← call (FileSeekerTar input_path (temp_folder out_params));
       ret (Some seeker)
     else if String.eqb extracttype "zip" then
       seeker ← call (FileSeekerZip input_path (temp_folder out_params));
       ret (Some seeker)
     else
       logfunc "Error on argument -o (input type)";;
       ret None)
    (fun _ => true)
    (fun ex =>
       logfunc "Had an exception in Seeker - see details below. Terminating Program!";;
       logfunc (exn_traceback ex);;
       ret None).

(** Lines 260-263. *)
Definition search_regexes (plugin : PluginSpec) : list string :=
  match search plugin with
  | SearchStr regex => [regex]
  | SearchTuple regexes => regexes
  | SearchList regexes => regexes
  end.

(** Lines 272-275. *)
Fixpoint write_located (found : list string) : M unit :=
  match found with
  | [] => ret tt
  | pathh :: rest =>
      log_write ("<ul><li>" +:+ strip_long_path pathh +:+ "</li></ul>");;
      write_located rest
  end.

Definition found_header (found : list string) (regex : string) : string :=
  "<ul><li>" +:+ pretty (length found) +:+ " "
  +:+ (if (1 <? length found)%nat then "files" else "file")
  +:+ " for regex <i>" +:+ regex +:+ "</i> located at:".

Definition no_file_note (regex : string) : string :=
  "<ul><li>No file found for regex <i>" +:+ regex +:+ "</i></li></ul>".

(** Lines 266-277: the loop over the patterns, [files_found] accumulated. *)
Fixpoint search_files (seeker : Seeker) (regexes : list string)
    (files_found : list string) : M (list string) :=
  match regexes with
  | [] => ret files_found
  | artifact_search_regex :: rest =>
      found ← call_total (seeker_search seeker artifact_search_regex);
      match found with
      | [] =>
          log_write (no_file_note artifact_search_regex);;
          search_files seeker rest files_found
      | _ :: _ =>
          log_write (found_header found artifact_search_regex);;
          write_located found;;
          log_write "</li></ul>";;
          search_files seeker rest (files_found ++ found)
      end
  end.

Definition caught_by_mkdir_handler (c : exn_class) : bool :=
  match c with
  | FileExistsError | FileNotFoundError => true
  | _ => false
  end.

(** Lines 282-288. *)
Definition ensure_category_folder (plugin : PluginSpec)
    (category_folder : string) : M flow :=
  present ← ask (fun w => os_path_exists w category_folder);
  if negb present then
    try_except
      (emit (EMkdir category_folder);;
       call (os_mkdir category_folder);;
       ret Fallthrough)
      caught_by_mkdir_handler
      (fun ex =>
         logfunc ("Error creating " +:+ name plugin
                  +:+ " report directory at path " +:+ category_folder);;
         logfunc ("Error was " +:+ exn_str ex);;
         ret Continue)
  else ret Fallthrough.

(** Lines 289-295. *)
Definition invoke_method (plugin : PluginSpec) (files_found : list string)
    (category_folder : string) (seeker : Seeker) (wrap_text : bool) : M flow :=
  try_except
    (emit (EInvoke (name plugin) files_found category_folder wrap_text);;
     method plugin files_found category_folder seeker wrap_text;;
     ret Fallthrough)
    (fun _ => true)
    (fun ex =>
       logfunc ("Reading " +:+ name plugin +:+ " artifact had errors!");;
       logfunc ("Error was " +:+ exn_str ex);;
       logfunc ("Exception Traceback: " +:+ exn_traceback ex);;
       ret Continue).

(** Lines 278-297: the block under [if files_found:]. *)
Definition run_plugin (plugin : PluginSpec) (files_found : list string)
    (seeker : Seeker) (out_params : OutputParameters) (wrap_text : bool)
    : M flow :=
  logfunc "";;
  logfunc (name plugin +:+ " [" +:+ module_name plugin +:+ "] artifact started");;
  let category_folder :=
    os_path_join (report_folder_base out_params) (category plugin) in
  made ← ensure_category_folder plugin category_folder;
  match made with
  | Continue => ret Continue
  | Fallthrough =>
      ran ← invoke_method plugin files_found category_folder seeker wrap_text;
      match ran with
      | Continue => ret Continue
      | Fallthrough =>
          logfunc (name plugin +:+ " [" +:+ module_name plugin
                   +:+ "] artifact completed");;
          ret Fallthrough
      end
  end.

(** Lines 260-300: one iteration of the loop over the plugins; the value is
    [categories_searched] after it. *)
Definition process_plugin (seeker : Seeker) (out_params : OutputParameters)
    (ratio : Z) (wrap_text : bool) (plugin : PluginSpec)
    (categories_searched : Z) : M Z :=
  log_write ("<b>For " +:+ name plugin +:+ " parser</b>");;
  files_found ← search_files seeker (search_regexes plugin) [];
  after ← match files_found with
          | [] => ret Fallthrough
          | _ :: _ => run_plugin plugin files_found seeker out_params wrap_text
          end;
  match after with
  | Continue => ret categories_searched
  | Fallthrough =>
      emit (ESetProgressBar ((categories_searched + 1) * ratio));;
      ret (categories_searched + 1)
  end.

(** Lines 259-300: the loop. *)
Fixpoint process_plugins (seeker : Seeker) (out_params : OutputParameters)
    (ratio : Z) (wrap_text : bool) (plugins : list PluginSpec)
    (categories_searched : Z) : M Z :=
  match plugins with
  | [] => ret categories_searched
  | plugin :: rest =>
      categories_searched' ←
        process_plugin seeker out_params ratio wrap_text plugin
          categories_searched;
      process_plugins seeker out_params ratio wrap_text rest
        categories_searched'
  end.

Definition dashes : string :=
  "--------------------------------------------------------------------------------------".

(** Lines 210-322.  The [loader] argument is not used by the body and is
    left out. *)
Definition crunch_artifacts (plugins : list PluginSpec)
    (extracttype input_path : string) (out_params : OutputParameters)
    (ratio : Z) (wrap_text : bool) (casedata : CaseData)
    (profile_filename : option string) : M bool :=
  start ← ask process_time;
  logfunc "Processing started. Please wait. This may take a few minutes...";;
  logfunc (nl +:+ dashes);;
  logfunc ("DLEAPP v" +:+ dleapp_version
           +:+ ": Drones Logs, Events, and Properties Parser");;
  logfunc "Objective: Triage Drone Extractions.";;
  logfunc "By: Alexis Brignoni | @AlexisBrignoni | abrignoni.com";;
  logfunc ("By: Yogesh Khatri   | @SwiftForensics | swiftforensics.com" +:+ nl);;
  emit ELogdevinfo;;
  opened ← open_seeker extracttype input_path out_params;
  match opened with
  | None => ret false
  | Some seeker =>
      (match given profile_filename with
       | Some filename => logfunc ("Loaded profile: " +:+ filename)
       | None => ret tt
       end);;
      logfunc ("Artifact categories to parse: " +:+ pretty (length plugins));;
      logfunc ("File/Directory selected: " +:+ input_path);;
      logfunc (nl +:+ dashes);;
      call (open_for_writing
              (os_path_join
                 (os_path_join (report_folder_base out_params) "Script Logs")
                 "ProcessedFilesLog.html") "w+");;
      emit (EAuditOpen
              (os_path_join
                 (os_path_join (report_folder_base out_params) "Script Logs")
                 "ProcessedFilesLog.html"));;
      log_write ("Extraction/Path selected: " +:+ input_path +:+ "<br><br>");;
      process_plugins seeker out_params ratio wrap_text plugins 0;;
      emit EAuditClose;;
      logfunc "";;
      logfunc "Processes completed.";;
      finish ← ask process_time;
      let run_time_secs := secs_sub finish start in
      let run_time_HMS := strftime_HMS run_time_secs in
      logfunc ("Processing time = " +:+ run_time_HMS);;
      logfunc "";;
      logfunc "Report generation started.";;
      let base' :=
        if is_platform_windows
        then strip_long_path (report_folder_base out_params)
        else report_folder_base out_params in
      let input_path' :=
        if is_platform_windows then strip_long_path input_path
        else input_path in
      emit (EGenerateReport base' run_time_secs run_time_HMS extracttype
              input_path' casedata);;
      logfunc "Report generation Completed.";;
      logfunc "";;
      logfunc ("Report location: " +:+ base');;
      ret true
  end.

(** ** Command line *)

(** The namespace built by [parser.parse_args()]. *)
Record Args := {
  arg_t : option string;
  arg_output_path : option string;
  arg_input_path : option string;
  arg_wrap_text : bool;
  arg_load_profile : option string;
  arg_create_profile : option string;
  arg_artifact_paths : bool
}.

Definition no_arg_provided (ARG : string) : string :=
  "No " +:+ ARG +:+ " provided. Run the program again.".

Definition profile_not_found : string :=
  "DLEAPP Profile file not found! Run the program again.".

(** Lines 15-34.  [Some message] is [raise argparse.ArgumentError(None,
    message)], [None] the normal return. *)
Definition validate_args (w : World) (args : Args) : option string :=
  if arg_artifact_paths args || truthy (arg_create_profile args) then None
  else
    match arg_input_path args, arg_output_path args, arg_t args with
    | None, _, _ => Some (no_arg_provided "INPUT_PATH")
    | Some _, None, _ => Some (no_arg_provided "OUTPUT_PATH")
    | Some _, Some _, None => Some (no_arg_provided "T")
    | Some input_path, Some output_path, Some _ =>
        if negb (os_path_exists w input_path) then
          Some "INPUT file/folder does not exist! Run the program again."
        else if negb (os_path_exists w output_path) then
          Some "OUTPUT folder does not exist! Run the program again."
        else
          match given (arg_load_profile args) with
          | Some profile =>
              if negb (os_path_exists w profile)
              then Some profile_not_found
              else None
          | None => None
          end
    end.

(** An exception raised by the interpreter itself; no handler of
    [dleapp.py] formats its traceback. *)
Definition python_error {A} (cls : exn_class) (message : string) : M A :=
  raise (Exn cls message "").

(** ** Profile loading *)

(** The [str] members of [set(v)].  A member that is not a [str] never
    equals a plugin name, so only the [str] members decide [name in set(v)];
    an unhashable member and a value that is not iterable raise. *)
Fixpoint str_members (items : list json) : M (gset string) :=
  match items with
  | [] => ret ∅
  | JStr s :: rest => names ← str_members rest; ret ({[ s ]} ∪ names)
  | JList _ :: _ => python_error TypeError "unhashable type: 'list'"
  | JDict _ :: _ => python_error TypeError "unhashable type: 'dict'"
  | _ :: rest => str_members rest
  end.

Fixpoint characters (s : string) : gset string :=
  match s with
  | EmptyString => ∅
  | String c s' => {[ String c EmptyString ]} ∪ characters s'
  end.

Definition py_set (v : json) : M (gset string) :=
  match v with
  | JList items => str_members items
  | JStr s => ret (characters s)
  | JDict members => ret (dom members)
  | JNull => python_error TypeError "'NoneType' object is not iterable"
  | JBool _ => python_error TypeError "'bool' object is not iterable"
  | JInt _ => python_error TypeError "'int' object is not iterable"
  | JFloat _ => python_error TypeError "'float' object is not iterable"
  end.

Definition invalid_profile (why : string) : string :=
  "File was not a valid profile file: " +:+ why.

(** Lines 166-188.  [None] is one of the three [print; return] exits,
    [Some plugins] the new value of [selected_plugins]. *)
Definition load_profile (available_plugins : list PluginSpec)
    (profile_filename : string) : M (option (list PluginSpec)) :=
  content ← ask (fun w => file_read w profile_filename);
  match json_load content with
  | inl json_ex =>
      print (invalid_profile json_ex);;
      ret None
  | inr (JDict profile) =>
      if negb (py_eq_str (dict_get profile "leapp") "dleapp")
         || negb (py_eq_int (dict_get profile "format_version") 1)
      then
        print (invalid_profile "incorrect LEAPP or version");;
        ret None
      else
        profile_plugins ← py_set (dict_get_default profile "plugins" (JList []));
        ret (Some (filter (fun selected_plugin =>
                             name selected_plugin ∈ profile_plugins)
                     available_plugins))
  | inr _ =>
      print (invalid_profile "invalid format");;
      ret None
  end.

(** ** [create_profile]

    The interactive session of lines 37-107.  The console is explicit: the
    lines typed by the user are an argument, and the calls of [print],
    [input] and [json.dump] are returned in order, with the world as the
    opening of the profile file leaves it.  [input] raises [EOFError] when
    the lines are used up.  Typed lines are taken to be ASCII text, for
    which [str.lower], [str.strip] and [str.isdigit] are as below; [str] of
    a tuple is a parameter. *)

Inductive console :=
| CPrint (line : string)
| CInput (prompt : string)
| CDump (filename : string) (value : json).

(** How the session ends: the [return] of line 104, the [EOFError] of an
    [input] call, or another exception ([int] at line 77, [open] at line
    99). *)
Inductive session_end :=
| SessionReturned
| EndOfInput
| SessionRaised (ex : exn).

(** A parser as the session shows it: [(category, name)]. *)
Definition parser_id : Type := string * string.

(** [parsers_in_profile]: a [dict] from number to parser, in insertion
    order. *)
Definition profile_dict : Type := list (N * parser_id).

(** [c.lower()] for one ASCII character. *)
Definition lower_char (c : Ascii.ascii) : Ascii.ascii :=
  let n := Ascii.nat_of_ascii c in
  if (65 <=? n)%nat && (n <=? 90)%nat then Ascii.ascii_of_nat (n + 32) else c.

(** [s.lower()] *)
Fixpoint lower (s : string) : string :=
  match s with
  | EmptyString => EmptyString
  | String c s' => String (lower_char c) (lower s')
  end.

(** [c.isspace()] for one ASCII character. *)
Definition is_whitespace (c : Ascii.ascii) : bool :=
  let n := Ascii.nat_of_ascii c in
  ((9 <=? n)%nat && (n <=? 13)%nat) || ((28 <=? n)%nat && (n <=? 32)%nat).

(** [s.lstrip()] *)
Fixpoint lstrip (s : string) : string :=
  match s with
  | EmptyString => EmptyString
  | String c s' => if is_whitespace c then lstrip s' else s
  end.

(** [s.strip()] *)
Definition strip (s : string) : string :=
  String.rev (lstrip (String.rev (lstrip s))).

(** [s.split(sep)], [cur] being the reversed piece read so far. *)
Fixpoint split_go (sep : Ascii.ascii) (cur : string) (s : string)
    : list string :=
  match s with
  | EmptyString => [String.rev cur]
  | String c s' =>
      if Ascii.eqb c sep then String.rev cur :: split_go sep EmptyString s'
      else split_go sep (String c cur) s'
  end.

Definition split (sep : Ascii.ascii) (s : string) : list string :=
  split_go sep EmptyString s.

Definition is_digit (c : Ascii.ascii) : bool :=
  let n := Ascii.nat_of_ascii c in (48 <=? n)%nat && (n <=? 57)%nat.

Fixpoint all_digits (s : string) : bool :=
  match s with
  | EmptyString => true
  | String c s' => is_digit c && all_digits s'
  end.

(** [s.isdigit()] *)
Definition isdigit (s : string) : bool :=
  match s with
  | EmptyString => false
  | String _ _ => all_digits s
  end.

(** [int(s)] for a string of digits, [acc] being the value read so far. *)
Fixpoint int_go (acc : N) (s : string) : N :=
  match s with
  | EmptyString => acc
  | String c s' => int_go (acc * 10 + N.of_nat (Ascii.nat_of_ascii c - 48)) s'
  end.

(** [int(s)] for a string of digits: [None] where [int] raises
    [ValueError], the string having more digits (leading zeros among them)
    than the interpreter allows. *)
Definition int_of (s : string) : option N :=
  if negb (int_max_str_digits =? 0)%N
     && (int_max_str_digits <? N.of_nat (String.length s))%N
  then None
  else Some (int_go 0%N s).

Definition int_limit_error (s : string) : exn :=
  Exn ValueError
    ("Exceeds the limit (" +:+ pretty int_max_str_digits
     +:+ " digits) for integer string conversion: value has "
     +:+ pretty (String.length s)
     +:+ " digits; use sys.set_int_max_str_digits() to increase the limit")
    "".

(** [p <= q] on tuples of strings: by category, then by name. *)
Definition parser_leb (p q : parser_id) : bool :=
  match String.compare p.1 q.1 with
  | Lt => true
  | Eq => String.leb p.2 q.2
  | Gt => false
  end.

Definition parser_le (p q : parser_id) : Prop := parser_leb p q = true.

#[global] Instance parser_le_dec : RelDecision parser_le.
Proof. intros p q. unfold parser_le. apply _. Defined.

(** Lines 38-42: the parsers in the order of [list.sort]. *)
Definition available_parsers_of (available_plugins : list PluginSpec)
    : list parser_id :=
  merge_sort parser_le
    (map (fun parser_data => (category parser_data, name parser_data))
       available_plugins).

(** [number in parsers_in_profile], with the value. *)
Fixpoint dict_lookup (number : N) (d : profile_dict) : option parser_id :=
  match d with
  | [] => None
  | (k, v) :: rest => if (k =? number)%N then Some v else dict_lookup number rest
  end.

(** [del parsers_in_profile[number]] *)
Fixpoint dict_delete (number : N) (d : profile_dict) : profile_dict :=
  match d with
  | [] => []
  | (k, v) :: rest =>
      if (k =? number)%N then dict_delete number rest
      else (k, v) :: dict_delete number rest
  end.

Definition instructions : string :=
  "You can type:" +:+ nl
  +:+ "   - 'a' to add or remove parsers in the profile file" +:+ nl
  +:+ "   - 'l' to display the list of all available parsers with their number" +:+ nl
  +:+ "   - 'p' to display the parsers added into the profile file" +:+ nl
  +:+ "   - 'q' to quit and save" +:+ nl.

Definition choice_prompt : string := "Please enter your choice: ".

Definition numbers_prompt : string :=
  "Enter the numbers of parsers, seperated by a comma, to add or remove in the profile file: ".

Definition name_prompt : string := "Enter the name of the profile: ".

Definition fifty_dashes : string :=
  "--------------------------------------------------".

(** The object written by line 100. *)
Definition profile_json (parsers : list string) : json :=
  JDict {[ "leapp" := JStr "dleapp"; "format_version" := JInt 1;
           "plugins" := JList (JStr <$> parsers) ]}.

Section CreateProfile.
(** [str] of a tuple of two strings. *)
Variable tuple_str : parser_id -> string.

(** Lines 59-60. *)
Definition numbered (number : N) (parser : parser_id) : console :=
  CPrint (pretty number +:+ " " +:+ tuple_str parser).

Fixpoint list_parsers (number : N) (parsers : list parser_id) : list console :=
  match parsers with
  | [] => []
  | parser :: rest => numbered number parser :: list_parsers (number + 1) rest
  end.

(** Lines 65-66. *)
Definition show_profile (d : profile_dict) : list console :=
  map (fun entry => numbered entry.1 entry.2) d.

(** Lines 76-88: one of the comma-separated pieces, already stripped; the
    third component is the exception that leaves the loop, if any.  The
    index [parser_number - 1] is within the list when the test of line 78
    holds. *)
Definition toggle_parser (available_parsers : list parser_id)
    (d : profile_dict) (parser_number : string)
    : profile_dict * list console * option exn :=
  if isdigit parser_number then
    match int_of parser_number with
    | None => (d, [], Some (int_limit_error parser_number))
    | Some number =>
        if (0 <? number)%N && (number <=? N.of_nat (length available_parsers))%N
        then
          match dict_lookup number d with
          | None =>
              match available_parsers !! N.to_nat (number - 1) with
              | Some parser_to_add =>
                  (d ++ [(number, parser_to_add)],
                   [CPrint ("parser number " +:+ pretty number +:+ " "
                            +:+ tuple_str parser_to_add +:+ " was added")],
                   None)
              | None => (d, [], None)
              end
          | Some parser_to_remove =>
              (dict_delete number d,
               [CPrint ("parser number " +:+ pretty number +:+ " "
                        +:+ tuple_str parser_to_remove +:+ " was removed")],
               None)
          end
        else (d, [CPrint ("Please enter the number of a parser!!!" +:+ nl)],
              None)
    end
  else (d, [], None).

(** Lines 75-88: the loop over the pieces, left at the first exception. *)
Fixpoint toggle_parsers (available_parsers : list parser_id)
    (d : profile_dict) (parser_numbers : list string)
    : profile_dict * list console * option exn :=
  match parser_numbers with
  | [] => (d, [], None)
  | parser_number :: rest =>
      match toggle_parser available_parsers d parser_number with
      | (d1, out1, Some ex) => (d1, out1, Some ex)
      | (d1, out1, None) =>
          let '(d2, out2, raised) := toggle_parsers available_parsers d1 rest in
          (d2, out1 ++ out2, raised)
      end
  end.

(** Lines 72-74. *)
Definition parse_numbers (line : string) : list string :=
  map strip (split ","%char line).

(** Lines 94-96: the name of the profile is asked for until it is not
    empty. *)
Fixpoint ask_profile_name (inputs : list string)
    : list console * option string :=
  match inputs with
  | [] => ([CInput name_prompt], None)
  | profile_filename :: rest =>
      if String.eqb profile_filename ""
      then
        let '(out, answer) := ask_profile_name rest in
        (CInput name_prompt :: out, answer)
      else ([CInput name_prompt], Some profile_filename)
  end.

(** Lines 92-104. *)
Definition quit_and_save (path : string) (d : profile_dict)
    (inputs : list string) (w : World) : World * list console * session_end :=
  match d with
  | [] =>
      (w,
       [CPrint ("No parser added. The profile file was not created." +:+ nl)],
       SessionReturned)
  | _ :: _ =>
      let parsers := map (fun entry => entry.2.2) d in
      match ask_profile_name inputs with
      | (out, None) => (w, out, EndOfInput)
      | (out, Some profile_filename) =>
          let filename := os_path_join path (profile_filename +:+ ".dlprofile") in
          match open_for_writing filename "wt" w with
          | (w1, Ok _) =>
              (w1,
               out ++ [CDump filename (profile_json parsers);
                       CPrint (nl +:+ "Profile saved: " +:+ filename)],
               SessionReturned)
          | (w1, Raised ex) => (w1, out, SessionRaised ex)
          end
      end
  end.

(** Lines 53-107: the loop, from the state of [parsers_in_profile]. *)
Fixpoint session (available_parsers : list parser_id) (path : string)
    (d : profile_dict) (inputs : list string) (w : World) {struct inputs}
    : World * list console * session_end :=
  match inputs with
  | [] => (w, [CPrint instructions; CInput choice_prompt], EndOfInput)
  | line :: rest =>
      let user_choice := lower line in
      let asked := [CPrint instructions; CInput choice_prompt; CPrint ""] in
      if String.eqb user_choice "l" then
        let '(w1, out, ending) := session available_parsers path d rest w in
        (w1,
         asked ++ CPrint "Available parsers:"
                  :: list_parsers 1 available_parsers ++ [CPrint ""] ++ out,
         ending)
      else if String.eqb user_choice "p" then
        let '(w1, out, ending) := session available_parsers path d rest w in
        (w1,
         asked
         ++ match d with
            | [] => [CPrint ("No parser added to the profile file" +:+ nl)]
            | _ :: _ => show_profile d ++ [CPrint ""]
            end
         ++ out,
         ending)
      else if String.eqb user_choice "a" then
        match rest with
        | [] => (w, asked ++ [CInput numbers_prompt], EndOfInput)
        | parser_numbers :: rest' =>
            match toggle_parsers available_parsers d
                    (parse_numbers parser_numbers) with
            | (_, said, Some ex) =>
                (w, asked ++ CInput numbers_prompt :: said, SessionRaised ex)
            | (d', said, None) =>
                let '(w1, out, ending) :=
                  session available_parsers path d' rest' w in
                (w1,
                 asked ++ CInput numbers_prompt :: said ++ [CPrint ""] ++ out,
                 ending)
            end
        end
      else if String.eqb user_choice "q" then
        let '(w1, out, ending) := quit_and_save path d rest w in
        (w1, asked ++ out, ending)
      else
        let '(w1, out, ending) := session available_parsers path d rest w in
        (w1,
         asked ++ CPrint ("Please enter a valid choice!!!" +:+ nl) :: out,
         ending)
  end.

(** Lines 37-107. *)
Definition create_profile (available_plugins : list PluginSpec)
    (path : string) (inputs : list string) (w : World)
    : World * list console * session_end :=
  let '(w1, out, ending) :=
    session (available_parsers_of available_plugins) path [] inputs w in
  (w1,
   CPrint fifty_dashes
   :: CPrint ("Welcome to the DLEAPP Profile file creation" +:+ nl) :: out,
   ending).

End CreateProfile.

(** The session as a computation: its console calls as events, and the way
    it ends as a result. *)
Definition console_event (c : console) : event :=
  match c with
  | CPrint line => EPrint line
  | CInput prompt => EInput prompt
  | CDump filename value => EDump filename value
  end.

Definition session_result (ending : session_end) : result unit :=
  match ending with
  | SessionReturned => Ok tt
  | EndOfInput => Raised (Exn EOFError "EOF when reading a line" "")
  | SessionRaised ex => Raised ex
  end.

(** [create_profile(available_plugins, path)] on the lines that are typed. *)
Definition run_create_profile (available_plugins : list PluginSpec)
    (path : string) : M unit :=
  fun w =>
    let '(w1, out, ending) :=
      create_profile str_of_tuple available_plugins path (typed_lines w) w in
    (w1, console_event <$> out, session_result ending).

(** ** [main] *)

(** Lines 140-154. *)
Fixpoint write_paths (regexes : list string) : M unit :=
  match regexes with
  | [] => ret tt
  | x :: rest => emit (EPathsWrite (x +:+ nl));; print x;; write_paths rest
  end.

Fixpoint list_artifact_paths (plugins : list PluginSpec) : M unit :=
  match plugins with
  | [] => ret tt
  | plugin :: rest =>
      (match search plugin with
       | SearchTuple regexes => write_paths regexes
       | SearchStr regex => emit (EPathsWrite (regex +:+ nl));; print regex
       | SearchList _ =>
           python_error TypeError
             "can only concatenate list (not 'str') to list"
       end);;
      list_artifact_paths rest
  end.

(** Lines 198-199: [if p[1] == ':' and also: p = '\\?\' + p.replace('/', '\')]. *)
Definition add_long_path_prefix (p : string) (also : bool) : M string :=
  match str_index p 1 with
  | None => python_error IndexError "string index out of range"
  | Some c =>
      if Ascii.eqb c ":"%char && also
      then ret (long_path_prefix +:+ replace_slashes p)
      else ret p
  end.

(** How [main] ends: [parser.error] exits the process with a usage message,
    every other path returns. *)
Inductive main_outcome :=
| ParserError (message : string)
| MainReturned.

(** Lines 190-208.  [crunch_artifacts] is called from the handler of the
    [NameError] that reading the unassigned local [casedata] always raises. *)
Definition dispatch (selected_plugins : list PluginSpec) (args : Args)
    (input_path output_path extracttype : string)
    (profile_filename : option string) : M main_outcome :=
  let wrap_text := arg_wrap_text args in
  output_path ← ask (fun w => os_path_abspath w output_path);
  input_path ←
    (if is_platform_windows
     then add_long_path_prefix input_path (String.eqb extracttype "fs")
     else ret input_path);
  output_path ←
    (if is_platform_windows
     then add_long_path_prefix output_path true
     else ret output_path);
  out_params ← call_total (OutputParameters_init output_path);
  let casedata := empty_casedata in
  crunch_artifacts selected_plugins extracttype input_path out_params 1
    wrap_text casedata profile_filename;;
  ret MainReturned.

(** Lines 164-208.  After [validate_args] has returned on this path the
    three mandatory arguments are not [None]; Python would raise a
    [TypeError] on [None] at line 193. *)
Definition load_and_dispatch (available_plugins : list PluginSpec)
    (args : Args) : M main_outcome :=
  match arg_input_path args, arg_output_path args, arg_t args with
  | Some input_path, Some output_path, Some extracttype =>
      match given (arg_load_profile args) with
      | Some profile_filename =>
          loaded ← load_profile available_plugins profile_filename;
          match loaded with
          | None => ret MainReturned
          | Some selected_plugins =>
              dispatch selected_plugins args input_path output_path
                extracttype (Some profile_filename)
          end
      | None =>
          dispatch available_plugins args input_path output_path
            extracttype None
      end
  | _, _, _ =>
      python_error TypeError
        "expected str, bytes or os.PathLike object, not NoneType"
  end.

(** Lines 110-208, from [loader.plugins] and the parsed arguments. *)
Definition main (available_plugins : list PluginSpec) (args : Args)
    : M main_outcome :=
  print ("Info: " +:+ pretty (length available_plugins) +:+ " plugins loaded.");;
  let selected_plugins := available_plugins in
  verdict ← ask (fun w => validate_args w args);
  match verdict with
  | Some message => ret (ParserError message)
  | None =>
      if arg_artifact_paths args then
        print "Artifact path list generation started.";;
        print "";;
        call (open_for_writing "path_list.txt" "a");;
        list_artifact_paths available_plugins;;
        print "";;
        print "Artifact path list generation completed";;
        ret MainReturned
      else
        match given (arg_create_profile args) with
        | Some path =>
            isdir ← ask (fun w => os_path_isdir w path);
            if isdir then
              run_create_profile selected_plugins path;;
              ret MainReturned
            else
              print ("OUTPUT folder for storing DLEAPP Profile file does not exist!"
                     +:+ nl +:+ "Run the program again.");;
              ret MainReturned
        | None => load_and_dispatch available_plugins args
        end
  end.

(** ** Vocabulary of the properties

    Projections of the outcome of a computation, what the seeker returns
    for the patterns of a plugin, the lines the dispatcher writes, and the
    conditions the properties are stated under. *)

Definition world_of {A} (r : World * list event * result A) : World := r.1.1.
Definition trace_of {A} (r : World * list event * result A) : list event := r.1.2.
Definition result_of {A} (r : World * list event * result A) : result A := r.2.

(** [r] with the calls [tr] made before it. *)
Definition after_calls {A} (tr : list event)
    (r : World * list event * result A) : World * list event * result A :=
  let '(w, tr', x) := r in (w, tr ++ tr', x).

(** The lists [found] of the successive [seeker.search] calls of one plugin,
    starting in world [w]. *)
Fixpoint search_results (seeker : Seeker) (regexes : list string) (w : World)
    : list (list string) :=
  match regexes with
  | [] => []
  | regex :: rest =>
      (seeker_search seeker regex w).2
      :: search_results seeker rest (seeker_search seeker regex w).1
  end.

Fixpoint world_after_search (seeker : Seeker) (regexes : list string)
    (w : World) : World :=
  match regexes with
  | [] => w
  | regex :: rest =>
      world_after_search seeker rest (seeker_search seeker regex w).1
  end.

(** The audit entry of one pattern: a note that nothing was found, or the
    number of matches followed by one line per location, the long-path prefix
    removed. *)
Definition located_line (pathh : string) : event :=
  EAuditWrite ("<ul><li>"
               +:+ (if startswith pathh "\\?\" then str_from 4 pathh else pathh)
               +:+ "</li></ul>").

Definition audit_entry (regex : string) (found : list string) : list event :=
  match found with
  | [] =>
      [EAuditWrite ("<ul><li>No file found for regex <i>" +:+ regex
                    +:+ "</i></li></ul>")]
  | _ :: _ =>
      EAuditWrite ("<ul><li>" +:+ pretty (length found) +:+ " "
                   +:+ (if (1 <? length found)%nat then "files" else "file")
                   +:+ " for regex <i>" +:+ regex +:+ "</i> located at:")
      :: map located_line found ++ [EAuditWrite "</li></ul>"]
  end.

Fixpoint audit_entries (regexes : list string) (results : list (list string))
    : list event :=
  match regexes, results with
  | regex :: regexes', found :: results' =>
      audit_entry regex found ++ audit_entries regexes' results'
  | _, _ => []
  end.

Definition category_folder_of (out_params : OutputParameters)
    (plugin : PluginSpec) : string :=
  os_path_join (report_folder_base out_params) (category plugin).

Definition started_line (plugin : PluginSpec) : string :=
  name plugin +:+ " [" +:+ module_name plugin +:+ "] artifact started".

Definition completed_line (plugin : PluginSpec) : string :=
  name plugin +:+ " [" +:+ module_name plugin +:+ "] artifact completed".

(** The three lines logged for an exception of the parse routine. *)
Definition method_failure_log (plugin : PluginSpec) (ex : exn) : list event :=
  [ELogfunc ("Reading " +:+ name plugin +:+ " artifact had errors!");
   ELogfunc ("Error was " +:+ exn_str ex);
   ELogfunc ("Exception Traceback: " +:+ exn_traceback ex)].

(** The two lines logged for a folder that could not be created. *)
Definition mkdir_failure_log (plugin : PluginSpec) (folder : string)
    (ex : exn) : list event :=
  [ELogfunc ("Error creating " +:+ name plugin
             +:+ " report directory at path " +:+ folder);
   ELogfunc ("Error was " +:+ exn_str ex)].

(** The audit lines of one plugin: its heading, then one entry per pattern
    in the order of [plugin.search]. *)
Definition audit_block (seeker : Seeker) (plugin : PluginSpec) (w : World)
    : list event :=
  EAuditWrite ("<b>For " +:+ name plugin +:+ " parser</b>")
  :: audit_entries (search_regexes plugin)
       (search_results seeker (search_regexes plugin) w).

(** [files_found] when the loop over the patterns of [plugin] is left. *)
Definition files_found_of (seeker : Seeker) (plugin : PluginSpec) (w : World)
    : list string :=
  concat (search_results seeker (search_regexes plugin) w).

Definition progress_event (ratio categories_searched : Z) : event :=
  ESetProgressBar ((categories_searched + 1) * ratio).

(** Run-log lines before the seeker is opened. *)
Definition banner : list event :=
  [ELogfunc "Processing started. Please wait. This may take a few minutes...";
   ELogfunc (nl +:+ dashes);
   ELogfunc ("DLEAPP v" +:+ dleapp_version
             +:+ ": Drones Logs, Events, and Properties Parser");
   ELogfunc "Objective: Triage Drone Extractions.";
   ELogfunc "By: Alexis Brignoni | @AlexisBrignoni | abrignoni.com";
   ELogfunc ("By: Yogesh Khatri   | @SwiftForensics | swiftforensics.com" +:+ nl);
   ELogdevinfo].

(** The path of the audit log (line 253). *)
Definition audit_log_path (out_params : OutputParameters) : string :=
  os_path_join (os_path_join (report_folder_base out_params) "Script Logs")
    "ProcessedFilesLog.html".

(** Run-log lines between the seeker and the opening of the audit log. *)
Definition before_audit_log (plugins : list PluginSpec) (input_path : string)
    (profile_filename : option string) : list event :=
  match given profile_filename with
  | Some filename => [ELogfunc ("Loaded profile: " +:+ filename)]
  | None => []
  end
  ++ [ELogfunc ("Artifact categories to parse: " +:+ pretty (length plugins));
      ELogfunc ("File/Directory selected: " +:+ input_path);
      ELogfunc (nl +:+ dashes)].

(** Calls between the seeker and the loop. *)
Definition opening (plugins : list PluginSpec) (input_path : string)
    (out_params : OutputParameters) (profile_filename : option string)
    : list event :=
  match given profile_filename with
  | Some filename => [ELogfunc ("Loaded profile: " +:+ filename)]
  | None => []
  end
  ++ [ELogfunc ("Artifact categories to parse: " +:+ pretty (length plugins));
      ELogfunc ("File/Directory selected: " +:+ input_path);
      ELogfunc (nl +:+ dashes);
      EAuditOpen
        (os_path_join
           (os_path_join (report_folder_base out_params) "Script Logs")
           "ProcessedFilesLog.html");
      EAuditWrite ("Extraction/Path selected: " +:+ input_path +:+ "<br><br>")].

(** The path a report shows: on Windows without the long-path prefix. *)
Definition reported_path (p : string) : string :=
  if is_platform_windows then strip_long_path p else p.

(** Calls after the loop, given the processor time at start and end. *)
Definition finale (extracttype input_path : string)
    (out_params : OutputParameters) (casedata : CaseData)
    (start finish : Secs) : list event :=
  [EAuditClose;
   ELogfunc "";
   ELogfunc "Processes completed.";
   ELogfunc ("Processing time = " +:+ strftime_HMS (secs_sub finish start));
   ELogfunc "";
   ELogfunc "Report generation started.";
   EGenerateReport (reported_path (report_folder_base out_params))
     (secs_sub finish start) (strftime_HMS (secs_sub finish start))
     extracttype (reported_path input_path) casedata;
   ELogfunc "Report generation Completed.";
   ELogfunc "";
   ELogfunc ("Report location: "
             +:+ reported_path (report_folder_base out_params))].

(** The patterns of [plugin] match something, whatever the state of the
    world. *)
Definition always_matches (seeker : Seeker) (plugin : PluginSpec) : Prop :=
  forall w, files_found_of seeker plugin w <> [].

(** The category folder of [plugin] is there or can be created. *)
Definition folder_always_ready (out_params : OutputParameters)
    (plugin : PluginSpec) : Prop :=
  forall w, exists w1 tr,
    ensure_category_folder plugin (category_folder_of out_params plugin) w =
    (w1, tr, Ok Fallthrough).

(** Creating the category folder of [plugin] never fails with an exception
    that lines 285-288 do not catch. *)
Definition folder_never_aborts (out_params : OutputParameters)
    (plugin : PluginSpec) : Prop :=
  forall w, exists w1 tr after,
    ensure_category_folder plugin (category_folder_of out_params plugin) w =
    (w1, tr, Ok after).

(** The parse routine of [plugin] raises on every call. *)
Definition always_raises (plugin : PluginSpec) : Prop :=
  forall files folder seeker wrap w, exists w1 tr ex,
    method plugin files folder seeker wrap w = (w1, tr, Raised ex).

(** How many times [location] occurs in [locations]. *)
Definition occurrences (location : string) (locations : list string) : nat :=
  length (filter (fun l => l = location) locations).

Definition is_run_log (e : event) : Prop :=
  e = ELogdevinfo \/ exists message, e = ELogfunc message.

Definition info_line (available_plugins : list PluginSpec) : string :=
  "Info: " +:+ pretty (length available_plugins) +:+ " plugins loaded.".

(** The command line asks for a run (neither [-p] nor [-c]) and names an
    input, an output and a container kind, the first two of which exist. *)
Record run_request (w : World) (args : Args) (input output kind : string)
    : Prop := {
  no_artifact_paths : arg_artifact_paths args = false;
  no_create_profile : given (arg_create_profile args) = None;
  has_input_path : arg_input_path args = Some input;
  has_output_path : arg_output_path args = Some output;
  has_t : arg_t args = Some kind;
  input_exists : os_path_exists w input = true;
  output_exists : os_path_exists w output = true
}.

(** Contents that are not a profile: a text that [json.load] cannot decode,
    or an object whose ["leapp"] member is not the string ["dleapp"], or
    whose ["format_version"] member does not equal 1 (with Python's [==],
    for which [True] and [1.0] equal 1).  A missing member reads as [None]
    and is of the last two kinds. *)
Inductive not_a_profile (content : string) : Prop :=
| malformed json_ex :
    json_load content = inl json_ex -> not_a_profile content
| wrong_schema_tag profile :
    json_load content = inr (JDict profile) ->
    profile !! "leapp" <> Some (JStr "dleapp") ->
    not_a_profile content
| wrong_format_version profile :
    json_load content = inr (JDict profile) ->
    py_eq_int (dict_get profile "format_version") 1 = false ->
    not_a_profile content.

(** The calls of parse routines: the name of the plugin and its first
    argument. *)
Fixpoint invocations (tr : list event) : list (string * list string) :=
  match tr with
  | [] => []
  | EInvoke plugin_name files_found _ _ :: rest =>
      (plugin_name, files_found) :: invocations rest
  | _ :: rest => invocations rest
  end.

(** The values passed to [GuiWindow.SetProgressBar]. *)
Fixpoint progress_calls (tr : list event) : list Z :=
  match tr with
  | [] => []
  | ESetProgressBar value :: rest => value :: progress_calls rest
  | _ :: rest => progress_calls rest
  end.

(** The input paths passed to [report.generate_report]. *)
Fixpoint reports (tr : list event) : list string :=
  match tr with
  | [] => []
  | EGenerateReport _ _ _ _ input_path _ :: rest => input_path :: reports rest
  | _ :: rest => reports rest
  end.

(** What was written to the audit log. *)
Fixpoint audit_writes (tr : list event) : list string :=
  match tr with
  | [] => []
  | EAuditWrite text :: rest => text :: audit_writes rest
  | _ :: rest => audit_writes rest
  end.

(** What was written to the run log. *)
Fixpoint run_log (tr : list event) : list string :=
  match tr with
  | [] => []
  | ELogfunc message :: rest => message :: run_log rest
  | _ :: rest => run_log rest
  end.

(** What was printed. *)
Fixpoint prints (tr : list event) : list string :=
  match tr with
  | [] => []
  | EPrint line :: rest => line :: prints rest
  | _ :: rest => prints rest
  end.

(** What [-p] writes to [path_list.txt] and prints for each pattern. *)
Definition path_lines (regexes : list string) : list event :=
  flat_map (fun x => [EPathsWrite (x +:+ nl); EPrint x]) regexes.

(** [plugin.search] is a [list]. *)
Definition list_search (plugin : PluginSpec) : bool :=
  match search plugin with
  | SearchList _ => true
  | _ => false
  end.

(** Values that [set] cannot hold, and values that it cannot go through. *)
Definition unhashable (v : json) : bool :=
  match v with
  | JList _ | JDict _ => true
  | _ => false
  end.

Definition iterable (v : json) : bool :=
  match v with
  | JList _ | JStr _ | JDict _ => true
  | _ => false
  end.

(** The parse routine of [plugin] leaves the progress bar and the other
    parse routines alone. *)
Definition keeps_to_itself (plugin : PluginSpec) : Prop :=
  forall files folder seeker wrap w,
    progress_calls (trace_of (method plugin files folder seeker wrap w)) = []
    /\ invocations (trace_of (method plugin files folder seeker wrap w)) = [].

(** [s] has no more digits than [int] accepts. *)
Definition within_int_limit (s : string) : Prop :=
  (int_max_str_digits = 0
   \/ N.of_nat (String.length s) <= int_max_str_digits)%N.

(** The names written to the profile, in the order of insertion. *)
Definition profile_names (d : profile_dict) : list string :=
  map (fun entry => entry.2.2) d.

(** [parsers_in_profile] is consistent with the list of parsers: no number
    twice, every number within the list and bound to the parser at its
    place. *)
Definition profile_ok (available_parsers : list parser_id) (d : profile_dict)
    : Prop :=
  NoDup d.*1
  /\ forall number parser,
      (number, parser) ∈ d ->
      (0 < number <= N.of_nat (length available_parsers))%N
      /\ available_parsers !! N.to_nat (number - 1) = Some parser.

(** The files written in a session. *)
Fixpoint dumps (out : list console) : list (string * json) :=
  match out with
  | [] => []
  | CDump filename value :: rest => (filename, value) :: dumps rest
  | _ :: rest => dumps rest
  end.

(** The outcome of a session that saved a profile: the entries, the name
    typed for it, and what was printed before. *)
Definition saved (available_parsers : list parser_id) (path : string)
    (inputs : list string) (out : list console) : Prop :=
  exists d base pre,
    profile_ok available_parsers d /\ d <> [] /\ base <> "" /\ base ∈ inputs
    /\ dumps pre = []
    /\ out =
       pre ++ [CDump (os_path_join path (base +:+ ".dlprofile"))
                 (profile_json (profile_names d));
               CPrint (nl +:+ "Profile saved: "
                       +:+ os_path_join path (base +:+ ".dlprofile"))].

End Dispatch.

(** * A small concrete world

    Enough of an operating system to run the definitions.  A setup fixes
    what each pattern matches in the container, the folders whose creation
    fails and how, the content of files, the texts the decoder knows and
    the lines that are typed; the state of the world is the list of the
    paths that exist.  A file can be opened for writing when the folder it
    is in exists, and [OutputParameters] creates the report folder with its
    [Script Logs] folder, as [scripts.ilapfuncs] does. *)

Module Toy.

Record setup := {
  windows : bool;
  archive : gmap string (list string);
  mkdir_errors : gmap string exn;
  contents : gmap string string;
  known_json : list (string * json);
  typed : list string
}.

Definition mkdir (s : setup) (folder : string) (w : list string)
    : list string * result unit :=
  match mkdir_errors s !! folder with
  | Some ex => (w, Raised ex)
  | None => (folder :: w, Ok tt)
  end.

Definition open_container (input_path : string) (w : list string)
    : list string * result unit :=
  if bool_decide (input_path ∈ w) then (w, Ok tt)
  else (w, Raised (Exn FileNotFoundError
                     "[Errno 2] No such file or directory"
                     "Traceback (most recent call last): FileNotFoundError")).

(** The folder a file is in: the path up to its last [/], or the empty
    string for a file of the current folder. *)
Definition folder_of (path : string) : string :=
  String.concat "/" (removelast (split "/"%char path)).

Definition open_file (path mode : string) (w : list string)
    : list string * result unit :=
  if String.eqb (folder_of path) "" || bool_decide (folder_of path ∈ w)
  then (if bool_decide (path ∈ w) then w else path :: w, Ok tt)
  else (w, Raised (Exn FileNotFoundError
                     ("[Errno 2] No such file or directory: '" +:+ path +:+ "'")
                     "Traceback (most recent call last): FileNotFoundError")).

(** [str] of a tuple of two strings that hold neither quotes nor
    backslashes. *)
Definition show (parser : string * string) : string :=
  "('" +:+ parser.1 +:+ "', '" +:+ parser.2 +:+ "')".

Fixpoint decode_with (known : list (string * json)) (text : string)
    : string + json :=
  match known with
  | [] => inl "Expecting value: line 1 column 1 (char 0)"
  | (text', value) :: rest =>
      if String.eqb text text' then inr value else decode_with rest text
  end.

Definition externals (s : setup) : Externals := {|
  World := list string;
  Seeker := unit;
  Secs := nat;
  CaseData := unit;
  dleapp_version := "1.0";
  is_platform_windows := windows s;
  os_path_exists := fun w p => bool_decide (p ∈ w);
  os_path_isdir := fun w p => bool_decide (p ∈ w);
  os_path_join := fun a b => a +:+ "/" +:+ b;
  os_path_abspath := fun _ p => p;
  os_mkdir := mkdir s;
  FileSeekerDir := open_container;
  FileSeekerTar := fun input_path _ => open_container input_path;
  FileSeekerZip := fun input_path _ => open_container input_path;
  seeker_search := fun _ regex w => (w, default [] (archive s !! regex));
  process_time := fun _ => 0%nat;
  secs_sub := Nat.sub;
  strftime_HMS := fun _ => "00:00:00";
  empty_casedata := tt;
  OutputParameters_init := fun output_path w =>
    ((output_path +:+ "/report/Script Logs") :: (output_path +:+ "/temp")
     :: (output_path +:+ "/report") :: w,
     {| report_folder_base := output_path +:+ "/report";
        temp_folder := output_path +:+ "/temp" |});
  file_read := fun _ p => default "" (contents s !! p);
  json_load := decode_with (known_json s);
  open_for_writing := open_file;
  typed_lines := fun _ => typed s;
  str_of_tuple := show;
  int_max_str_digits := 4300
|}.

Definition out : OutputParameters :=
  {| report_folder_base := "out"; temp_folder := "tmp" |}.

Definition boom : exn :=
  Exn OtherException "boom"
    "Traceback (most recent call last): RuntimeError: boom".

Definition denied : exn :=
  Exn PermissionError "[Errno 13] Permission denied: 'out/Locked'"
    "Traceback (most recent call last): PermissionError".

Definition orphaned : exn :=
  Exn FileNotFoundError "[Errno 2] No such file or directory: 'out/No/Parent'"
    "Traceback (most recent call last): FileNotFoundError".

End Toy.

(** A container for the dispatch loop. *)

Module Scene.
Import Toy.

(** The container holds [logs/a.csv] and [logs/b.csv]. *)
Definition container : setup := {|
  windows := false;
  archive := {[ "*/a.csv" := ["logs/a.csv"];
                "*.csv" := ["logs/a.csv"; "logs/b.csv"] ]};
  mkdir_errors := {[ "out/Locked" := denied; "out/No/Parent" := orphaned ]};
  contents := ∅;
  known_json := [];
  typed := []
|}.

#[export] Instance posix : Externals := externals container.

Definition the_seeker : Seeker := tt.
Definition no_casedata : CaseData := tt.

(** The output folder [out] has the folder of the run's logs and a folder
    [Logs], and no other. *)
Definition w0 : World := ["in"; "out"; "out/Script Logs"; "out/Logs"].

(** A parse routine that returns, and one that raises. *)
Definition quiet : list string -> string -> Seeker -> bool -> M unit :=
  fun _ _ _ _ => ret tt.

Definition crashing : list string -> string -> Seeker -> bool -> M unit :=
  fun _ _ _ _ => raise boom.

Definition plugin (name category : string) (search : search_spec)
    (method : list string -> string -> Seeker -> bool -> M unit)
    : PluginSpec :=
  {| name := name; module_name := name +:+ "_mod"; category := category;
     search := search; method := method |}.

Definition first := plugin "first" "Logs" (SearchStr "*/a.csv") quiet.
Definition second := plugin "second" "Logs" (SearchStr "*.csv") crashing.
Definition third := plugin "third" "Flights" (SearchTuple ["*.csv"]) quiet.
Definition dup := plugin "dup" "Logs" (SearchTuple ["*/a.csv"; "*.csv"]) quiet.
Definition nothing :=
  plugin "nothing" "Empty" (SearchList ["*.db"; "*.sqlite"]) crashing.
Definition locked := plugin "locked" "Locked" (SearchStr "*.csv") quiet.
Definition orphan := plugin "orphan" "No/Parent" (SearchStr "*.csv") quiet.

(** What [first] leaves behind it. *)
Definition after_first : list event :=
  [EAuditWrite "<b>For first parser</b>";
   EAuditWrite "<ul><li>1 file for regex <i>*/a.csv</i> located at:";
   EAuditWrite "<ul><li>logs/a.csv</li></ul>";
   EAuditWrite "</li></ul>";
   ELogfunc "";
   ELogfunc "first [first_mod] artifact started";
   EInvoke "first" ["logs/a.csv"] "out/Logs" true;
   ELogfunc "first [first_mod] artifact completed";
   ESetProgressBar 1].

End Scene.

(** A desk with profile files. *)

Module Desk.
Import Toy.

(** A JSON string literal. *)
Definition quoted (s : string) : string :=
  String (Ascii.ascii_of_nat 34) (s +:+ String (Ascii.ascii_of_nat 34) "").

(** The text of a profile that names [first] and a plugin that is gone. *)
Definition two_names_text : string :=
  "{" +:+ quoted "leapp" +:+ ": " +:+ quoted "dleapp" +:+ ", "
  +:+ quoted "format_version" +:+ ": 1, "
  +:+ quoted "plugins" +:+ ": [" +:+ quoted "first" +:+ ", "
  +:+ quoted "gone" +:+ "]}".

Definition two_names : gmap string json :=
  {[ "leapp" := JStr "dleapp"; "format_version" := JInt 1;
     "plugins" := JList (JStr <$> ["first"; "gone"]) ]}.

(** The text of a profile without plugin names. *)
Definition bare_text : string :=
  "{" +:+ quoted "leapp" +:+ ": " +:+ quoted "dleapp" +:+ ", "
  +:+ quoted "format_version" +:+ ": 1}".

Definition bare : gmap string json :=
  {[ "leapp" := JStr "dleapp"; "format_version" := JInt 1 ]}.

(** The text of a profile of a later format. *)
Definition version_two_text : string :=
  "{" +:+ quoted "leapp" +:+ ": " +:+ quoted "dleapp" +:+ ", "
  +:+ quoted "format_version" +:+ ": 2, "
  +:+ quoted "plugins" +:+ ": [" +:+ quoted "first" +:+ "]}".

Definition version_two : gmap string json :=
  {[ "leapp" := JStr "dleapp"; "format_version" := JInt 2;
     "plugins" := JList [JStr "first"] ]}.

Definition desk : setup := {|
  windows := false;
  archive := {[ "*.csv" := ["logs/a.csv"] ]};
  mkdir_errors := ∅;
  contents := {[ "two.dlprofile" := two_names_text;
                 "bare.dlprofile" := bare_text;
                 "v2.dlprofile" := version_two_text;
                 "torn.dlprofile" := "{" ]};
  known_json := [(two_names_text, JDict two_names);
                 (bare_text, JDict bare);
                 (version_two_text, JDict version_two)];
  typed := []
|}.

#[export] Instance posix : Externals := externals desk.

Definition quiet : list string -> string -> Seeker -> bool -> M unit :=
  fun _ _ _ _ => ret tt.

Definition plugin (name : string) : PluginSpec :=
  {| name := name; module_name := name +:+ "_mod"; category := "Logs";
     search := SearchStr "*.csv"; method := quiet |}.

Definition registry : list PluginSpec :=
  [plugin "zeta"; plugin "first"; plugin "alpha"].

(** [-t fs -i in -o out -l profile] *)
Definition run_with (profile : option string) : Args := {|
  arg_t := Some "fs";
  arg_output_path := Some "out";
  arg_input_path := Some "in";
  arg_wrap_text := true;
  arg_load_profile := profile;
  arg_create_profile := None;
  arg_artifact_paths := false
|}.

(** The profiles are on the desk, or they are not. *)
Definition with_profiles : World :=
  ["in"; "out"; "two.dlprofile"; "bare.dlprofile"; "v2.dlprofile"; "torn.dlprofile"].
Definition without_profiles : World := ["in"; "out"].

End Desk.

(** A studio in which profiles are made and loaded. *)

Module Studio.
Import Toy.

(** What [json.dump] writes for a profile that names [first]. *)
Definition mine_text : string :=
  "{" +:+ Desk.quoted "leapp" +:+ ": " +:+ Desk.quoted "dleapp" +:+ ", "
  +:+ Desk.quoted "format_version" +:+ ": 1, "
  +:+ Desk.quoted "plugins" +:+ ": [" +:+ Desk.quoted "first" +:+ "]}".

(** A list where an object is expected. *)
Definition list_text : string := "[" +:+ Desk.quoted "first" +:+ "]".

(** Profiles whose ["plugins"] member is not a list of names. *)
Definition null_plugins_text : string :=
  "{" +:+ Desk.quoted "leapp" +:+ ": " +:+ Desk.quoted "dleapp" +:+ ", "
  +:+ Desk.quoted "format_version" +:+ ": 1, "
  +:+ Desk.quoted "plugins" +:+ ": null}".

Definition null_plugins : gmap string json :=
  {[ "leapp" := JStr "dleapp"; "format_version" := JInt 1;
     "plugins" := JNull ]}.

Definition mixed_plugins_text : string :=
  "{" +:+ Desk.quoted "leapp" +:+ ": " +:+ Desk.quoted "dleapp" +:+ ", "
  +:+ Desk.quoted "format_version" +:+ ": 1, "
  +:+ Desk.quoted "plugins" +:+ ": [1, " +:+ Desk.quoted "first"
  +:+ ", null, true]}".

Definition mixed_plugins : gmap string json :=
  {[ "leapp" := JStr "dleapp"; "format_version" := JInt 1;
     "plugins" := JList [JInt 1; JStr "first"; JNull; JBool true] ]}.

Definition text_plugins_text : string :=
  "{" +:+ Desk.quoted "leapp" +:+ ": " +:+ Desk.quoted "dleapp" +:+ ", "
  +:+ Desk.quoted "format_version" +:+ ": 1, "
  +:+ Desk.quoted "plugins" +:+ ": " +:+ Desk.quoted "az" +:+ "}".

Definition text_plugins : gmap string json :=
  {[ "leapp" := JStr "dleapp"; "format_version" := JInt 1;
     "plugins" := JStr "az" ]}.

(** A profile whose format version is [true]. *)
Definition true_version_text : string :=
  "{" +:+ Desk.quoted "leapp" +:+ ": " +:+ Desk.quoted "dleapp" +:+ ", "
  +:+ Desk.quoted "format_version" +:+ ": true, "
  +:+ Desk.quoted "plugins" +:+ ": [" +:+ Desk.quoted "first" +:+ "]}".

Definition true_version : gmap string json :=
  {[ "leapp" := JStr "dleapp"; "format_version" := JBool true;
     "plugins" := JList [JStr "first"] ]}.

(** What the user types: list the parsers, toggle some, look at the
    profile, quit, and name the profile at the second request. *)
Definition typed_in_studio : list string :=
  ["L"; "a"; " 1, 3 ,x,9,3"; "p"; "q"; ""; "mine"].

Definition studio : setup := {|
  windows := false;
  archive := {[ "*.csv" := ["logs/a.csv"] ]};
  mkdir_errors := ∅;
  contents := {[ "profiles/mine.dlprofile" := mine_text;
                 "list.dlprofile" := list_text;
                 "null.dlprofile" := null_plugins_text;
                 "mixed.dlprofile" := mixed_plugins_text;
                 "text.dlprofile" := text_plugins_text;
                 "true.dlprofile" := true_version_text ]};
  known_json := [(mine_text, profile_json ["first"]);
                 (list_text, JList [JStr "first"]);
                 (null_plugins_text, JDict null_plugins);
                 (mixed_plugins_text, JDict mixed_plugins);
                 (text_plugins_text, JDict text_plugins);
                 (true_version_text, JDict true_version)];
  typed := typed_in_studio
|}.

#[export] Instance posix : Externals := externals studio.

Definition quiet : list string -> string -> Seeker -> bool -> M unit :=
  fun _ _ _ _ => ret tt.

Definition plugin (category name : string) (search : search_spec)
    : PluginSpec :=
  {| name := name; module_name := name +:+ "_mod"; category := category;
     search := search; method := quiet |}.

Definition registry : list PluginSpec :=
  [plugin "Logs" "zeta" (SearchStr "*.csv");
   plugin "Flights" "first" (SearchTuple ["*.csv"; "*.dat"]);
   plugin "Logs" "a" (SearchStr "*.txt")].

(** A plugin that declares its patterns as a list. *)
Definition listy : PluginSpec :=
  plugin "Logs" "listy" (SearchList ["*.bin"; "*.db"]).

(** The registry as a session lists it. *)
Definition listed : list parser_id :=
  [("Flights", "first"); ("Logs", "a"); ("Logs", "zeta")].

(** A number of 4301 digits, one more than [int] accepts here. *)
Definition many_digits : string :=
  String.string_of_list_ascii (replicate 4301 "7"%char).

(** [-t fs -i in -o out -l profile] *)
Definition run_with (profile : option string) : Args := {|
  arg_t := Some "fs";
  arg_output_path := Some "out";
  arg_input_path := Some "in";
  arg_wrap_text := true;
  arg_load_profile := profile;
  arg_create_profile := None;
  arg_artifact_paths := false
|}.

(** [-p], and [-c path]. *)
Definition list_paths : Args := {|
  arg_t := None;
  arg_output_path := None;
  arg_input_path := None;
  arg_wrap_text := true;
  arg_load_profile := None;
  arg_create_profile := None;
  arg_artifact_paths := true
|}.

Definition make_profile (path : string) : Args := {|
  arg_t := None;
  arg_output_path := None;
  arg_input_path := None;
  arg_wrap_text := true;
  arg_load_profile := None;
  arg_create_profile := Some path;
  arg_artifact_paths := false
|}.

Definition w0 : World :=
  ["in"; "out"; "profiles"; "profiles/mine.dlprofile"; "list.dlprofile";
   "null.dlprofile"; "mixed.dlprofile"; "text.dlprofile"; "true.dlprofile"].

(** The studio before any profile was made. *)
Definition empty_studio : World := ["in"; "out"; "profiles"].

End Studio.

(** A vault whose zip archives cannot be read. *)

Module Vault.

Definition bad_zip : exn :=
  Exn OtherException "File is not a zip file"
    "Traceback (most recent call last): zipfile.BadZipFile: File is not a zip file".

#[export] Instance sealed : Externals := {|
  World := list string;
  Seeker := unit;
  Secs := nat;
  CaseData := unit;
  dleapp_version := "1.0";
  is_platform_windows := false;
  os_path_exists := fun w p => bool_decide (p ∈ w);
  os_path_isdir := fun w p => bool_decide (p ∈ w);
  os_path_join := fun a b => a +:+ "/" +:+ b;
  os_path_abspath := fun _ p => "/home/" +:+ p;
  os_mkdir := fun folder w => (folder :: w, Ok tt);
  FileSeekerDir := fun _ w => (w, Ok tt);
  FileSeekerTar := fun _ _ w => (w, Ok tt);
  FileSeekerZip := fun _ temp w => (temp :: w, Raised bad_zip);
  seeker_search := fun _ _ w => (w, []);
  process_time := fun _ => 0%nat;
  secs_sub := Nat.sub;
  strftime_HMS := fun _ => "00:00:00";
  empty_casedata := tt;
  OutputParameters_init := fun output_path w =>
    (w, {| report_folder_base := output_path +:+ "/report";
           temp_folder := output_path +:+ "/temp" |});
  file_read := fun _ _ => "";
  json_load := fun _ => inl "Expecting value: line 1 column 1 (char 0)";
  open_for_writing := fun path _ w => (path :: w, Ok tt);
  typed_lines := fun _ => [];
  str_of_tuple := fun parser => parser.1 +:+ ", " +:+ parser.2;
  int_max_str_digits := 0
|}.

Definition quiet : list string -> string -> Seeker -> bool -> M unit :=
  fun _ _ _ _ => ret tt.

Definition registry : list PluginSpec :=
  [{| name := "first"; module_name := "first_mod"; category := "Logs";
      search := SearchStr "*.csv"; method := quiet |}].

(** [-t zip -i in.zip -o out] *)
Definition unzip : Args := {|
  arg_t := Some "zip";
  arg_output_path := Some "out";
  arg_input_path := Some "in.zip";
  arg_wrap_text := true;
  arg_load_profile := None;
  arg_create_profile := None;
  arg_artifact_paths := false
|}.

Definition w0 : World := ["in.zip"; "out"].

End Vault.

(** A Windows machine. *)

Module Windows.
Import Toy.

(** The folder [C:\in] holds [logs\a.csv]. *)
Definition drive : setup := {|
  windows := true;
  archive := {[ "*.csv" := ["\\?\C:\in\logs\a.csv"] ]};
  mkdir_errors := ∅;
  contents := ∅;
  known_json := [];
  typed := []
|}.

#[export] Instance nt : Externals := externals drive.

Definition quiet : list string -> string -> Seeker -> bool -> M unit :=
  fun _ _ _ _ => ret tt.

Definition registry : list PluginSpec :=
  [{| name := "first"; module_name := "first_mod"; category := "Logs";
      search := SearchStr "*.csv"; method := quiet |}].

(** [-t fs -i input -o C:/out] *)
Definition run_on (input : string) : Args := {|
  arg_t := Some "fs";
  arg_output_path := Some "C:/out";
  arg_input_path := Some input;
  arg_wrap_text := true;
  arg_load_profile := None;
  arg_create_profile := None;
  arg_artifact_paths := false
|}.

(** The current folder, the input and the output, and the input under its
    long-path name. *)
Definition w0 : World := ["."; "C:/in"; "C:/out"; "\\?\C:\in"].

End Windows.

(** * Properties *)

Section Properties.
Context `{E : Externals}.

(** ** Running computations *)

Lemma after_calls_nil {A} (r : World * list event * result A) :
  after_calls [] r = r.
Proof. destruct r as [[w tr] x]. reflexivity. Qed.

Lemma after_calls_app {A} t1 t2 (r : World * list event * result A) :
  after_calls t1 (after_calls t2 r) = after_calls (t1 ++ t2) r.
Proof. destruct r as [[w tr] x]. simpl. rewrite app_assoc. reflexivity. Qed.

Lemma bind_Ok {A B} (m : M A) (k : A -> M B) w w1 tr1 a :
  m w = (w1, tr1, Ok a) ->
  bind m k w = after_calls tr1 (k a w1).
Proof. intros Hm. unfold bind. rewrite Hm. reflexivity. Qed.

Lemma bind_Raised {A B} (m : M A) (k : A -> M B) w w1 tr1 ex :
  m w = (w1, tr1, Raised ex) ->
  bind m k w = (w1, tr1, Raised ex).
Proof. intros Hm. unfold bind. rewrite Hm. reflexivity. Qed.

Lemma bind_emit {B} (e : event) (k : unit -> M B) w :
  bind (emit e) k w = after_calls [e] (k tt w).
Proof. reflexivity. Qed.

Lemma bind_ret {A B} (a : A) (k : A -> M B) w : bind (ret a) k w = k a w.
Proof.
  unfold bind, ret. destruct (k a w) as [[w2 tr2] r]. reflexivity.
Qed.

Lemma bind_ask {A B} (f : World -> A) (k : A -> M B) w :
  bind (ask f) k w = k (f w) w.
Proof.
  unfold bind, ask. destruct (k (f w) w) as [[w2 tr2] r]. reflexivity.
Qed.

(** Traces equal up to the bracketing of [++]. *)
Ltac trace_eq :=
  repeat first [rewrite <- app_assoc | progress cbn [app]]; reflexivity.

Lemma bind_assoc {A B C} (m : M A) (k : A -> M B) (h : B -> M C) w :
  bind (bind m k) h w = bind m (fun a => bind (k a) h) w.
Proof.
  unfold bind. destruct (m w) as [[w1 tr1] [a|ex]]; [|reflexivity].
  destruct (k a w1) as [[w2 tr2] [b|ex]]; [|reflexivity].
  destruct (h b w2) as [[w3 tr3] r]. rewrite app_assoc. reflexivity.
Qed.

(** ** What the seeker returns for each pattern *)

Lemma write_located_run found w :
  write_located found w = (w, map located_line found, Ok tt).
Proof.
  induction found as [|pathh rest IH]; [reflexivity|].
  simpl. unfold log_write. rewrite bind_emit, IH. reflexivity.
Qed.

Lemma search_files_run seeker regexes files_found w :
  search_files seeker regexes files_found w =
  (world_after_search seeker regexes w,
   audit_entries regexes (search_results seeker regexes w),
   Ok (files_found ++ concat (search_results seeker regexes w))).
Proof.
  revert files_found w.
  induction regexes as [|regex rest IH]; intros files_found w.
  - simpl. unfold ret. rewrite app_nil_r. reflexivity.
  - simpl.
    destruct (seeker_search seeker regex w) as [w1 found] eqn:Hs.
    erewrite bind_Ok; [|unfold call_total; rewrite Hs; reflexivity].
    rewrite after_calls_nil. destruct found as [|f fs]; unfold log_write.
    + rewrite bind_emit, IH. reflexivity.
    + rewrite bind_emit.
      erewrite bind_Ok by apply write_located_run.
      rewrite bind_emit, IH. simpl.
      rewrite <- !app_assoc. reflexivity.
Qed.

(** ** One iteration of the dispatch loop *)

Lemma ensure_category_folder_present plugin folder w :
  os_path_exists w folder = true ->
  ensure_category_folder plugin folder w = (w, [], Ok Fallthrough).
Proof.
  intros Hex. unfold ensure_category_folder. rewrite bind_ask, Hex.
  reflexivity.
Qed.

Lemma ensure_category_folder_created plugin folder w w1 :
  os_path_exists w folder = false ->
  os_mkdir folder w = (w1, Ok tt) ->
  ensure_category_folder plugin folder w = (w1, [EMkdir folder], Ok Fallthrough).
Proof.
  intros Hex Hmk. unfold ensure_category_folder. rewrite bind_ask, Hex.
  simpl. unfold try_except. rewrite bind_emit.
  unfold bind, call. rewrite Hmk. reflexivity.
Qed.

Lemma ensure_category_folder_caught plugin folder w w1 ex :
  os_path_exists w folder = false ->
  os_mkdir folder w = (w1, Raised ex) ->
  caught_by_mkdir_handler (exn_cls ex) = true ->
  ensure_category_folder plugin folder w =
  (w1, EMkdir folder :: mkdir_failure_log plugin folder ex, Ok Continue).
Proof.
  intros Hex Hmk Hc. unfold ensure_category_folder. rewrite bind_ask, Hex.
  simpl. unfold try_except. rewrite bind_emit.
  unfold bind, call. rewrite Hmk. simpl. rewrite Hc. reflexivity.
Qed.

Lemma ensure_category_folder_uncaught plugin folder w w1 ex :
  os_path_exists w folder = false ->
  os_mkdir folder w = (w1, Raised ex) ->
  caught_by_mkdir_handler (exn_cls ex) = false ->
  ensure_category_folder plugin folder w = (w1, [EMkdir folder], Raised ex).
Proof.
  intros Hex Hmk Hc. unfold ensure_category_folder. rewrite bind_ask, Hex.
  simpl. unfold try_except. rewrite bind_emit.
  unfold bind, call. rewrite Hmk. simpl. rewrite Hc. reflexivity.
Qed.

Lemma invoke_method_returns plugin files folder seeker wrap w w1 tr :
  method plugin files folder seeker wrap w = (w1, tr, Ok tt) ->
  invoke_method plugin files folder seeker wrap w =
  (w1, EInvoke (name plugin) files folder wrap :: tr, Ok Fallthrough).
Proof.
  intros Hm. unfold invoke_method, try_except. rewrite bind_emit.
  erewrite bind_Ok by exact Hm. simpl. rewrite app_nil_r. reflexivity.
Qed.

Lemma invoke_method_raises plugin files folder seeker wrap w w1 tr ex :
  method plugin files folder seeker wrap w = (w1, tr, Raised ex) ->
  invoke_method plugin files folder seeker wrap w =
  (w1, EInvoke (name plugin) files folder wrap :: tr
       ++ method_failure_log plugin ex, Ok Continue).
Proof.
  intros Hm. unfold invoke_method, try_except. rewrite bind_emit.
  erewrite bind_Raised by exact Hm. simpl. reflexivity.
Qed.

(** The parse routine is never the reason for the loop to stop. *)
Lemma invoke_method_isolated plugin files folder seeker wrap w :
  exists flow_after,
    result_of (invoke_method plugin files folder seeker wrap w) = Ok flow_after.
Proof.
  destruct (method plugin files folder seeker wrap w) as [[w1 tr] [[]|ex]] eqn:Hm.
  - erewrite invoke_method_returns by exact Hm. eexists. reflexivity.
  - erewrite invoke_method_raises by exact Hm. eexists. reflexivity.
Qed.

(** [run_plugin] in terms of its two guarded calls. *)
Lemma run_plugin_run plugin files seeker out_params wrap w :
  let folder := category_folder_of out_params plugin in
  let made := ensure_category_folder plugin folder w in
  let ran := invoke_method plugin files folder seeker wrap (world_of made) in
  let intro := [ELogfunc ""; ELogfunc (started_line plugin)] in
  run_plugin plugin files seeker out_params wrap w =
  match result_of made with
  | Raised ex => (world_of made, intro ++ trace_of made, Raised ex)
  | Ok Continue => (world_of made, intro ++ trace_of made, Ok Continue)
  | Ok Fallthrough =>
      match result_of ran with
      | Raised ex =>
          (world_of ran, intro ++ trace_of made ++ trace_of ran, Raised ex)
      | Ok Continue =>
          (world_of ran, intro ++ trace_of made ++ trace_of ran, Ok Continue)
      | Ok Fallthrough =>
          (world_of ran,
           intro ++ trace_of made ++ trace_of ran
           ++ [ELogfunc (completed_line plugin)],
           Ok Fallthrough)
      end
  end.
Proof.
  intros folder made ran intro.
  unfold run_plugin, logfunc. rewrite !bind_emit, after_calls_app.
  fold (category_folder_of out_params plugin). fold folder.
  subst made ran intro. unfold world_of, trace_of, result_of.
  unfold bind.
  destruct (ensure_category_folder plugin folder w) as [[w1 tr1] [[]|ex]];
    simpl; try reflexivity.
  - destruct (invoke_method plugin files folder seeker wrap w1)
      as [[w2 tr2] [[]|ex]]; simpl; try reflexivity.
    rewrite app_nil_r. reflexivity.
  - rewrite app_nil_r. reflexivity.
Qed.

Lemma process_plugin_run seeker out_params ratio wrap plugin cs w :
  let w1 := world_after_search seeker (search_regexes plugin) w in
  let files := files_found_of seeker plugin w in
  let ran := run_plugin plugin files seeker out_params wrap w1 in
  process_plugin seeker out_params ratio wrap plugin cs w =
  match files with
  | [] =>
      (w1, audit_block seeker plugin w ++ [progress_event ratio cs], Ok (cs + 1))
  | _ :: _ =>
      match result_of ran with
      | Ok Fallthrough =>
          (world_of ran,
           audit_block seeker plugin w ++ trace_of ran
           ++ [progress_event ratio cs],
           Ok (cs + 1))
      | Ok Continue =>
          (world_of ran, audit_block seeker plugin w ++ trace_of ran, Ok cs)
      | Raised ex =>
          (world_of ran, audit_block seeker plugin w ++ trace_of ran, Raised ex)
      end
  end.
Proof.
  intros w1 files ran.
  unfold process_plugin, log_write. rewrite bind_emit.
  erewrite bind_Ok by apply search_files_run.
  rewrite after_calls_app.
  rewrite app_nil_l. fold (files_found_of seeker plugin w). fold files. fold w1.
  unfold audit_block, progress_event.
  subst ran. clearbody w1 files.
  destruct files as [|f fs].
  - rewrite bind_ret, bind_emit. reflexivity.
  - unfold world_of, trace_of, result_of. unfold bind. cbv beta iota.
    destruct (run_plugin plugin (f :: fs) seeker out_params wrap w1)
      as [[w2 tr2] [[]|ex]]; simpl; try reflexivity.
    rewrite app_nil_r. reflexivity.
Qed.

(** ** The loop *)

Lemma process_plugins_cons seeker out_params ratio wrap plugin rest cs w :
  process_plugins seeker out_params ratio wrap (plugin :: rest) cs w =
  bind (process_plugin seeker out_params ratio wrap plugin cs)
       (process_plugins seeker out_params ratio wrap rest) w.
Proof. reflexivity. Qed.

Lemma process_plugins_app seeker out_params ratio wrap before after cs w :
  process_plugins seeker out_params ratio wrap (before ++ after) cs w =
  bind (process_plugins seeker out_params ratio wrap before cs)
       (process_plugins seeker out_params ratio wrap after) w.
Proof.
  revert cs w. induction before as [|plugin rest IH]; intros cs w.
  - simpl. rewrite bind_ret. reflexivity.
  - simpl. rewrite bind_assoc.
    destruct (process_plugin seeker out_params ratio wrap plugin cs w)
      as [[w1 tr1] [cs1|ex]] eqn:Hstep.
    + rewrite !(bind_Ok _ _ _ _ _ _ Hstep), IH. reflexivity.
    + rewrite !(bind_Raised _ _ _ _ _ _ Hstep). reflexivity.
Qed.

(** ** Audit entries and the empty match *)

Lemma search_results_length seeker regexes w :
  length (search_results seeker regexes w) = length regexes.
Proof.
  revert w. induction regexes as [|regex rest IH]; intros w; simpl.
  - reflexivity.
  - rewrite IH. reflexivity.
Qed.

Lemma audit_entries_nothing_found regexes results :
  length results = length regexes ->
  concat results = [] ->
  audit_entries regexes results =
  map (fun regex => EAuditWrite (no_file_note regex)) regexes.
Proof.
  revert results. induction regexes as [|regex rest IH]; intros results Hlen Hnil.
  - destruct results; reflexivity.
  - destruct results as [|found results']; [discriminate|].
    simpl in Hlen, Hnil. apply app_eq_nil in Hnil as [-> Hnil].
    simpl. f_equal. apply IH; [lia|exact Hnil].
Qed.

(** The audit block of an iteration.  Whatever happens to a plugin that
    the loop reaches (it is skipped for want of matches, its folder cannot
    be created, its parse routine returns or raises), the calls made for it
    start with its audit block: the heading, then for each of its patterns, in the order of
    declaration, either the note that no file was found or the number of
    matches with one line per location, the long-path prefix removed.  There
    is one entry per pattern, and when nothing matched at all the block is
    still written and only the progress call follows it. *)
Lemma audit_completeness seeker out_params ratio wrap plugin cs w :
  let regexes := search_regexes plugin in
  let results := search_results seeker regexes w in
  exists rest,
    trace_of (process_plugin seeker out_params ratio wrap plugin cs w) =
      EAuditWrite ("<b>For " +:+ name plugin +:+ " parser</b>")
      :: audit_entries regexes results ++ rest
    /\ length results = length regexes
    /\ (concat results = [] ->
        rest = [ESetProgressBar ((cs + 1) * ratio)]
        /\ Forall (fun e => forall n f d b, e <> EInvoke n f d b) rest).
Proof.
  intros regexes results.
  pose proof (process_plugin_run seeker out_params ratio wrap plugin cs w) as Hrun.
  simpl in Hrun. unfold files_found_of in Hrun. fold regexes results in Hrun.
  destruct (concat results) as [|f fs] eqn:Hfiles.
  - exists [ESetProgressBar ((cs + 1) * ratio)].
    rewrite Hrun. split; [reflexivity|].
    split; [apply search_results_length|].
    intros _. split; [reflexivity|].
    constructor; [discriminate|constructor].
  - set (ran := run_plugin plugin (f :: fs) seeker out_params wrap
                  (world_after_search seeker regexes w)) in *.
    exists (match result_of ran with
            | Ok Fallthrough =>
                trace_of ran ++ [progress_event ratio cs]
            | _ => trace_of ran
            end).
    rewrite Hrun. split.
    { destruct (result_of ran) as [[]|ex]; reflexivity. }
    split; [apply search_results_length|].
    discriminate.
Qed.

Lemma process_plugin_trace_prefix seeker out_params ratio wrap plugin cs w :
  exists rest,
    trace_of (process_plugin seeker out_params ratio wrap plugin cs w) =
    audit_block seeker plugin w ++ rest.
Proof.
  pose proof (process_plugin_run seeker out_params ratio wrap plugin cs w) as Hrun.
  cbv zeta in Hrun. rewrite Hrun.
  destruct (files_found_of seeker plugin w); [eexists; reflexivity|].
  destruct (result_of _) as [[]|ex]; eexists; reflexivity.
Qed.

(** In a pass, every plugin that the loop reaches gets its audit block, at
    the point where the plugins before it are done with. *)
Lemma audit_block_when_reached seeker out_params ratio wrap before plugin after
    cs w w1 tr1 cs1 :
  process_plugins seeker out_params ratio wrap before cs w = (w1, tr1, Ok cs1) ->
  exists rest,
    trace_of (process_plugins seeker out_params ratio wrap
                (before ++ plugin :: after) cs w) =
    tr1 ++ audit_block seeker plugin w1 ++ rest.
Proof.
  intros Hbefore.
  rewrite process_plugins_app, (bind_Ok _ _ _ _ _ _ Hbefore).
  rewrite process_plugins_cons.
  destruct (process_plugin_trace_prefix seeker out_params ratio wrap plugin
              cs1 w1) as [rest Hrest].
  destruct (process_plugin seeker out_params ratio wrap plugin cs1 w1)
    as [[w2 tr2] [cs2|ex]] eqn:Hstep; unfold trace_of in Hrest; simpl in Hrest;
    subst tr2.
  - rewrite (bind_Ok _ _ _ _ _ _ Hstep), after_calls_app.
    destruct (process_plugins seeker out_params ratio wrap after cs2 w2)
      as [[w3 tr3] r3].
    exists (rest ++ tr3). unfold trace_of. simpl. trace_eq.
  - rewrite (bind_Raised _ _ _ _ _ _ Hstep).
    exists rest. reflexivity.
Qed.

(** C7 (empty-match skip).  When the patterns of a plugin together match
    nothing, its iteration makes exactly these calls: the heading and one
    zero-match note per pattern in the audit log, then the progress call.
    The parse routine is not invoked, no folder is created, nothing is
    written to the run log, and the iteration returns normally. *)
Theorem empty_match_skip seeker out_params ratio wrap plugin cs w :
  files_found_of seeker plugin w = [] ->
  process_plugin seeker out_params ratio wrap plugin cs w =
  (world_after_search seeker (search_regexes plugin) w,
   EAuditWrite ("<b>For " +:+ name plugin +:+ " parser</b>")
   :: map (fun regex => EAuditWrite (no_file_note regex)) (search_regexes plugin)
   ++ [ESetProgressBar ((cs + 1) * ratio)],
   Ok (cs + 1)).
Proof.
  intros Hnone.
  pose proof (process_plugin_run seeker out_params ratio wrap plugin cs w) as Hrun.
  simpl in Hrun. rewrite Hnone in Hrun. rewrite Hrun.
  unfold audit_block, progress_event.
  rewrite audit_entries_nothing_found;
    [reflexivity|apply search_results_length|exact Hnone].
Qed.

(** ** The whole pass *)

(** The seeker block catches every exception. *)
Lemma open_seeker_total extracttype input_path out_params w :
  exists opened,
    result_of (open_seeker extracttype input_path out_params w) = Ok opened.
Proof.
  unfold open_seeker, try_except, result_of, bind, call, logfunc, emit, ret.
  repeat
    match goal with
    | |- context [if ?b then _ else _] => destruct b
    | |- context [FileSeekerDir ?a ?b] =>
        destruct (FileSeekerDir a b) as [? [?|?]]
    | |- context [FileSeekerTar ?a ?b ?c] =>
        destruct (FileSeekerTar a b c) as [? [?|?]]
    | |- context [FileSeekerZip ?a ?b ?c] =>
        destruct (FileSeekerZip a b c) as [? [?|?]]
    end; simpl; eexists; reflexivity.
Qed.

Lemma opening_split plugins input_path out_params profile_filename :
  opening plugins input_path out_params profile_filename =
  before_audit_log plugins input_path profile_filename
  ++ [EAuditOpen (audit_log_path out_params);
      EAuditWrite ("Extraction/Path selected: " +:+ input_path +:+ "<br><br>")].
Proof.
  unfold opening, before_audit_log, audit_log_path.
  rewrite <- !app_assoc. reflexivity.
Qed.

Lemma crunch_artifacts_run plugins extracttype input_path out_params ratio
    wrap casedata profile_filename w :
  let opened := open_seeker extracttype input_path out_params w in
  crunch_artifacts plugins extracttype input_path out_params ratio wrap
    casedata profile_filename w =
  match result_of opened with
  | Raised ex => (world_of opened, banner ++ trace_of opened, Raised ex)
  | Ok None => (world_of opened, banner ++ trace_of opened, Ok false)
  | Ok (Some seeker) =>
      let log :=
        open_for_writing (audit_log_path out_params) "w+" (world_of opened) in
      match log.2 with
      | Raised ex =>
          (log.1,
           banner ++ trace_of opened
           ++ before_audit_log plugins input_path profile_filename,
           Raised ex)
      | Ok _ =>
          let looped :=
            process_plugins seeker out_params ratio wrap plugins 0 log.1 in
          match result_of looped with
          | Raised ex =>
              (world_of looped,
               banner ++ trace_of opened
               ++ opening plugins input_path out_params profile_filename
               ++ trace_of looped,
               Raised ex)
          | Ok _ =>
              (world_of looped,
               banner ++ trace_of opened
               ++ opening plugins input_path out_params profile_filename
               ++ trace_of looped
               ++ finale extracttype input_path out_params casedata
                    (process_time w) (process_time (world_of looped)),
               Ok true)
          end
      end
  end.
Proof.
  intros opened. subst opened.
  unfold crunch_artifacts, logfunc, log_write.
  rewrite bind_ask. rewrite !bind_emit, !after_calls_app.
  unfold world_of, trace_of, result_of.
  destruct (open_seeker extracttype input_path out_params w)
    as [[w0 tr0] [[seeker|]|ex]] eqn:Hopen; cbn [fst snd].
  - erewrite bind_Ok by exact Hopen. rewrite after_calls_app.
    fold (audit_log_path out_params).
    assert (Hbefore :
      forall (k : M bool),
        bind (match given profile_filename with
              | Some filename => emit (ELogfunc ("Loaded profile: " +:+ filename))
              | None => ret tt
              end)
          (fun _ =>
             bind (emit (ELogfunc ("Artifact categories to parse: "
                                   +:+ pretty (length plugins))))
               (fun _ =>
                  bind (emit (ELogfunc ("File/Directory selected: " +:+ input_path)))
                    (fun _ =>
                       bind (emit (ELogfunc (nl +:+ dashes))) (fun _ => k)))) w0
        = after_calls (before_audit_log plugins input_path profile_filename)
            (k w0)).
    { intros k. unfold before_audit_log.
      destruct (given profile_filename) as [filename|].
      - rewrite !bind_emit, !after_calls_app. reflexivity.
      - rewrite bind_ret, !bind_emit, !after_calls_app. reflexivity. }
    rewrite Hbefore, after_calls_app. clear Hbefore.
    rewrite opening_split.
    destruct (open_for_writing (audit_log_path out_params) "w+" w0)
      as [w0' [[]|ex]] eqn:Hlog; cbn [fst snd].
    + erewrite bind_Ok by (unfold call; rewrite Hlog; reflexivity).
      rewrite !bind_emit, !after_calls_app.
      destruct (process_plugins seeker out_params ratio wrap plugins 0 w0')
        as [[w1 tr1] [cs|ex]] eqn:Hloop; cbn [fst snd].
      * erewrite bind_Ok by exact Hloop.
        rewrite !bind_emit, bind_ask, !bind_emit, !after_calls_app.
        unfold ret, finale, reported_path. simpl.
        rewrite <- !app_assoc. reflexivity.
      * erewrite bind_Raised by exact Hloop. simpl.
        rewrite <- !app_assoc. reflexivity.
    + erewrite bind_Raised by (unfold call; rewrite Hlog; reflexivity).
      unfold after_calls, banner. rewrite app_nil_r, <- !app_assoc.
      reflexivity.
  - erewrite bind_Ok by exact Hopen. simpl. rewrite app_nil_r. reflexivity.
  - erewrite bind_Raised by exact Hopen. reflexivity.
Qed.

(** ** Fault isolation *)

Lemma folder_ready_never_aborts out_params plugin :
  folder_always_ready out_params plugin -> folder_never_aborts out_params plugin.
Proof. intros H w. destruct (H w) as (w1 & tr & Hw). eauto. Qed.

(** One iteration in which the parse routine raises. *)
Lemma process_plugin_method_raises seeker out_params ratio wrap plugin cs
    w w2 tr2 w3 tr3 ex :
  let folder := category_folder_of out_params plugin in
  let files := files_found_of seeker plugin w in
  files <> [] ->
  ensure_category_folder plugin folder
    (world_after_search seeker (search_regexes plugin) w) =
    (w2, tr2, Ok Fallthrough) ->
  method plugin files folder seeker wrap w2 = (w3, tr3, Raised ex) ->
  process_plugin seeker out_params ratio wrap plugin cs w =
  (w3,
   audit_block seeker plugin w
   ++ [ELogfunc ""; ELogfunc (started_line plugin)] ++ tr2
   ++ EInvoke (name plugin) files folder wrap :: tr3
   ++ method_failure_log plugin ex,
   Ok cs).
Proof.
  intros folder files Hfiles Hfolder Hraise.
  pose proof (process_plugin_run seeker out_params ratio wrap plugin cs w) as Hrun.
  simpl in Hrun. fold files in Hrun.
  pose proof (run_plugin_run plugin files seeker out_params wrap
                (world_after_search seeker (search_regexes plugin) w)) as Hrp.
  simpl in Hrp. fold folder in Hrp. rewrite Hfolder in Hrp.
  unfold world_of, trace_of, result_of in Hrp. simpl in Hrp.
  rewrite (invoke_method_raises _ _ _ _ _ _ _ _ _ Hraise) in Hrp. simpl in Hrp.
  rewrite Hrp in Hrun. unfold world_of, trace_of, result_of in Hrun.
  simpl in Hrun. destruct files as [|f fs]; [congruence|]. exact Hrun.
Qed.

(** One iteration in which the parse routine returns. *)
Lemma process_plugin_method_returns seeker out_params ratio wrap plugin cs
    w w2 tr2 w3 tr3 :
  let folder := category_folder_of out_params plugin in
  let files := files_found_of seeker plugin w in
  files <> [] ->
  ensure_category_folder plugin folder
    (world_after_search seeker (search_regexes plugin) w) =
    (w2, tr2, Ok Fallthrough) ->
  method plugin files folder seeker wrap w2 = (w3, tr3, Ok tt) ->
  process_plugin seeker out_params ratio wrap plugin cs w =
  (w3,
   audit_block seeker plugin w
   ++ [ELogfunc ""; ELogfunc (started_line plugin)] ++ tr2
   ++ (EInvoke (name plugin) files folder wrap :: tr3)
   ++ [ELogfunc (completed_line plugin); progress_event ratio cs],
   Ok (cs + 1)).
Proof.
  intros folder files Hfiles Hfolder Hret.
  pose proof (process_plugin_run seeker out_params ratio wrap plugin cs w) as Hrun.
  simpl in Hrun. fold files in Hrun.
  pose proof (run_plugin_run plugin files seeker out_params wrap
                (world_after_search seeker (search_regexes plugin) w)) as Hrp.
  simpl in Hrp. fold folder in Hrp. rewrite Hfolder in Hrp.
  unfold world_of, trace_of, result_of in Hrp. simpl in Hrp.
  rewrite (invoke_method_returns _ _ _ _ _ _ _ _ Hret) in Hrp. simpl in Hrp.
  rewrite Hrp in Hrun. unfold world_of, trace_of, result_of in Hrun.
  simpl in Hrun. destruct files as [|f fs]; [congruence|].
  rewrite Hrun. trace_eq.
Qed.

(** A plugin with matches and a folder is invoked, and whatever its parse
    routine does the iteration returns. *)
Lemma process_plugin_invoked seeker out_params ratio wrap plugin cs w :
  always_matches seeker plugin ->
  folder_always_ready out_params plugin ->
  exists w1 cs1 t1 t2,
    process_plugin seeker out_params ratio wrap plugin cs w =
    (w1,
     t1 ++ EInvoke (name plugin) (files_found_of seeker plugin w)
             (category_folder_of out_params plugin) wrap :: t2,
     Ok cs1)
    /\ (always_raises plugin ->
        exists ex t3, t2 = t3 ++ method_failure_log plugin ex).
Proof.
  intros Hmatch Hready.
  destruct (Hready (world_after_search seeker (search_regexes plugin) w))
    as (w2 & tr2 & Hfolder).
  destruct (method plugin (files_found_of seeker plugin w)
              (category_folder_of out_params plugin) seeker wrap w2)
    as [[w3 tr3] [[]|ex]] eqn:Hm.
  - exists w3, (cs + 1),
      (audit_block seeker plugin w
       ++ [ELogfunc ""; ELogfunc (started_line plugin)] ++ tr2),
      (tr3 ++ [ELogfunc (completed_line plugin); progress_event ratio cs]).
    split.
    + rewrite (process_plugin_method_returns _ _ _ _ _ _ _ _ _ _ _
                 (Hmatch w) Hfolder Hm).
      rewrite <- !app_assoc. reflexivity.
    + intros Hraises.
      destruct (Hraises (files_found_of seeker plugin w)
                  (category_folder_of out_params plugin) seeker wrap w2)
        as (w4 & tr4 & ex & Hm'). congruence.
  - exists w3, cs,
      (audit_block seeker plugin w
       ++ [ELogfunc ""; ELogfunc (started_line plugin)] ++ tr2),
      (tr3 ++ method_failure_log plugin ex).
    split.
    + rewrite (process_plugin_method_raises _ _ _ _ _ _ _ _ _ _ _ _
                 (Hmatch w) Hfolder Hm).
      rewrite <- !app_assoc. reflexivity.
    + intros _. exists ex, tr3. reflexivity.
Qed.

(** C1 (fault isolation).  First part: in any list of plugins, when the loop
    reaches a plugin whose parse routine raises, the exception is caught, the
    run log receives the plugin's name, the text of the exception and its
    traceback, and the loop goes on with the plugins that follow, from the
    world the routine left: the pass ends as the rest of the list makes it
    end.  Second part: for three plugins with matches and folders, the
    second of which always raises, a pass whose seeker and audit log opened
    returns [True]; the first plugin is invoked, then the failure of the
    second is logged, then the third is invoked. *)
Theorem fault_isolation :
  (forall seeker out_params ratio wrap before plugin after cs w
          w1 tr1 cs1 w2 tr2 w3 tr3 ex,
      let folder := category_folder_of out_params plugin in
      let files := files_found_of seeker plugin w1 in
      process_plugins seeker out_params ratio wrap before cs w =
        (w1, tr1, Ok cs1) ->
      files <> [] ->
      ensure_category_folder plugin folder
        (world_after_search seeker (search_regexes plugin) w1) =
        (w2, tr2, Ok Fallthrough) ->
      method plugin files folder seeker wrap w2 = (w3, tr3, Raised ex) ->
      let rest := process_plugins seeker out_params ratio wrap after cs1 w3 in
      process_plugins seeker out_params ratio wrap
        (before ++ plugin :: after) cs w =
      (world_of rest,
       tr1
       ++ (audit_block seeker plugin w1
           ++ [ELogfunc ""; ELogfunc (started_line plugin)] ++ tr2
           ++ EInvoke (name plugin) files folder wrap :: tr3
           ++ [ELogfunc ("Reading " +:+ name plugin +:+ " artifact had errors!");
               ELogfunc ("Error was " +:+ exn_str ex);
               ELogfunc ("Exception Traceback: " +:+ exn_traceback ex)])
       ++ trace_of rest,
       result_of rest))
  /\
  (forall first second third extracttype input_path out_params ratio wrap
          casedata profile_filename w w0 tr0 seeker w0',
      open_seeker extracttype input_path out_params w =
        (w0, tr0, Ok (Some seeker)) ->
      open_for_writing (audit_log_path out_params) "w+" w0 = (w0', Ok tt) ->
      (forall plugin, plugin ∈ [first; second; third] ->
         always_matches seeker plugin
         /\ folder_always_ready out_params plugin) ->
      always_raises second ->
      exists w1 files1 files3 ex t1 t2 t3 t4,
        crunch_artifacts [first; second; third] extracttype input_path
          out_params ratio wrap casedata profile_filename w =
        (w1,
         t1 ++ EInvoke (name first) files1
                 (category_folder_of out_params first) wrap
         :: t2 ++ method_failure_log second ex
         ++ t3 ++ EInvoke (name third) files3
                    (category_folder_of out_params third) wrap
         :: t4,
         Ok true)).
Proof.
  split.
  - intros seeker out_params ratio wrap before plugin after cs w
      w1 tr1 cs1 w2 tr2 w3 tr3 ex folder files Hbefore Hfiles Hfolder Hm rest.
    rewrite process_plugins_app.
    rewrite (bind_Ok _ _ _ _ _ _ Hbefore).
    rewrite process_plugins_cons.
    rewrite (bind_Ok _ _ _ _ _ _
               (process_plugin_method_raises _ _ _ _ _ _ _ _ _ _ _ _
                  Hfiles Hfolder Hm)).
    rewrite after_calls_app. subst rest.
    destruct (process_plugins seeker out_params ratio wrap after cs1 w3)
      as [[w4 tr4] r].
    unfold world_of, trace_of, result_of, after_calls, method_failure_log.
    cbn [fst snd]. f_equal. f_equal. trace_eq.
  - intros first second third extracttype input_path out_params ratio wrap
      casedata profile_filename w w0 tr0 seeker w0' Hopen Hlogfile Hall Hraises.
    destruct (Hall first) as [Hm1 Hr1]; [repeat constructor|].
    destruct (Hall second) as [Hm2 Hr2]; [repeat constructor|].
    destruct (Hall third) as [Hm3 Hr3]; [repeat constructor|].
    destruct (process_plugin_invoked seeker out_params ratio wrap first 0 w0'
                Hm1 Hr1) as (wa & csa & a1 & a2 & Ha & _).
    destruct (process_plugin_invoked seeker out_params ratio wrap second csa wa
                Hm2 Hr2) as (wb & csb & b1 & b2 & Hb & Hlog).
    destruct (Hlog Hraises) as (ex & b3 & ->).
    destruct (process_plugin_invoked seeker out_params ratio wrap third csb wb
                Hm3 Hr3) as (wc & csc & c1 & c2 & Hc & _).
    assert (Hloop :
      process_plugins seeker out_params ratio wrap [first; second; third] 0 w0' =
      (wc,
       (a1 ++ EInvoke (name first) (files_found_of seeker first w0')
                (category_folder_of out_params first) wrap :: a2)
       ++ (b1 ++ EInvoke (name second) (files_found_of seeker second wa)
                   (category_folder_of out_params second) wrap
           :: b3 ++ method_failure_log second ex)
       ++ (c1 ++ EInvoke (name third) (files_found_of seeker third wb)
                   (category_folder_of out_params third) wrap :: c2)
       ++ [],
       Ok csc)).
    { rewrite process_plugins_cons, (bind_Ok _ _ _ _ _ _ Ha).
      rewrite process_plugins_cons, (bind_Ok _ _ _ _ _ _ Hb).
      rewrite process_plugins_cons, (bind_Ok _ _ _ _ _ _ Hc).
      reflexivity. }
    pose proof (crunch_artifacts_run [first; second; third] extracttype
                  input_path out_params ratio wrap casedata profile_filename w)
      as Hrun.
    cbv zeta in Hrun. rewrite Hopen in Hrun.
    unfold world_of, trace_of, result_of in Hrun. cbn [fst snd] in Hrun.
    rewrite Hlogfile in Hrun. cbn [fst snd] in Hrun.
    rewrite Hloop in Hrun. cbn [fst snd] in Hrun.
    exists wc, (files_found_of seeker first w0'),
      (files_found_of seeker third wb), ex,
      (banner ++ tr0
       ++ opening [first; second; third] input_path out_params profile_filename
       ++ a1),
      (a2 ++ b1 ++ EInvoke (name second) (files_found_of seeker second wa)
                     (category_folder_of out_params second) wrap :: b3),
      c1,
      (c2 ++ finale extracttype input_path out_params casedata
               (process_time w) (process_time wc)).
    rewrite Hrun. f_equal. f_equal.
    rewrite app_nil_r. trace_eq.
Qed.

(** ** The combined matches *)

Lemma occurrences_concat location (results : list (list string)) :
  occurrences location (concat results) =
  sum_list_with (occurrences location) results.
Proof.
  unfold occurrences. induction results as [|found rest IH]; [reflexivity|].
  simpl. rewrite filter_app, length_app, IH. reflexivity.
Qed.

(** C2 (amended).  The matches of a plugin are accumulated in a list, not
    a set: the parse routine of a plugin with matches and a folder is called
    with the results of its patterns laid end to end in the order of
    declaration, so that a location occurs in the argument as many times as
    it occurs in the results of the individual patterns taken together. *)
Theorem matches_concatenated seeker out_params ratio wrap plugin cs w w2 tr2 :
  let regexes := search_regexes plugin in
  let results := search_results seeker regexes w in
  let folder := category_folder_of out_params plugin in
  concat results <> [] ->
  ensure_category_folder plugin folder (world_after_search seeker regexes w) =
    (w2, tr2, Ok Fallthrough) ->
  exists rest,
    trace_of (process_plugin seeker out_params ratio wrap plugin cs w) =
      audit_block seeker plugin w
      ++ [ELogfunc ""; ELogfunc (started_line plugin)] ++ tr2
      ++ EInvoke (name plugin) (concat results) folder wrap :: rest
    /\ forall location,
         occurrences location (concat results) =
         sum_list_with (occurrences location) results.
Proof.
  intros regexes results folder Hfiles Hfolder.
  destruct (method plugin (concat results) folder seeker wrap w2)
    as [[w3 tr3] [[]|ex]] eqn:Hm.
  - exists (tr3 ++ [ELogfunc (completed_line plugin); progress_event ratio cs]).
    split; [|intros; apply occurrences_concat].
    rewrite (process_plugin_method_returns _ _ _ _ _ _ _ _ _ _ _
               Hfiles Hfolder Hm).
    reflexivity.
  - exists (tr3 ++ method_failure_log plugin ex).
    split; [|intros; apply occurrences_concat].
    rewrite (process_plugin_method_raises _ _ _ _ _ _ _ _ _ _ _ _
               Hfiles Hfolder Hm).
    reflexivity.
Qed.

(** ** Passes that reach the end *)



(** The counter never exceeds the number of plugins gone through. *)
Lemma progress_counter_bounds seeker out_params ratio wrap plugins cs w w1 tr cs1 :
  process_plugins seeker out_params ratio wrap plugins cs w = (w1, tr, Ok cs1) ->
  cs <= cs1 <= cs + Z.of_nat (length plugins).
Proof.
  revert cs w w1 tr cs1.
  induction plugins as [|plugin rest IH]; intros cs w w1 tr cs1 Hrun.
  - simpl in Hrun. unfold ret in Hrun. inversion Hrun. simpl. lia.
  - rewrite process_plugins_cons in Hrun.
    pose proof (process_plugin_run seeker out_params ratio wrap plugin cs w) as Hstep.
    cbv zeta in Hstep.
    destruct (process_plugin seeker out_params ratio wrap plugin cs w)
      as [[wa tra] [csa|ex]] eqn:Hp.
    + rewrite (bind_Ok _ _ _ _ _ _ Hp) in Hrun.
      destruct (process_plugins seeker out_params ratio wrap rest csa wa)
        as [[wb trb] rb] eqn:Hrest.
      simpl in Hrun. inversion Hrun; subst.
      apply IH in Hrest.
      assert (cs <= csa <= cs + 1).
      { destruct (files_found_of seeker plugin w).
        - inversion Hstep. lia.
        - destruct (result_of _) as [[]|]; inversion Hstep; lia. }
      rewrite length_cons. lia.
    + rewrite (bind_Raised _ _ _ _ _ _ Hp) in Hrun. discriminate.
Qed.

(** ** The seeker decides whether there is a pass *)

Lemma open_seeker_trace extracttype input_path out_params w :
  Forall is_run_log (trace_of (open_seeker extracttype input_path out_params w)).
Proof.
  unfold open_seeker, try_except, trace_of, bind, call, logfunc, emit, ret.
  repeat
    match goal with
    | |- context [if ?b then _ else _] => destruct b
    | |- context [FileSeekerDir ?a ?b] =>
        destruct (FileSeekerDir a b) as [? [?|?]]
    | |- context [FileSeekerTar ?a ?b ?c] =>
        destruct (FileSeekerTar a b c) as [? [?|?]]
    | |- context [FileSeekerZip ?a ?b ?c] =>
        destruct (FileSeekerZip a b c) as [? [?|?]]
    end; simpl;
    repeat first [apply Forall_nil_2
                 | apply Forall_cons_2; [right; eexists; reflexivity|]].
Qed.

Lemma banner_run_log : Forall is_run_log banner.
Proof.
  unfold banner.
  repeat first [apply Forall_nil_2
               | apply Forall_cons_2;
                 [first [left; reflexivity | right; eexists; reflexivity]|]].
Qed.

(** When no seeker is obtained the pass returns [False] having only written
    to the run log: nothing is searched, invoked or reported. *)
Lemma seeker_failure_ends_pass plugins extracttype input_path out_params ratio
    wrap casedata profile_filename w w0 tr0 :
  open_seeker extracttype input_path out_params w = (w0, tr0, Ok None) ->
  crunch_artifacts plugins extracttype input_path out_params ratio wrap
    casedata profile_filename w = (w0, banner ++ tr0, Ok false)
  /\ Forall is_run_log (banner ++ tr0).
Proof.
  intros Hopen.
  pose proof (crunch_artifacts_run plugins extracttype input_path out_params
                ratio wrap casedata profile_filename w) as Hrun.
  cbv zeta in Hrun. rewrite Hopen in Hrun. split; [exact Hrun|].
  apply Forall_app. split; [apply banner_run_log|].
  pose proof (open_seeker_trace extracttype input_path out_params w) as Htr.
  rewrite Hopen in Htr. exact Htr.
Qed.


(** The long-path prefix put in front of a Windows path by [main] is the one
    removed again before the report is generated. *)
Lemma strip_added_prefix p :
  strip_long_path (long_path_prefix +:+ replace_slashes p) = replace_slashes p.
Proof. reflexivity. Qed.

(** So on Windows the report of a run on [p] shows [p] with its slashes
    turned, and elsewhere [p] itself. *)
Lemma reported_path_of_prefixed p :
  is_platform_windows = true ->
  reported_path (long_path_prefix +:+ replace_slashes p) = replace_slashes p.
Proof. intros Hwin. unfold reported_path. rewrite Hwin. apply strip_added_prefix. Qed.

Lemma reported_path_elsewhere p :
  is_platform_windows = false -> reported_path p = p.
Proof. intros Hwin. unfold reported_path. rewrite Hwin. reflexivity. Qed.

(** ** Profiles *)

Lemma truthy_given o : truthy o = match given o with Some _ => true | None => false end.
Proof. destruct o as [s|]; [|reflexivity]. simpl. destruct (String.eqb s ""); reflexivity. Qed.

Lemma validate_args_run_request w args input output kind :
  run_request w args input output kind ->
  validate_args w args =
  match given (arg_load_profile args) with
  | Some profile =>
      if os_path_exists w profile then None else Some profile_not_found
  | None => None
  end.
Proof.
  intros [Hp Hc Hi Ho Ht Hie Hoe]. unfold validate_args.
  rewrite Hp, truthy_given, Hc, Hi, Ho, Ht, Hie, Hoe. simpl.
  destruct (given (arg_load_profile args)) as [profile|]; [|reflexivity].
  destruct (os_path_exists w profile); reflexivity.
Qed.

(** A missing profile file ends [main] in [parser.error]. *)
Lemma main_profile_not_found available_plugins args w input output kind path :
  run_request w args input output kind ->
  given (arg_load_profile args) = Some path ->
  os_path_exists w path = false ->
  main available_plugins args w =
  (w, [EPrint (info_line available_plugins)], Ok (ParserError profile_not_found)).
Proof.
  intros Hreq Hload Hmissing. unfold main, print.
  rewrite bind_emit, bind_ask.
  rewrite (validate_args_run_request _ _ _ _ _ Hreq), Hload, Hmissing.
  reflexivity.
Qed.

(** Otherwise [main] goes on to lines 164-208. *)
Lemma main_run_request available_plugins args w input output kind :
  run_request w args input output kind ->
  validate_args w args = None ->
  main available_plugins args w =
  after_calls [EPrint (info_line available_plugins)]
    (load_and_dispatch available_plugins args w).
Proof.
  intros Hreq Hvalid. unfold main, print.
  rewrite bind_emit, bind_ask, Hvalid.
  destruct Hreq as [Hp Hc _ _ _ _ _]. rewrite Hp, Hc. reflexivity.
Qed.

Lemma load_and_dispatch_profile available_plugins args w input output kind path :
  run_request w args input output kind ->
  given (arg_load_profile args) = Some path ->
  load_and_dispatch available_plugins args w =
  bind (load_profile available_plugins path)
    (fun loaded =>
       match loaded with
       | None => ret MainReturned
       | Some selected_plugins =>
           dispatch selected_plugins args input output kind (Some path)
       end) w.
Proof.
  intros [_ _ Hi Ho Ht _ _] Hload. unfold load_and_dispatch.
  rewrite Hi, Ho, Ht, Hload. reflexivity.
Qed.

Lemma load_and_dispatch_no_profile available_plugins args w input output kind :
  run_request w args input output kind ->
  given (arg_load_profile args) = None ->
  load_and_dispatch available_plugins args w =
  dispatch available_plugins args input output kind None w.
Proof.
  intros [_ _ Hi Ho Ht _ _] Hload. unfold load_and_dispatch.
  rewrite Hi, Ho, Ht, Hload. reflexivity.
Qed.

Lemma py_eq_str_spec v s : py_eq_str v s = true <-> v = JStr s.
Proof.
  destruct v; simpl; try (split; [discriminate|intros; discriminate]).
  rewrite String.eqb_eq. split; [intros ->|intros [= ->]]; reflexivity.
Qed.

Lemma wrong_tag_rejected (profile : gmap string json) :
  profile !! "leapp" <> Some (JStr "dleapp") ->
  py_eq_str (dict_get profile "leapp") "dleapp" = false.
Proof.
  intros Htag. apply not_true_is_false. rewrite py_eq_str_spec.
  unfold dict_get. destruct (profile !! "leapp") as [v|]; simpl.
  - intros ->. apply Htag. reflexivity.
  - discriminate.
Qed.

(** Format versions that do not equal 1: any other integer, a string, a
    missing member.  [true] and [1.0] do equal 1, as in Python. *)
Lemma format_version_not_one (profile : gmap string json) :
  (profile !! "format_version" = None
   \/ (exists z, z <> 1 /\ profile !! "format_version" = Some (JInt z))
   \/ (exists s, profile !! "format_version" = Some (JStr s))) ->
  py_eq_int (dict_get profile "format_version") 1 = false.
Proof.
  unfold dict_get. intros [->|[(z & Hz & ->)|(s & ->)]]; simpl; try reflexivity.
  apply Z.eqb_neq. exact Hz.
Qed.

Lemma true_and_one_point_zero_equal_one :
  py_eq_int (JBool true) 1 = true /\ py_eq_int (JFloat (FDyadic 1 0)) 1 = true
  /\ py_eq_int (JFloat (FDyadic 2 (-1))) 1 = true.
Proof. repeat split; reflexivity. Qed.

Lemma load_profile_rejects available_plugins path w :
  not_a_profile (file_read w path) ->
  exists why,
    load_profile available_plugins path w =
    (w, [EPrint (invalid_profile why)], Ok None).
Proof.
  intros Hbad. unfold load_profile. rewrite bind_ask.
  destruct Hbad as [json_ex Hload | profile Hload Htag | profile Hload Hversion];
    rewrite Hload.
  - exists json_ex. reflexivity.
  - exists "incorrect LEAPP or version".
    rewrite (wrong_tag_rejected _ Htag). reflexivity.
  - exists "incorrect LEAPP or version".
    rewrite Hversion, orb_true_r. reflexivity.
Qed.

(** X27 (profiles that are refused).  On a command line that asks for a
    run with a profile: when the profile file exists and its content is
    malformed, or an object whose schema tag is not the string [dleapp], or
    whose format version does not equal 1 with the [==] of Python (for
    which [true] and [1.0] equal 1), [main] prints that the file is not a
    valid profile file and returns having done nothing else (no plugin list
    is applied, the dispatch pass is never entered); when the file does not
    exist [main] ends in [parser.error] instead, with a message of its
    own. *)
Theorem profile_fails_closed available_plugins args input output kind path w w' :
  given (arg_load_profile args) = Some path ->
  run_request w args input output kind ->
  os_path_exists w path = true ->
  not_a_profile (file_read w path) ->
  run_request w' args input output kind ->
  os_path_exists w' path = false ->
  exists why,
    main available_plugins args w =
      (w,
       [EPrint (info_line available_plugins);
        EPrint ("File was not a valid profile file: " +:+ why)],
       Ok MainReturned)
    /\ main available_plugins args w' =
      (w', [EPrint (info_line available_plugins)],
       Ok (ParserError "DLEAPP Profile file not found! Run the program again."))
    /\ "File was not a valid profile file: " +:+ why
       <> "DLEAPP Profile file not found! Run the program again.".
Proof.
  intros Hload Hreq Hexists Hbad Hreq' Hmissing.
  destruct (load_profile_rejects available_plugins path w Hbad) as [why Hrej].
  exists why. split; [|split].
  - rewrite (main_run_request _ _ _ _ _ _ Hreq).
    + rewrite (load_and_dispatch_profile _ _ _ _ _ _ _ Hreq Hload).
      rewrite (bind_Ok _ _ _ _ _ _ Hrej). reflexivity.
    + rewrite (validate_args_run_request _ _ _ _ _ Hreq), Hload, Hexists.
      reflexivity.
  - apply (main_profile_not_found _ _ _ _ _ _ _ Hreq' Hload Hmissing).
  - cbv [String.append]. discriminate.
Qed.

Lemma filter_agree {A} (P Q : A -> Prop)
    `{!forall x, Decision (P x), !forall x, Decision (Q x)} (l : list A) :
  (forall x, x ∈ l -> P x <-> Q x) ->
  filter P l = filter Q l.
Proof.
  induction l as [|a l IH]; intros Hagree; [reflexivity|].
  rewrite !filter_cons.
  rewrite IH by (intros x Hx; apply Hagree; constructor; exact Hx).
  apply decide_ext. apply Hagree. constructor.
Qed.

Lemma str_members_names (names : list string) w :
  str_members (JStr <$> names) w = (w, [], Ok (list_to_set names)).
Proof.
  induction names as [|n rest IH]; [reflexivity|].
  simpl. rewrite (bind_Ok _ _ _ _ _ _ IH). reflexivity.
Qed.

Lemma load_profile_accepts available_plugins path w profile profile_plugins :
  json_load (file_read w path) = inr (JDict profile) ->
  profile !! "leapp" = Some (JStr "dleapp") ->
  profile !! "format_version" = Some (JInt 1) ->
  py_set (dict_get_default profile "plugins" (JList [])) w =
    (w, [], Ok profile_plugins) ->
  load_profile available_plugins path w =
  (w, [],
   Ok (Some (filter (fun plugin => name plugin ∈ profile_plugins)
               available_plugins))).
Proof.
  intros Hload Htag Hversion Hset. unfold load_profile.
  rewrite bind_ask, Hload. unfold dict_get. rewrite Htag, Hversion. simpl.
  rewrite (bind_Ok _ _ _ _ _ _ Hset). reflexivity.
Qed.

(** C5 (profile selection).  On a command line that asks for a run: with a
    profile whose schema tag and format version are the expected ones and
    whose plugin names are [names], the pass is entered with the plugins of
    the registry whose name is among [names], in the order of the registry,
    and the names that no plugin of the registry bears change nothing (the
    selection is that of the names the registry knows); with no profile the
    pass is entered with the whole registry. *)
Theorem profile_selection available_plugins args input output kind w :
  run_request w args input output kind ->
  (forall path profile names,
      given (arg_load_profile args) = Some path ->
      os_path_exists w path = true ->
      json_load (file_read w path) = inr (JDict profile) ->
      profile !! "leapp" = Some (JStr "dleapp") ->
      profile !! "format_version" = Some (JInt 1) ->
      profile !! "plugins" = Some (JList (JStr <$> names)) ->
      main available_plugins args w =
        after_calls [EPrint (info_line available_plugins)]
          (dispatch
             (filter (fun plugin => name plugin ∈ names) available_plugins)
             args input output kind (Some path) w)
      /\ filter (fun plugin => name plugin ∈ names) available_plugins =
         filter (fun plugin =>
                   name plugin
                   ∈ filter (fun n => n ∈ name <$> available_plugins) names)
           available_plugins)
  /\ (given (arg_load_profile args) = None ->
      main available_plugins args w =
        after_calls [EPrint (info_line available_plugins)]
          (dispatch available_plugins args input output kind None w)).
Proof.
  intros Hreq. split.
  - intros path profile names Hgiven Hexists Hload Htag Hversion Hplugins.
    split.
    + rewrite (main_run_request _ _ _ _ _ _ Hreq).
      2:{ rewrite (validate_args_run_request _ _ _ _ _ Hreq), Hgiven, Hexists.
          reflexivity. }
      rewrite (load_and_dispatch_profile _ _ _ _ _ _ _ Hreq Hgiven).
      erewrite bind_Ok.
      2:{ apply (load_profile_accepts _ _ _ _ (list_to_set names)
                   Hload Htag Hversion).
          unfold dict_get_default. rewrite Hplugins. simpl.
          apply str_members_names. }
      rewrite after_calls_nil. do 2 f_equal.
      apply list_filter_iff. intros plugin. apply elem_of_list_to_set.
    + apply filter_agree. intros plugin Hin.
      rewrite list_elem_of_filter. split; [intros Hn|intros [_ Hn]].
      * split; [apply list_elem_of_fmap_2; exact Hin|exact Hn].
      * exact Hn.
  - intros Hnone.
    rewrite (main_run_request _ _ _ _ _ _ Hreq).
    + rewrite (load_and_dispatch_no_profile _ _ _ _ _ _ Hreq Hnone).
      reflexivity.
    + rewrite (validate_args_run_request _ _ _ _ _ Hreq), Hnone. reflexivity.
Qed.

Lemma filter_none {A} (P : A -> Prop) `{!forall x, Decision (P x)}
    (l : list A) :
  (forall x, ~ P x) -> filter P l = [].
Proof.
  intros Hnone. induction l as [|a l IH]; [reflexivity|].
  rewrite filter_cons, IH. apply decide_False. apply Hnone.
Qed.

(** C10 (profile without plugin names).  On a command line that asks for a
    run with a profile: when the file holds an object with the expected
    schema tag and format version and no ["plugins"] member, the profile is
    accepted, nothing is printed about it, the selection is empty whatever
    the registry holds, and the pass is entered with no plugin at all. *)
Theorem profile_without_plugins available_plugins args input output kind w
    path profile :
  run_request w args input output kind ->
  given (arg_load_profile args) = Some path ->
  os_path_exists w path = true ->
  json_load (file_read w path) = inr (JDict profile) ->
  profile !! "leapp" = Some (JStr "dleapp") ->
  profile !! "format_version" = Some (JInt 1) ->
  profile !! "plugins" = None ->
  load_profile available_plugins path w = (w, [], Ok (Some []))
  /\ main available_plugins args w =
     after_calls [EPrint (info_line available_plugins)]
       (dispatch [] args input output kind (Some path) w).
Proof.
  intros Hreq Hgiven Hexists Hload Htag Hversion Hnone.
  assert (Hsel : load_profile available_plugins path w = (w, [], Ok (Some []))).
  { rewrite (load_profile_accepts _ _ _ _ ∅ Hload Htag Hversion).
    - do 3 f_equal. apply filter_none. intros plugin. apply not_elem_of_empty.
    - unfold dict_get_default. rewrite Hnone. reflexivity. }
  split; [exact Hsel|].
  rewrite (main_run_request _ _ _ _ _ _ Hreq).
  - rewrite (load_and_dispatch_profile _ _ _ _ _ _ _ Hreq Hgiven).
    rewrite (bind_Ok _ _ _ _ _ _ Hsel), after_calls_nil. reflexivity.
  - rewrite (validate_args_run_request _ _ _ _ _ Hreq), Hgiven, Hexists.
    reflexivity.
Qed.

(** With no plugin the loop does nothing: the pass, if its seeker opens,
    goes straight from the opening lines to the closing ones. *)
Lemma crunch_artifacts_no_plugin extracttype input_path out_params ratio wrap
    casedata profile_filename w w0 tr0 seeker w0' :
  open_seeker extracttype input_path out_params w = (w0, tr0, Ok (Some seeker)) ->
  open_for_writing (audit_log_path out_params) "w+" w0 = (w0', Ok tt) ->
  crunch_artifacts [] extracttype input_path out_params ratio wrap casedata
    profile_filename w =
  (w0',
   banner ++ tr0 ++ opening [] input_path out_params profile_filename
   ++ finale extracttype input_path out_params casedata
        (process_time w) (process_time w0'),
   Ok true).
Proof.
  intros Hopen Hlogfile.
  pose proof (crunch_artifacts_run [] extracttype input_path out_params
                ratio wrap casedata profile_filename w) as Hrun.
  cbv zeta in Hrun. rewrite Hopen in Hrun.
  unfold world_of, result_of in Hrun. cbn [fst snd] in Hrun.
  rewrite Hlogfile in Hrun. exact Hrun.
Qed.

(** ** Folder creation *)

(** X22 (a folder that cannot be created).  An iteration whose folder
    creation fails with [FileExistsError] or [FileNotFoundError]: the
    failure is logged, the parse routine is not called, the progress call
    is not made, and the iteration returns. *)
Lemma process_plugin_mkdir_caught seeker out_params ratio wrap plugin cs w w2 ex :
  let folder := category_folder_of out_params plugin in
  let w1 := world_after_search seeker (search_regexes plugin) w in
  files_found_of seeker plugin w <> [] ->
  os_path_exists w1 folder = false ->
  os_mkdir folder w1 = (w2, Raised ex) ->
  caught_by_mkdir_handler (exn_cls ex) = true ->
  process_plugin seeker out_params ratio wrap plugin cs w =
  (w2,
   audit_block seeker plugin w
   ++ [ELogfunc ""; ELogfunc (started_line plugin); EMkdir folder]
   ++ mkdir_failure_log plugin folder ex,
   Ok cs).
Proof.
  intros folder w1 Hfiles Hex Hmk Hc.
  pose proof (process_plugin_run seeker out_params ratio wrap plugin cs w) as Hrun.
  pose proof (run_plugin_run plugin (files_found_of seeker plugin w) seeker
                out_params wrap w1) as Hrp.
  cbv zeta in Hrun, Hrp. fold folder w1 in Hrun, Hrp.
  rewrite (ensure_category_folder_caught _ _ _ _ _ Hex Hmk Hc) in Hrp.
  unfold world_of, trace_of, result_of in Hrp. cbn [fst snd] in Hrp.
  rewrite Hrp in Hrun. unfold world_of, trace_of, result_of in Hrun.
  cbn [fst snd] in Hrun.
  destruct (files_found_of seeker plugin w); [congruence|].
  rewrite Hrun. reflexivity.
Qed.

(** An iteration whose folder creation fails with any other exception: the
    exception leaves the iteration, and with it the loop and the pass. *)
Lemma process_plugin_mkdir_uncaught seeker out_params ratio wrap plugin cs w w2 ex :
  let folder := category_folder_of out_params plugin in
  let w1 := world_after_search seeker (search_regexes plugin) w in
  files_found_of seeker plugin w <> [] ->
  os_path_exists w1 folder = false ->
  os_mkdir folder w1 = (w2, Raised ex) ->
  caught_by_mkdir_handler (exn_cls ex) = false ->
  process_plugin seeker out_params ratio wrap plugin cs w =
  (w2,
   audit_block seeker plugin w
   ++ [ELogfunc ""; ELogfunc (started_line plugin); EMkdir folder],
   Raised ex).
Proof.
  intros folder w1 Hfiles Hex Hmk Hc.
  pose proof (process_plugin_run seeker out_params ratio wrap plugin cs w) as Hrun.
  pose proof (run_plugin_run plugin (files_found_of seeker plugin w) seeker
                out_params wrap w1) as Hrp.
  cbv zeta in Hrun, Hrp. fold folder w1 in Hrun, Hrp.
  rewrite (ensure_category_folder_uncaught _ _ _ _ _ Hex Hmk Hc) in Hrp.
  unfold world_of, trace_of, result_of in Hrp. cbn [fst snd] in Hrp.
  rewrite Hrp in Hrun. unfold world_of, trace_of, result_of in Hrun.
  cbn [fst snd] in Hrun.
  destruct (files_found_of seeker plugin w); [congruence|].
  rewrite Hrun. reflexivity.
Qed.

End Properties.

(** * Reading what the user types *)

Section Parsing.
Context `{E : Externals}.

#[local] Arguments String.append !_ _ / : simpl nomatch.

Lemma append_assoc (a b c : string) : (a +:+ b) +:+ c = a +:+ (b +:+ c).
Proof. induction a as [|x a IH]; simpl; [reflexivity|]. rewrite IH. reflexivity. Qed.

Lemma append_empty_r (a : string) : a +:+ "" = a.
Proof. induction a as [|x a IH]; simpl; [reflexivity|]. rewrite IH. reflexivity. Qed.

Lemma rev_app_append (a b : string) : String.rev_app a b = String.rev a +:+ b.
Proof.
  unfold String.rev. revert b. induction a as [|x a IH]; intros b; [reflexivity|].
  simpl. rewrite (IH (String x b)), (IH (String x "")), append_assoc.
  reflexivity.
Qed.

Lemma rev_cons (x : Ascii.ascii) (a : string) :
  String.rev (String x a) = String.rev a +:+ String x "".
Proof. unfold String.rev at 1. simpl. apply rev_app_append. Qed.

(** ** [split] *)

Lemma split_go_nonempty sep cur s : split_go sep cur s <> [].
Proof.
  revert cur. induction s as [|c s IH]; intros cur; simpl; [discriminate|].
  destruct (Ascii.eqb c sep); [discriminate|apply IH].
Qed.

Lemma split_go_join sep cur s :
  String.concat (String sep "") (split_go sep cur s) = String.rev cur +:+ s.
Proof.
  revert cur. induction s as [|c s IH]; intros cur.
  - simpl. rewrite append_empty_r. reflexivity.
  - simpl. destruct (Ascii.eqb_spec c sep) as [->|Hne].
    + cbn [String.concat].
      destruct (split_go sep "" s) as [|piece pieces] eqn:Hs.
      { exfalso. exact (split_go_nonempty _ _ _ Hs). }
      rewrite <- Hs, IH. reflexivity.
    + rewrite IH, rev_cons, append_assoc. reflexivity.
Qed.

Lemma split_go_pieces sep cur s :
  sep ∉ String.list_ascii_of_string cur ->
  Forall (fun piece => sep ∉ String.list_ascii_of_string piece)
    (split_go sep cur s).
Proof.
  assert (Hrev : forall a, sep ∉ String.list_ascii_of_string a ->
                           sep ∉ String.list_ascii_of_string (String.rev a)).
  { induction a as [|x a IHa]; [auto|].
    simpl. rewrite not_elem_of_cons. intros [Hx Ha]. rewrite rev_cons.
    specialize (IHa Ha). revert IHa. generalize (String.rev a). intros r.
    induction r as [|y r IHr]; simpl.
    - intros _. rewrite not_elem_of_cons. split; [exact Hx|apply not_elem_of_nil].
    - rewrite !not_elem_of_cons. intros [Hy Hr]. split; [exact Hy|auto]. }
  revert cur. induction s as [|c s IH]; intros cur Hcur; simpl.
  - constructor; [apply Hrev; exact Hcur|constructor].
  - destruct (Ascii.eqb_spec c sep) as [->|Hne].
    + constructor; [apply Hrev; exact Hcur|].
      apply IH. simpl. apply not_elem_of_nil.
    + apply IH. simpl. rewrite not_elem_of_cons. split; [congruence|exact Hcur].
Qed.

Lemma split_go_length sep cur s :
  length (split_go sep cur s) =
  S (length (filter (fun c => c = sep) (String.list_ascii_of_string s))).
Proof.
  revert cur. induction s as [|c s IH]; intros cur; simpl; [reflexivity|].
  rewrite filter_cons. destruct (Ascii.eqb_spec c sep) as [->|Hne].
  - rewrite decide_True by reflexivity. simpl. rewrite IH. reflexivity.
  - rewrite decide_False by exact Hne. apply IH.
Qed.

(** [split] loses nothing: the pieces joined by the separator give the line
    back, no piece holds the separator, and there is one piece more than
    there are separators (so the empty line has one piece, the empty
    string). *)
Theorem split_join sep s :
  String.concat (String sep "") (split sep s) = s
  /\ Forall (fun piece => sep ∉ String.list_ascii_of_string piece) (split sep s)
  /\ length (split sep s) =
     S (length (filter (fun c => c = sep) (String.list_ascii_of_string s))).
Proof.
  unfold split. split; [|split].
  - apply split_go_join.
  - apply split_go_pieces. simpl. apply not_elem_of_nil.
  - apply split_go_length.
Qed.

(** ** [int] and [str] of a number *)

Lemma int_go_append acc (a b : string) :
  int_go acc (a +:+ b) = int_go (int_go acc a) b.
Proof. revert acc. induction a as [|x a IH]; intros acc; simpl; auto. Qed.

Lemma all_digits_append (a b : string) :
  all_digits (a +:+ b) = all_digits a && all_digits b.
Proof.
  induction a as [|x a IH]; simpl; [reflexivity|].
  rewrite IH, andb_assoc. reflexivity.
Qed.

Lemma pretty_N_char_digit (v : N) :
  (v < 10)%N ->
  N.of_nat (Ascii.nat_of_ascii (pretty_N_char v) - 48) = v
  /\ is_digit (pretty_N_char v) = true.
Proof.
  intros Hv. rewrite <- (N2Nat.id v). assert (N.to_nat v < 10)%nat as Hn by lia.
  clear Hv. generalize dependent (N.to_nat v). clear v. intros n Hn.
  do 10 (destruct n as [|n]; [split; reflexivity|]). lia.
Qed.

Lemma pretty_N_go_append (x : N) (s : string) :
  pretty_N_go x s = pretty_N_go x "" +:+ s.
Proof.
  revert s. induction (N.lt_wf_0 x) as [x _ IH]; intros s.
  destruct (decide (x = 0)%N) as [->|Hx].
  - rewrite !pretty_N_go_0. reflexivity.
  - rewrite (pretty_N_go_step x s), (pretty_N_go_step x "") by lia.
    assert (x `div` 10 < x)%N as Hlt by (apply N.div_lt; lia).
    rewrite (IH _ Hlt (String _ s)), (IH _ Hlt (String _ "")), append_assoc.
    reflexivity.
Qed.

Lemma int_of_pretty_N_go (x : N) :
  int_go 0 (pretty_N_go x "") = x /\ all_digits (pretty_N_go x "") = true.
Proof.
  induction (N.lt_wf_0 x) as [x _ IH].
  destruct (decide (x = 0)%N) as [->|Hx].
  - rewrite pretty_N_go_0. split; reflexivity.
  - rewrite (pretty_N_go_step x "") by lia.
    rewrite pretty_N_go_append, int_go_append, all_digits_append.
    assert (x `div` 10 < x)%N as Hlt by (apply N.div_lt; lia).
    destruct (IH _ Hlt) as [-> ->].
    destruct (pretty_N_char_digit (x `mod` 10)) as [Hd Hc].
    { apply N.mod_upper_bound. lia. }
    simpl. rewrite Hd, Hc. split; [|reflexivity].
    pose proof (N.div_mod' x 10). lia.
Qed.

(** [int] within the limit on digits, and beyond it. *)
Lemma int_of_within (s : string) :
  within_int_limit s -> int_of s = Some (int_go 0 s).
Proof.
  unfold within_int_limit, int_of. intros [->|Hle]; [reflexivity|].
  replace (int_max_str_digits <? N.of_nat (String.length s))%N with false.
  - rewrite andb_false_r. reflexivity.
  - symmetry. apply N.ltb_ge. exact Hle.
Qed.

Lemma int_of_beyond (s : string) :
  ~ within_int_limit s -> int_of s = None.
Proof.
  unfold within_int_limit, int_of. intros Hnot.
  replace (int_max_str_digits =? 0)%N with false.
  - replace (int_max_str_digits <? N.of_nat (String.length s))%N with true;
      [reflexivity|].
    symmetry. apply N.ltb_lt. lia.
  - symmetry. apply N.eqb_neq. intros H0. apply Hnot. left. exact H0.
Qed.

(** A number printed and read back is the same number: [str] of a natural
    number is a string of digits, and the value of these digits is the
    number. *)
Theorem int_of_pretty (x : N) :
  isdigit (pretty x) = true /\ int_go 0 (pretty x) = x.
Proof.
  unfold pretty, pretty_N.
  destruct (decide (x = 0)%N) as [->|Hx]; [split; reflexivity|].
  destruct (int_of_pretty_N_go x) as [Hint Hall].
  split; [|exact Hint].
  unfold isdigit. destruct (pretty_N_go x "") eqn:Hp; [|exact Hall].
  simpl in Hint. congruence.
Qed.

(** ** A line of numbers *)

Lemma chars_append (a b : string) :
  String.list_ascii_of_string (a +:+ b) =
  String.list_ascii_of_string a ++ String.list_ascii_of_string b.
Proof. induction a as [|x a IH]; simpl; [reflexivity|]. rewrite IH. reflexivity. Qed.

Lemma chars_rev (s : string) :
  String.list_ascii_of_string (String.rev s) =
  rev (String.list_ascii_of_string s).
Proof.
  induction s as [|x s IH]; [reflexivity|].
  rewrite rev_cons, chars_append, IH. reflexivity.
Qed.

Lemma chars_inj (a b : string) :
  String.list_ascii_of_string a = String.list_ascii_of_string b -> a = b.
Proof.
  intros H. rewrite <- (String.string_of_list_ascii_of_string a),
    <- (String.string_of_list_ascii_of_string b), H. reflexivity.
Qed.

Lemma rev_rev (s : string) : String.rev (String.rev s) = s.
Proof. apply chars_inj. rewrite !chars_rev. apply rev_involutive. Qed.

Lemma is_digit_plain (c : Ascii.ascii) :
  is_digit c = true -> is_whitespace c = false /\ c <> ","%char.
Proof.
  destruct c as [[] [] [] [] [] [] [] []]; vm_compute; intros H;
    split; congruence.
Qed.

Lemma all_digits_plain (s : string) :
  all_digits s = true ->
  Forall (fun c => is_whitespace c = false /\ c <> ","%char)
    (String.list_ascii_of_string s).
Proof.
  induction s as [|c s IH]; simpl; [constructor|].
  intros H. apply andb_true_iff in H as [Hc Hs].
  constructor; [apply is_digit_plain; exact Hc|apply IH; exact Hs].
Qed.

Lemma lstrip_plain (s : string) :
  Forall (fun c => is_whitespace c = false) (String.list_ascii_of_string s) ->
  lstrip s = s.
Proof.
  destruct s as [|c s]; [reflexivity|]. simpl. intros H.
  apply Forall_cons in H as [-> _]. reflexivity.
Qed.

Lemma strip_plain (s : string) :
  Forall (fun c => is_whitespace c = false) (String.list_ascii_of_string s) ->
  strip s = s.
Proof.
  intros H. unfold strip. rewrite (lstrip_plain s H), lstrip_plain, rev_rev.
  - reflexivity.
  - rewrite chars_rev. apply Forall_rev. exact H.
Qed.

Lemma split_go_plain sep cur (a : string) :
  sep ∉ String.list_ascii_of_string a ->
  split_go sep cur a = [String.rev cur +:+ a].
Proof.
  revert cur. induction a as [|c a IH]; intros cur; simpl.
  - rewrite append_empty_r. reflexivity.
  - rewrite not_elem_of_cons. intros [Hc Ha].
    destruct (Ascii.eqb_spec c sep) as [->|_]; [contradiction|].
    rewrite (IH _ Ha), rev_cons, append_assoc. reflexivity.
Qed.

Lemma split_go_piece sep cur (a b : string) :
  sep ∉ String.list_ascii_of_string a ->
  split_go sep cur (a +:+ String sep b) =
  (String.rev cur +:+ a) :: split_go sep "" b.
Proof.
  revert cur. induction a as [|c a IH]; intros cur; simpl.
  - intros _. rewrite Ascii.eqb_refl, append_empty_r. reflexivity.
  - rewrite not_elem_of_cons. intros [Hc Ha].
    destruct (Ascii.eqb_spec c sep) as [->|_]; [contradiction|].
    rewrite (IH _ Ha), rev_cons, append_assoc. reflexivity.
Qed.

Lemma split_joined (pre piece : string) (pieces : list string) :
  Forall (fun s => ","%char ∉ String.list_ascii_of_string s)
    (pre :: piece :: pieces) ->
  split ","%char (pre +:+ String.concat ", " (piece :: pieces)) =
  (pre +:+ piece) :: map (fun s => " " +:+ s) pieces.
Proof.
  unfold split. revert pre piece.
  induction pieces as [|next rest IH]; intros pre piece Hall;
    apply Forall_cons in Hall as [Hpre Hall];
    apply Forall_cons in Hall as [Hpiece Hall].
  - cbn [String.concat map]. apply split_go_plain.
    rewrite chars_append, not_elem_of_app. split; assumption.
  - change (String.concat ", " (piece :: next :: rest))
      with (piece +:+ String ","%char (" " +:+ String.concat ", " (next :: rest))).
    rewrite <- append_assoc, split_go_piece.
    + cbn [map]. f_equal. apply (IH " " next).
      constructor; [|exact Hall].
      simpl. rewrite not_elem_of_cons. split; [discriminate|apply not_elem_of_nil].
    + rewrite chars_append, not_elem_of_app. split; assumption.
Qed.

(** Numbers typed one after the other, separated by a comma and a blank:
    lines 73-74 give one piece per number, each piece is the number as
    [str] writes it, made of digits only. *)
Lemma numbers_line_parsed (numbers : list N) :
  numbers <> [] ->
  parse_numbers (String.concat ", " (pretty <$> numbers)) = pretty <$> numbers
  /\ Forall (fun piece => isdigit piece = true)
       (parse_numbers (String.concat ", " (pretty <$> numbers)))
  /\ int_go 0 <$> parse_numbers (String.concat ", " (pretty <$> numbers)) =
     numbers.
Proof.
  intros Hne.
  assert (Hplain : forall k : N,
             Forall (fun c => is_whitespace c = false /\ c <> ","%char)
               (String.list_ascii_of_string (pretty k))).
  { intros k. destruct (int_of_pretty k) as [Hd _].
    apply all_digits_plain. unfold isdigit in Hd.
    destruct (pretty k); [discriminate|exact Hd]. }
  assert (Hline : parse_numbers (String.concat ", " (pretty <$> numbers)) =
                  pretty <$> numbers).
  { destruct numbers as [|k ks]; [contradiction|].
    unfold parse_numbers. rewrite fmap_cons.
    change (String.concat ", " (pretty k :: (pretty <$> ks)))
      with ("" +:+ String.concat ", " (pretty k :: (pretty <$> ks))).
    rewrite split_joined.
    - cbn [map String.append]. f_equal.
      + apply strip_plain. eapply Forall_impl; [apply Hplain|]. intros c [H _]. exact H.
      + rewrite map_map. apply list_eq. intros i. rewrite !list_lookup_fmap.
        destruct (ks !! i) as [k'|]; [|reflexivity]. simpl. f_equal.
        change (strip (String " " (pretty k'))) with (strip (pretty k')).
        apply strip_plain. eapply Forall_impl; [apply Hplain|]. intros c [H _]. exact H.
    - constructor; [simpl; apply not_elem_of_nil|].
      apply Forall_forall. intros piece Hin.
      change (pretty k :: (pretty <$> ks)) with (pretty <$> (k :: ks)) in Hin.
      apply list_elem_of_fmap in Hin as (k' & -> & _).
      intros Hcomma. pose proof (Hplain k') as Hk.
      rewrite Forall_forall in Hk. destruct (Hk _ Hcomma) as [_ Hc]. congruence. }
  rewrite Hline. split; [reflexivity|]. split.
  - apply Forall_forall. intros piece Hin.
    apply list_elem_of_fmap in Hin as (k & -> & _). apply int_of_pretty.
  - rewrite <- list_fmap_compose. rewrite <- (list_fmap_id numbers) at 2.
    apply list_fmap_ext. intros i k _. simpl. apply int_of_pretty.
Qed.

End Parsing.

(** * The profile-creation session *)

Section Sessions.
Context `{E : Externals}.
Variable tuple_str : parser_id -> string.

(** ** The order of [list.sort] on parsers *)

Lemma compare_Lt_iff (a b : string) :
  String.compare a b = Lt <-> String.le a b /\ a <> b.
Proof.
  unfold String.le, String.leb. split.
  - intros Hlt. rewrite Hlt. split; [exact I|].
    intros ->. assert (String.compare b b = Eq) as Hrefl.
    { destruct (String.compare b b) eqn:Hc; [reflexivity|..];
        pose proof (String.compare_antisym b b) as Ha; rewrite Hc in Ha;
        discriminate. }
    congruence.
  - intros [Hle Hne]. destruct (String.compare a b) eqn:Hc.
    + apply String.compare_eq_iff in Hc. contradiction.
    + reflexivity.
    + destruct Hle.
Qed.

Lemma compare_refl (a : string) : String.compare a a = Eq.
Proof.
  destruct (String.compare a a) eqn:Hc; [reflexivity|..];
    pose proof (String.compare_antisym a a) as Ha; rewrite Hc in Ha;
    discriminate.
Qed.

#[local] Instance parser_le_total : Total parser_le.
Proof.
  intros [c1 n1] [c2 n2]. unfold parser_le, parser_leb. simpl.
  rewrite (String.compare_antisym c2 c1).
  destruct (String.compare c1 c2) eqn:Hc; simpl; auto.
  apply String.leb_total.
Qed.

#[local] Instance parser_le_trans : Transitive parser_le.
Proof.
  intros [c1 n1] [c2 n2] [c3 n3]. unfold parser_le, parser_leb. simpl.
  destruct (String.compare c1 c2) eqn:H12; [|..|discriminate].
  - apply String.compare_eq_iff in H12 as ->.
    destruct (String.compare c2 c3) eqn:H23; [|reflexivity|discriminate].
    intros Hn12 Hn23.
    apply Is_true_true. change (String.le n1 n3).
    transitivity n2; apply Is_true_true; assumption.
  - intros _. destruct (String.compare c2 c3) eqn:H23; [|..|discriminate].
    + apply String.compare_eq_iff in H23 as <-. rewrite H12. reflexivity.
    + intros _. apply compare_Lt_iff in H12 as [Hle12 Hne12].
      apply compare_Lt_iff in H23 as [Hle23 Hne23].
      assert (String.compare c1 c3 = Lt) as ->; [|reflexivity].
      apply compare_Lt_iff. split; [transitivity c2; assumption|].
      intros ->. apply Hne12. apply (anti_symm String.le); assumption.
Qed.

#[local] Instance parser_le_antisym : AntiSymm (=) parser_le.
Proof.
  intros [c1 n1] [c2 n2]. unfold parser_le, parser_leb. simpl.
  rewrite (String.compare_antisym c2 c1).
  destruct (String.compare c1 c2) eqn:Hc; simpl; try discriminate.
  apply String.compare_eq_iff in Hc as ->.
  intros H1 H2. f_equal. apply String.leb_antisym; assumption.
Qed.



(** ** The state of [parsers_in_profile] *)

Lemma dict_lookup_None number (d : profile_dict) :
  dict_lookup number d = None <-> number ∉ d.*1.
Proof.
  induction d as [|[k v] rest IH]; simpl.
  - split; [intros _; apply not_elem_of_nil|reflexivity].
  - rewrite not_elem_of_cons. destruct (N.eqb_spec k number) as [->|Hne].
    + split; [discriminate|intros [Hn _]; contradiction].
    + rewrite IH. split; [intros Hn; split; [congruence|exact Hn]|intros [_ Hn]; exact Hn].
Qed.

Lemma dict_lookup_Some number parser (d : profile_dict) :
  dict_lookup number d = Some parser -> (number, parser) ∈ d.
Proof.
  induction d as [|[k v] rest IH]; simpl; [discriminate|].
  destruct (N.eqb_spec k number) as [->|Hne].
  - intros [= ->]. constructor.
  - intros Hl. constructor. apply IH. exact Hl.
Qed.

Lemma elem_of_dict_delete entry number (d : profile_dict) :
  entry ∈ dict_delete number d <-> entry ∈ d /\ entry.1 <> number.
Proof.
  induction d as [|[k v] rest IH]; simpl.
  - split; [intros H; inversion H|intros [H _]; inversion H].
  - destruct (N.eqb_spec k number) as [->|Hne].
    + rewrite IH, elem_of_cons. split.
      * intros [Hin Hne]. split; [right; exact Hin|exact Hne].
      * intros [[->|Hin] Hne]; [simpl in Hne; contradiction|split; assumption].
    + rewrite !elem_of_cons, IH. split.
      * intros [->|[Hin Hne']]; [split; [left; reflexivity|exact Hne]|].
        split; [right; exact Hin|exact Hne'].
      * intros [[->|Hin] Hne']; [left; reflexivity|right; split; assumption].
Qed.

Lemma dict_delete_keys number (d : profile_dict) :
  (dict_delete number d).*1 = filter (fun k => k <> number) d.*1.
Proof.
  induction d as [|[k v] rest IH]; [reflexivity|].
  rewrite fmap_cons, filter_cons. cbn [dict_delete fst].
  destruct (N.eqb_spec k number) as [->|Hne].
  - rewrite decide_False by (intros H; apply H; reflexivity). exact IH.
  - rewrite decide_True by exact Hne. rewrite fmap_cons, IH. reflexivity.
Qed.

Lemma dict_lookup_delete number other (d : profile_dict) :
  dict_lookup other (dict_delete number d) =
  if (number =? other)%N then None else dict_lookup other d.
Proof.
  induction d as [|[k v] rest IH]; simpl.
  - destruct (number =? other)%N; reflexivity.
  - destruct (N.eqb_spec k number) as [->|Hne].
    + rewrite IH. destruct (N.eqb_spec number other); reflexivity.
    + simpl. rewrite IH.
      destruct (N.eqb_spec k other) as [->|Hko]; [|reflexivity].
      destruct (N.eqb_spec number other) as [->|]; [contradiction|reflexivity].
Qed.

Lemma dict_lookup_app number (d1 d2 : profile_dict) :
  dict_lookup number (d1 ++ d2) =
  match dict_lookup number d1 with
  | Some parser => Some parser
  | None => dict_lookup number d2
  end.
Proof.
  induction d1 as [|[k v] rest IH]; simpl; [reflexivity|].
  destruct (k =? number)%N; [reflexivity|exact IH].
Qed.

Lemma toggle_parser_ok available_parsers d parser_number :
  profile_ok available_parsers d ->
  profile_ok available_parsers
    (toggle_parser tuple_str available_parsers d parser_number).1.1.
Proof.
  intros [Hnodup Hentries]. unfold toggle_parser.
  destruct (isdigit parser_number); [|split; assumption].
  destruct (int_of parser_number) as [number|]; [|split; assumption].
  destruct ((0 <? number)%N && (number <=? N.of_nat (length available_parsers))%N)
    eqn:Hrange; [|split; assumption].
  apply andb_true_iff in Hrange as [Hpos Hle].
  apply N.ltb_lt in Hpos. apply N.leb_le in Hle.
  destruct (dict_lookup number d) as [parser|] eqn:Hlook.
  - simpl. split.
    + rewrite dict_delete_keys. apply NoDup_filter. exact Hnodup.
    + intros k v Hin. apply elem_of_dict_delete in Hin as [Hin _].
      apply Hentries. exact Hin.
  - destruct (available_parsers !! N.to_nat (number - 1)) as [parser|] eqn:Hnth;
      [|split; assumption].
    simpl. split.
    + rewrite fmap_app. apply NoDup_app. split; [exact Hnodup|].
      split; [|apply NoDup_singleton].
      intros k Hk Hk'. simpl in Hk'. apply list_elem_of_singleton in Hk' as ->.
      apply dict_lookup_None in Hlook. contradiction.
    + intros k v Hin. apply elem_of_app in Hin as [Hin|Hin].
      * apply Hentries. exact Hin.
      * apply list_elem_of_singleton in Hin as [= -> ->].
        split; [lia|exact Hnth].
Qed.

Lemma toggle_parsers_ok available_parsers d parser_numbers :
  profile_ok available_parsers d ->
  profile_ok available_parsers
    (toggle_parsers tuple_str available_parsers d parser_numbers).1.1.
Proof.
  revert d. induction parser_numbers as [|t rest IH]; intros d Hok; [exact Hok|].
  simpl.
  pose proof (toggle_parser_ok available_parsers d t Hok) as Hok1.
  destruct (toggle_parser tuple_str available_parsers d t)
    as [[d1 out1] [ex|]]; [exact Hok1|].
  pose proof (IH d1 Hok1) as Hok2.
  destruct (toggle_parsers tuple_str available_parsers d1 rest)
    as [[d2 out2] raised].
  exact Hok2.
Qed.

Lemma toggle_parsers_app available_parsers d before after :
  toggle_parsers tuple_str available_parsers d (before ++ after) =
  match toggle_parsers tuple_str available_parsers d before with
  | (d1, said, Some ex) => (d1, said, Some ex)
  | (d1, said, None) =>
      let '(d2, out2, raised) :=
        toggle_parsers tuple_str available_parsers d1 after in
      (d2, said ++ out2, raised)
  end.
Proof.
  revert d. induction before as [|t ts IH]; intros d.
  - simpl.
    destruct (toggle_parsers tuple_str available_parsers d after)
      as [[d2 out2] raised].
    reflexivity.
  - simpl.
    destruct (toggle_parser tuple_str available_parsers d t)
      as [[da outa] [exa|]]; [reflexivity|].
    rewrite IH.
    destruct (toggle_parsers tuple_str available_parsers da ts)
      as [[db outb] [exb|]]; [reflexivity|].
    destruct (toggle_parsers tuple_str available_parsers db after)
      as [[d2 out2] raised].
    rewrite app_assoc. reflexivity.
Qed.

Lemma profile_ok_empty available_parsers : profile_ok available_parsers [].
Proof. split; [constructor|]. intros k v H. inversion H. Qed.

Lemma dict_delete_absent number (d : profile_dict) :
  number ∉ d.*1 -> dict_delete number d = d.
Proof.
  induction d as [|[k v] rest IH]; [reflexivity|].
  rewrite fmap_cons, not_elem_of_cons. cbn [fst dict_delete].
  intros [Hne Hrest]. destruct (N.eqb_spec k number) as [->|_]; [contradiction|].
  rewrite IH by exact Hrest. reflexivity.
Qed.

Lemma dict_delete_appended number parser (d : profile_dict) :
  number ∉ d.*1 -> dict_delete number (d ++ [(number, parser)]) = d.
Proof.
  intros Habsent. induction d as [|[k v] rest IH].
  - simpl. rewrite N.eqb_refl. reflexivity.
  - rewrite fmap_cons, not_elem_of_cons in Habsent. cbn [fst] in Habsent.
    destruct Habsent as [Hne Hrest]. simpl.
    destruct (N.eqb_spec k number) as [->|_]; [contradiction|].
    rewrite IH by exact Hrest. reflexivity.
Qed.

(** X2 (toggling).  Typing the number of a parser, in no more digits than
    [int] accepts, toggles it and raises nothing: a number that is in the
    profile is taken out, one that is not is put in, bound to the parser
    listed under it, and no other number is touched.  Typing the number of
    a parser that is not in the profile twice leaves the profile as it
    was. *)
Theorem toggle_parser_flips available_parsers d parser_number :
  let number := int_go 0 parser_number in
  let toggled :=
    (toggle_parser tuple_str available_parsers d parser_number).1.1 in
  isdigit parser_number = true ->
  within_int_limit parser_number ->
  (0 < number <= N.of_nat (length available_parsers))%N ->
  (toggle_parser tuple_str available_parsers d parser_number).2 = None
  /\ (dict_lookup number d = None ->
      dict_lookup number toggled = available_parsers !! N.to_nat (number - 1)
      /\ is_Some (dict_lookup number toggled)
      /\ (toggle_parser tuple_str available_parsers toggled parser_number).1.1
         = d)
  /\ (is_Some (dict_lookup number d) -> dict_lookup number toggled = None)
  /\ (forall other, other <> number ->
        dict_lookup other toggled = dict_lookup other d).
Proof.
  intros number toggled Hdigit Hlimit [Hpos Hle]. subst toggled.
  assert (Hrange : (0 <? number)%N
                   && (number <=? N.of_nat (length available_parsers))%N = true).
  { apply andb_true_iff. split; [apply N.ltb_lt|apply N.leb_le]; assumption. }
  destruct (lookup_lt_is_Some_2 available_parsers (N.to_nat (number - 1)))
    as [parser Hnth]; [lia|].
  unfold toggle_parser.
  rewrite Hdigit, (int_of_within _ Hlimit). fold number. rewrite Hrange, Hnth.
  destruct (dict_lookup number d) as [present|] eqn:Hlook.
  - split; [reflexivity|]. split; [discriminate|]. split.
    + intros _. simpl. rewrite dict_lookup_delete, N.eqb_refl. reflexivity.
    + intros other Hother. simpl. rewrite dict_lookup_delete.
      destruct (N.eqb_spec number other) as [->|_]; [contradiction|reflexivity].
  - split; [reflexivity|]. split; [|split].
    + intros _. simpl.
      assert (Hnew : dict_lookup number (d ++ [(number, parser)]) = Some parser).
      { rewrite dict_lookup_app, Hlook. simpl. rewrite N.eqb_refl. reflexivity. }
      rewrite Hnew. split; [reflexivity|]. split; [eexists; reflexivity|].
      simpl. apply dict_delete_appended. apply dict_lookup_None. exact Hlook.
    + intros [x Hx]. discriminate.
    + intros other Hother. simpl. rewrite dict_lookup_app.
      destruct (dict_lookup other d); [reflexivity|]. simpl.
      destruct (N.eqb_spec number other) as [->|_]; [contradiction|reflexivity].
Qed.

(** The number of a listed parser that is not in the profile, typed as
    [str] writes it. *)
Lemma toggle_absent available_parsers d number parser :
  (0 < number)%N ->
  available_parsers !! N.to_nat (number - 1) = Some parser ->
  within_int_limit (pretty number) ->
  dict_lookup number d = None ->
  toggle_parser tuple_str available_parsers d (pretty number) =
  (d ++ [(number, parser)],
   [CPrint ("parser number " +:+ pretty number +:+ " "
            +:+ tuple_str parser +:+ " was added")],
   None).
Proof.
  intros Hpos Hnth Hlimit Hfree.
  destruct (int_of_pretty number) as [Hdigit Hint].
  pose proof (lookup_lt_Some _ _ _ Hnth) as Hlt.
  unfold toggle_parser.
  rewrite Hdigit, (int_of_within _ Hlimit), Hint, Hfree.
  replace ((0 <? number)%N && (number <=? N.of_nat (length available_parsers))%N)
    with true.
  2:{ symmetry. apply andb_true_iff.
      split; [apply N.ltb_lt|apply N.leb_le]; lia. }
  rewrite Hnth. reflexivity.
Qed.


Lemma toggle_parsers_absent available_parsers (numbers : list N) :
  forall d,
    NoDup numbers ->
    Forall (fun number =>
              (0 < number <= N.of_nat (length available_parsers))%N
              /\ dict_lookup number d = None
              /\ within_int_limit (pretty number)) numbers ->
    exists added said,
      toggle_parsers tuple_str available_parsers d (pretty <$> numbers) =
        (d ++ added, said, None)
      /\ added.*1 = numbers
      /\ Forall2 (fun entry line =>
                    available_parsers !! N.to_nat (entry.1 - 1) = Some entry.2
                    /\ line = CPrint ("parser number " +:+ pretty entry.1 +:+ " "
                                      +:+ tuple_str entry.2 +:+ " was added"))
           added said.
Proof.
  induction numbers as [|k ks IH]; intros d Hnodup Hall.
  - exists [], []. rewrite app_nil_r. repeat split. constructor.
  - apply NoDup_cons in Hnodup as [Hk Hnodup].
    apply Forall_cons in Hall as [(Hrange & Hfree & Hlimit) Hall].
    destruct (lookup_lt_is_Some_2 available_parsers (N.to_nat (k - 1)))
      as [parser Hnth]; [lia|].
    destruct (IH (d ++ [(k, parser)]) Hnodup)
      as (added & said & Hrun & Hkeys & Hlines).
    { rewrite Forall_forall in Hall. apply Forall_forall.
      intros k' Hk'. destruct (Hall k' Hk') as (Hrange' & Hfree' & Hlimit').
      split; [exact Hrange'|]. split; [|exact Hlimit'].
      rewrite dict_lookup_app, Hfree'. simpl.
      destruct (N.eqb_spec k k') as [->|_]; [contradiction|reflexivity]. }
    exists ((k, parser) :: added),
      (CPrint ("parser number " +:+ pretty k +:+ " " +:+ tuple_str parser
               +:+ " was added") :: said).
    split; [|split].
    + rewrite fmap_cons. cbn [toggle_parsers].
      rewrite (toggle_absent _ _ _ _ (proj1 Hrange) Hnth Hlimit Hfree), Hrun.
      rewrite <- app_assoc. reflexivity.
    + rewrite fmap_cons, Hkeys. reflexivity.
    + constructor; [split; [exact Hnth|reflexivity]|exact Hlines].
Qed.

(** X6 (a line of numbers).  A line of distinct numbers of listed parsers
    that are not in the profile, separated by a comma and a blank, adds
    them all: after lines 72-88 the profile holds, behind what it held, one
    entry per number in the order typed, each bound to the parser listed
    under the number, one line is printed for each, and nothing is
    raised.  Each number is written in no more digits than [int]
    accepts. *)
Theorem numbers_line_toggles available_parsers d (numbers : list N) :
  NoDup numbers ->
  Forall (fun number =>
            (0 < number <= N.of_nat (length available_parsers))%N
            /\ dict_lookup number d = None
            /\ within_int_limit (pretty number)) numbers ->
  exists added said,
    toggle_parsers tuple_str available_parsers d
      (parse_numbers (String.concat ", " (pretty <$> numbers))) =
      (d ++ added, said, None)
    /\ added.*1 = numbers
    /\ Forall2 (fun entry line =>
                  available_parsers !! N.to_nat (entry.1 - 1) = Some entry.2
                  /\ line = CPrint ("parser number " +:+ pretty entry.1 +:+ " "
                                    +:+ tuple_str entry.2 +:+ " was added"))
         added said.
Proof.
  intros Hnodup Hall.
  destruct numbers as [|k ks].
  - exists [], []. rewrite app_nil_r. repeat split. constructor.
  - destruct (numbers_line_parsed (k :: ks)) as [-> _]; [discriminate|].
    apply toggle_parsers_absent; assumption.
Qed.

(** X26 (more digits than [int] accepts).  A piece made of digits only,
    in more digits than the interpreter allows, is no number for line 77:
    [int] raises [ValueError], nothing is toggled or printed for the
    piece, the pieces after it are not looked at, and the session ends
    there, with that exception, without writing a profile. *)
Theorem digits_beyond_limit available_parsers path d line parser_numbers rest
    before piece after d1 said w :
  lower line = "a" ->
  parse_numbers parser_numbers = before ++ piece :: after ->
  toggle_parsers tuple_str available_parsers d before = (d1, said, None) ->
  isdigit piece = true ->
  ~ within_int_limit piece ->
  exists ex,
    exn_cls ex = ValueError
    /\ toggle_parser tuple_str available_parsers d1 piece = (d1, [], Some ex)
    /\ session tuple_str available_parsers path d
         (line :: parser_numbers :: rest) w =
       (w,
        [CPrint instructions; CInput choice_prompt; CPrint "";
         CInput numbers_prompt] ++ said,
        SessionRaised ex).
Proof.
  intros Hchoice Hpieces Hbefore Hdigit Hbeyond.
  exists (int_limit_error piece).
  assert (Hpiece : toggle_parser tuple_str available_parsers d1 piece =
                   (d1, [], Some (int_limit_error piece))).
  { unfold toggle_parser. rewrite Hdigit, (int_of_beyond _ Hbeyond). reflexivity. }
  split; [reflexivity|]. split; [exact Hpiece|].
  cbn [session]. rewrite Hchoice.
  change (String.eqb "a" "l") with false.
  change (String.eqb "a" "p") with false.
  change (String.eqb "a" "a") with true.
  cbv iota.
  rewrite Hpieces, toggle_parsers_app, Hbefore.
  cbn [toggle_parsers]. rewrite Hpiece, app_nil_r. reflexivity.
Qed.

Lemma lower_char_idem (c : Ascii.ascii) :
  lower_char (lower_char c) = lower_char c.
Proof. destruct c as [[] [] [] [] [] [] [] []]; reflexivity. Qed.

Lemma lower_idem (s : string) : lower (lower s) = lower s.
Proof.
  induction s as [|c s IH]; [reflexivity|].
  simpl. rewrite lower_char_idem, IH. reflexivity.
Qed.

(** X25 (choices in either case).  The choice is read without regard to
    case: a line typed at the choice prompt acts as the same line in lower
    case, so [A], [L], [P] and [Q] are the choices [a], [l], [p] and [q].
    What is typed at the other prompts is taken as it is. *)
Theorem choice_case_insensitive available_parsers path d line rest w :
  session tuple_str available_parsers path d (line :: rest) w =
  session tuple_str available_parsers path d (lower line :: rest) w
  /\ (forall c, c ∈ ["a"; "l"; "p"; "q"; "A"; "L"; "P"; "Q"] ->
        lower c ∈ ["a"; "l"; "p"; "q"]).
Proof.
  split.
  - cbn [session]. rewrite lower_idem. reflexivity.
  - intros c Hc.
    repeat (apply elem_of_cons in Hc as [->|Hc];
            [vm_compute; repeat constructor|]).
    inversion Hc.
Qed.

(** ** What a session writes *)

Lemma dumps_app (a b : list console) : dumps (a ++ b) = dumps a ++ dumps b.
Proof.
  induction a as [|c a IH]; [reflexivity|].
  destruct c; simpl; rewrite ?IH; reflexivity.
Qed.

Lemma dumps_list_parsers number parsers :
  dumps (list_parsers tuple_str number parsers) = [].
Proof.
  revert number. induction parsers as [|p rest IH]; intros number; simpl; auto.
Qed.

Lemma dumps_show_profile d : dumps (show_profile tuple_str d) = [].
Proof. induction d as [|entry rest IH]; simpl; auto. Qed.

Lemma dumps_toggle_parser available_parsers d parser_number :
  dumps (toggle_parser tuple_str available_parsers d parser_number).1.2 = [].
Proof.
  unfold toggle_parser.
  destruct (isdigit parser_number); [|reflexivity].
  destruct (int_of parser_number) as [number|]; [|reflexivity].
  destruct (_ && _); [|reflexivity].
  destruct (dict_lookup _ d); [reflexivity|].
  destruct (available_parsers !! _); reflexivity.
Qed.

Lemma dumps_toggle_parsers available_parsers d parser_numbers :
  dumps (toggle_parsers tuple_str available_parsers d parser_numbers).1.2 = [].
Proof.
  revert d. induction parser_numbers as [|t rest IH]; intros d; [reflexivity|].
  simpl.
  pose proof (dumps_toggle_parser available_parsers d t) as H1.
  destruct (toggle_parser tuple_str available_parsers d t)
    as [[d1 out1] [ex|]]; [exact H1|].
  pose proof (IH d1) as H2.
  destruct (toggle_parsers tuple_str available_parsers d1 rest)
    as [[d2 out2] raised].
  simpl in *. rewrite dumps_app, H1, H2. reflexivity.
Qed.

Lemma ask_profile_name_spec inputs :
  dumps (ask_profile_name inputs).1 = []
  /\ forall base, (ask_profile_name inputs).2 = Some base ->
       base <> "" /\ base ∈ inputs.
Proof.
  induction inputs as [|line rest [IHd IHb]]; simpl.
  - split; [reflexivity|discriminate].
  - destruct (String.eqb_spec line "") as [->|Hne].
    + destruct (ask_profile_name rest) as [out answer]. simpl in *.
      split; [exact IHd|].
      intros base Hb. destruct (IHb base Hb) as [Hn Hin].
      split; [exact Hn|right; exact Hin].
    + simpl. split; [reflexivity|].
      intros base [= <-]. split; [exact Hne|left].
Qed.

Lemma saved_later available_parsers path inputs inputs' before out :
  dumps before = [] ->
  (forall base, base ∈ inputs -> base ∈ inputs') ->
  saved available_parsers path inputs out ->
  saved available_parsers path inputs' (before ++ out).
Proof.
  intros Hbefore Hsub (d & base & pre & Hok & Hne & Hbase & Hin & Hpre & ->).
  exists d, base, (before ++ pre).
  split; [exact Hok|]. split; [exact Hne|]. split; [exact Hbase|].
  split; [apply Hsub; exact Hin|]. split.
  - rewrite dumps_app, Hbefore, Hpre. reflexivity.
  - rewrite app_assoc. reflexivity.
Qed.

Lemma quit_and_save_spec available_parsers path d inputs w :
  profile_ok available_parsers d ->
  (dumps (quit_and_save path d inputs w).1.2 = []
   /\ ((quit_and_save path d inputs w).2 = SessionReturned -> d = []))
  \/ ((quit_and_save path d inputs w).2 = SessionReturned
      /\ saved available_parsers path inputs (quit_and_save path d inputs w).1.2).
Proof.
  intros Hok. unfold quit_and_save.
  destruct d as [|entry d']; [left; split; reflexivity|].
  destruct (ask_profile_name_spec inputs) as [Hd Hb].
  destruct (ask_profile_name inputs) as [out [base|]]; simpl in *.
  - destruct (open_for_writing (os_path_join path (base +:+ ".dlprofile"))
                "wt" w) as [w1 [[]|ex]]; simpl.
    + right. split; [reflexivity|].
      destruct (Hb base eq_refl) as [Hne Hin].
      exists (entry :: d'), base, out.
      split; [exact Hok|]. split; [discriminate|]. split; [exact Hne|].
      split; [exact Hin|]. split; [exact Hd|reflexivity].
    + left. split; [exact Hd|discriminate].
  - left. split; [exact Hd|discriminate].
Qed.

Lemma session_outcome available_parsers path w n :
  forall inputs d,
    (length inputs <= n)%nat ->
    profile_ok available_parsers d ->
    dumps (session tuple_str available_parsers path d inputs w).1.2 = []
    \/ ((session tuple_str available_parsers path d inputs w).2 = SessionReturned
        /\ saved available_parsers path inputs
             (session tuple_str available_parsers path d inputs w).1.2).
Proof.
  induction n as [|n IH]; intros inputs d Hlen Hok.
  { destruct inputs; [left; reflexivity|simpl in Hlen; lia]. }
  destruct inputs as [|line rest]; [left; reflexivity|].
  simpl in Hlen.
  assert (Hasked : dumps [CPrint instructions; CInput choice_prompt; CPrint ""] = [])
    by reflexivity.
  assert (Hrest : forall base, base ∈ rest -> base ∈ line :: rest)
    by (intros base Hb; right; exact Hb).
  cbn [session].
  destruct (String.eqb (lower line) "l").
  { destruct (IH rest d ltac:(lia) Hok) as [Hnone|[Hend Hsaved]];
      destruct (session tuple_str available_parsers path d rest w)
        as [[w1 out] ending];
      simpl in *.
    - left. rewrite dumps_app, dumps_list_parsers. exact Hnone.
    - right. split; [exact Hend|].
      apply (saved_later _ _ rest (line :: rest)
               ([CPrint instructions; CInput choice_prompt; CPrint "";
                 CPrint "Available parsers:"]
                ++ list_parsers tuple_str 1 available_parsers ++ [CPrint ""]))
        in Hsaved; [|rewrite !dumps_app, dumps_list_parsers; reflexivity|exact Hrest].
      rewrite <- !app_assoc in Hsaved. exact Hsaved. }
  destruct (String.eqb (lower line) "p").
  { set (shown := match d with
                  | [] => [CPrint ("No parser added to the profile file" +:+ nl)]
                  | _ :: _ => show_profile tuple_str d ++ [CPrint ""]
                  end).
    assert (Hshown : dumps shown = []).
    { subst shown. destruct d; [reflexivity|].
      rewrite dumps_app, dumps_show_profile. reflexivity. }
    destruct (IH rest d ltac:(lia) Hok) as [Hnone|[Hend Hsaved]];
      destruct (session tuple_str available_parsers path d rest w)
        as [[w1 out] ending];
      simpl in *.
    - left. rewrite dumps_app, Hshown. exact Hnone.
    - right. split; [exact Hend|].
      apply (saved_later _ _ rest (line :: rest)
               ([CPrint instructions; CInput choice_prompt; CPrint ""] ++ shown))
        in Hsaved; [|rewrite dumps_app, Hshown; reflexivity|exact Hrest].
      rewrite <- !app_assoc in Hsaved. exact Hsaved. }
  destruct (String.eqb (lower line) "a").
  { destruct rest as [|parser_numbers rest']; [left; reflexivity|].
    simpl in Hlen.
    pose proof (toggle_parsers_ok available_parsers d
                  (parse_numbers parser_numbers) Hok) as Hok'.
    pose proof (dumps_toggle_parsers available_parsers d
                  (parse_numbers parser_numbers)) as Hsaid.
    destruct (toggle_parsers tuple_str available_parsers d
                (parse_numbers parser_numbers)) as [[d' said] [ex|]].
    { left. simpl in *. exact Hsaid. }
    simpl in Hok', Hsaid.
    destruct (IH rest' d' ltac:(lia) Hok') as [Hnone|[Hend Hsaved]];
      destruct (session tuple_str available_parsers path d' rest' w)
        as [[w1 out] ending];
      simpl in *.
    - left. rewrite !dumps_app, Hsaid. exact Hnone.
    - right. split; [exact Hend|].
      apply (saved_later _ _ rest' (line :: parser_numbers :: rest')
               ([CPrint instructions; CInput choice_prompt; CPrint "";
                 CInput numbers_prompt] ++ said ++ [CPrint ""]))
        in Hsaved.
      + rewrite <- !app_assoc in Hsaved. exact Hsaved.
      + rewrite !dumps_app, Hsaid. reflexivity.
      + intros base Hb. right. right. exact Hb. }
  destruct (String.eqb (lower line) "q").
  { destruct (quit_and_save_spec available_parsers path d rest w Hok)
      as [[Hnone _]|[Hend Hsaved]];
      destruct (quit_and_save path d rest w) as [[w1 out] ending]; simpl in *.
    - left. exact Hnone.
    - right. split; [exact Hend|].
      apply (saved_later _ _ rest (line :: rest)
               [CPrint instructions; CInput choice_prompt; CPrint ""])
        in Hsaved; [exact Hsaved|reflexivity|exact Hrest]. }
  destruct (IH rest d ltac:(lia) Hok) as [Hnone|[Hend Hsaved]];
    destruct (session tuple_str available_parsers path d rest w)
      as [[w1 out] ending];
    simpl in *.
  - left. exact Hnone.
  - right. split; [exact Hend|].
    apply (saved_later _ _ rest (line :: rest)
             [CPrint instructions; CInput choice_prompt; CPrint "";
              CPrint ("Please enter a valid choice!!!" +:+ nl)])
      in Hsaved; [exact Hsaved|reflexivity|exact Hrest].
Qed.

Lemma create_profile_outcome available_plugins path inputs w :
  dumps (create_profile tuple_str available_plugins path inputs w).1.2 = []
  \/ ((create_profile tuple_str available_plugins path inputs w).2
      = SessionReturned
      /\ saved (available_parsers_of available_plugins) path inputs
           (create_profile tuple_str available_plugins path inputs w).1.2).
Proof.
  unfold create_profile.
  destruct (session_outcome (available_parsers_of available_plugins) path w
              (length inputs) inputs [] (le_n _) (profile_ok_empty _))
    as [Hnone|[Hend Hsaved]];
    destruct (session tuple_str (available_parsers_of available_plugins) path
                [] inputs w) as [[w1 out] ending]; simpl in *.
  - left. exact Hnone.
  - right. split; [exact Hend|].
    apply (saved_later _ _ inputs inputs
             [CPrint fifty_dashes;
              CPrint ("Welcome to the DLEAPP Profile file creation" +:+ nl)])
      in Hsaved; [exact Hsaved|reflexivity|auto].
Qed.

(** X3 (one file at most).  The session writes at most one file, as its
    last act but for the line that reports it, and only when it returns: a
    session cut short by the end of the input, or by an exception, writes
    nothing. *)
Theorem session_writes_at_most_once available_plugins path inputs w :
  let out := (create_profile tuple_str available_plugins path inputs w).1.2 in
  let ending := (create_profile tuple_str available_plugins path inputs w).2 in
  (length (dumps out) <= 1)%nat
  /\ (ending <> SessionReturned -> dumps out = [])
  /\ (forall filename value,
        (filename, value) ∈ dumps out ->
        exists pre,
          dumps pre = []
          /\ out = pre ++ [CDump filename value;
                           CPrint (nl +:+ "Profile saved: " +:+ filename)]).
Proof.
  intros out ending. subst out ending.
  destruct (create_profile_outcome available_plugins path inputs w)
    as [Hnone|[Hend (d & base & pre & _ & _ & _ & _ & Hpre & Hout)]].
  - rewrite Hnone. split; [simpl; lia|]. split; [reflexivity|].
    intros filename value Hin. inversion Hin.
  - rewrite Hout, dumps_app, Hpre. simpl.
    split; [lia|]. split; [rewrite Hend; intros Hne; destruct Hne; reflexivity|].
    intros filename value Hin. apply list_elem_of_singleton in Hin as [= -> ->].
    exists pre. split; [exact Hpre|reflexivity].
Qed.

Lemma listed_parser_in_registry available_plugins (parser : parser_id) :
  parser ∈ available_parsers_of available_plugins ->
  exists plugin, plugin ∈ available_plugins
                 /\ parser = (category plugin, name plugin).
Proof.
  unfold available_parsers_of. rewrite merge_sort_Permutation.
  intros Hin. apply list_elem_of_fmap in Hin as (plugin & -> & Hin).
  exists plugin. split; [exact Hin|reflexivity].
Qed.

Lemma profile_names_in_registry available_plugins d n :
  profile_ok (available_parsers_of available_plugins) d ->
  n ∈ profile_names d ->
  exists plugin, plugin ∈ available_plugins /\ name plugin = n.
Proof.
  intros [_ Hentries] Hin. unfold profile_names in Hin.
  apply list_elem_of_fmap in Hin as ([number parser] & -> & Hin).
  destruct (Hentries number parser Hin) as [_ Hnth].
  apply list_elem_of_lookup_2 in Hnth.
  destruct (listed_parser_in_registry _ _ Hnth) as (plugin & Hp & ->).
  exists plugin. split; [exact Hp|reflexivity].
Qed.

(** X4 (what is saved).  A profile that a session saves holds the expected
    schema tag and format version and a non-empty list of names, each of
    which is the name of a plugin of the registry; the file is named after
    a non-empty line typed by the user, with the extension [.dlprofile], in
    the folder given. *)
Theorem saved_profile_well_formed available_plugins path inputs w filename
    value :
  (filename, value)
  ∈ dumps (create_profile tuple_str available_plugins path inputs w).1.2 ->
  exists names base,
    value = JDict {[ "leapp" := JStr "dleapp"; "format_version" := JInt 1;
                     "plugins" := JList (JStr <$> names) ]}
    /\ names <> []
    /\ (forall n, n ∈ names -> n ∈ name <$> available_plugins)
    /\ base ∈ inputs /\ base <> ""
    /\ filename = os_path_join path (base +:+ ".dlprofile").
Proof.
  intros Hin.
  destruct (create_profile_outcome available_plugins path inputs w)
    as [Hnone|[_ (d & base & pre & Hok & Hne & Hbase & Hbin & Hpre & Hout)]].
  - rewrite Hnone in Hin. inversion Hin.
  - rewrite Hout, dumps_app, Hpre in Hin. simpl in Hin.
    apply list_elem_of_singleton in Hin as [= -> ->].
    exists (profile_names d), base.
    split; [reflexivity|]. split.
    { destruct d; [contradiction|discriminate]. }
    split; [|auto].
    intros n Hn.
    destruct (profile_names_in_registry _ _ _ Hok Hn) as (plugin & Hp & <-).
    apply list_elem_of_fmap_2. exact Hp.
Qed.

(** X5 (saved profiles load).  A saved profile loads: when the file holds
    what the session dumped, loading it is not refused, and selects the
    plugins of the registry that bear one of the saved names; every saved
    name selects at least one plugin. *)
Theorem saved_profile_reloads available_plugins path inputs w0 filename value
    w :
  (filename, value)
  ∈ dumps (create_profile tuple_str available_plugins path inputs w0).1.2 ->
  json_load (file_read w filename) = inr value ->
  exists names,
    load_profile available_plugins filename w =
      (w, [],
       Ok (Some (filter (fun plugin => name plugin ∈ names) available_plugins)))
    /\ names <> []
    /\ forall n, n ∈ names ->
         exists plugin,
           plugin ∈ filter (fun plugin => name plugin ∈ names) available_plugins
           /\ name plugin = n.
Proof.
  intros Hin Hfile.
  destruct (create_profile_outcome available_plugins path inputs w0)
    as [Hnone|[_ (d & base & pre & Hok & Hne & Hbase & Hbin & Hpre & Hout)]].
  - rewrite Hnone in Hin. inversion Hin.
  - rewrite Hout, dumps_app, Hpre in Hin. simpl in Hin.
    apply list_elem_of_singleton in Hin as [= -> ->].
    exists (profile_names d). split; [|split].
    + unfold profile_json in Hfile.
      rewrite (load_profile_accepts _ _ _ _ (list_to_set (profile_names d))
                 Hfile); try reflexivity.
      * do 3 f_equal. apply list_filter_iff. intros plugin.
        apply elem_of_list_to_set.
      * unfold dict_get_default.
        replace (_ !! "plugins")
          with (Some (JList (JStr <$> profile_names d))) by reflexivity.
        apply str_members_names.
    + destruct d; [contradiction|discriminate].
    + intros n Hn.
      destruct (profile_names_in_registry _ _ _ Hok Hn) as (plugin & Hp & <-).
      exists plugin. split; [|reflexivity].
      apply list_elem_of_filter. split; [exact Hn|exact Hp].
Qed.

End Sessions.

(** * The command line *)

Section CommandLine.
Context `{E : Externals}.

(** X8 (what [validate_args] accepts).  The arguments pass validation
    exactly when [-p] or a non-empty [-c] is given, whatever else is or is
    not given, or when input, output and type are all given, the input and
    the output exist, and the profile, if one is named, exists. *)
Theorem validate_args_accepts_iff w args :
  validate_args w args = None <->
  arg_artifact_paths args = true
  \/ truthy (arg_create_profile args) = true
  \/ exists input_path output_path extracttype,
       arg_input_path args = Some input_path
       /\ arg_output_path args = Some output_path
       /\ arg_t args = Some extracttype
       /\ os_path_exists w input_path = true
       /\ os_path_exists w output_path = true
       /\ forall profile, given (arg_load_profile args) = Some profile ->
            os_path_exists w profile = true.
Proof.
  unfold validate_args. split.
  - intros Hvalid.
    destruct (arg_artifact_paths args); [left; reflexivity|].
    destruct (truthy (arg_create_profile args)); [right; left; reflexivity|].
    right. right. simpl in Hvalid.
    destruct (arg_input_path args) as [input_path|]; [|discriminate].
    destruct (arg_output_path args) as [output_path|]; [|discriminate].
    destruct (arg_t args) as [extracttype|]; [|discriminate].
    destruct (os_path_exists w input_path) eqn:Hin; [|discriminate].
    destruct (os_path_exists w output_path) eqn:Hout; [|discriminate].
    exists input_path, output_path, extracttype.
    do 3 (split; [reflexivity|]). split; [exact Hin|]. split; [exact Hout|].
    intros profile Hprofile. rewrite Hprofile in Hvalid. simpl in Hvalid.
    destruct (os_path_exists w profile); [reflexivity|discriminate].
  - intros [->|[Hc|(input_path & output_path & extracttype
                    & -> & -> & -> & -> & -> & Hprofile)]].
    + reflexivity.
    + rewrite Hc, orb_true_r. reflexivity.
    + destruct (arg_artifact_paths args || truthy (arg_create_profile args));
        [reflexivity|]. simpl.
      destruct (given (arg_load_profile args)) as [profile|]; [|reflexivity].
      rewrite (Hprofile profile eq_refl). reflexivity.
Qed.

(** X24 (arguments that fail validation).  When [validate_args] raises,
    [main] has printed the number of plugins and does nothing else: it ends
    in [parser.error] with the message raised, which is one of six, and
    the world is left as it was. *)
Theorem validation_failure_ends_main available_plugins args w message :
  validate_args w args = Some message ->
  main available_plugins args w =
    (w, [EPrint (info_line available_plugins)], Ok (ParserError message))
  /\ message ∈ [no_arg_provided "INPUT_PATH"; no_arg_provided "OUTPUT_PATH";
                no_arg_provided "T";
                "INPUT file/folder does not exist! Run the program again.";
                "OUTPUT folder does not exist! Run the program again.";
                profile_not_found].
Proof.
  intros Hfail. split.
  - unfold main, print. rewrite bind_emit, bind_ask, Hfail. reflexivity.
  - unfold validate_args in Hfail.
    destruct (arg_artifact_paths args || truthy (arg_create_profile args));
      [discriminate|].
    destruct (arg_input_path args) as [input_path|];
      [|injection Hfail as <-; repeat constructor].
    destruct (arg_output_path args) as [output_path|];
      [|injection Hfail as <-; repeat constructor].
    destruct (arg_t args) as [extracttype|];
      [|injection Hfail as <-; repeat constructor].
    destruct (os_path_exists w input_path);
      [|injection Hfail as <-; repeat constructor].
    destruct (os_path_exists w output_path);
      [|injection Hfail as <-; repeat constructor].
    simpl in Hfail.
    destruct (given (arg_load_profile args)) as [profile|]; [|discriminate].
    destruct (os_path_exists w profile);
      [discriminate|injection Hfail as <-; repeat constructor].
Qed.

(** ** The two stand-alone modes *)

Lemma validate_args_stand_alone w args :
  arg_artifact_paths args = true \/ truthy (arg_create_profile args) = true ->
  validate_args w args = None.
Proof.
  intros H. apply validate_args_accepts_iff.
  destruct H; [left|right; left]; assumption.
Qed.

Lemma write_paths_run regexes w :
  write_paths regexes w = (w, path_lines regexes, Ok tt).
Proof.
  induction regexes as [|x rest IH]; [reflexivity|].
  cbn [write_paths]. unfold print. rewrite !bind_emit, IH. reflexivity.
Qed.

Lemma path_lines_app a b : path_lines (a ++ b) = path_lines a ++ path_lines b.
Proof. unfold path_lines. rewrite !flat_map_concat_map, map_app, concat_app. reflexivity. Qed.

Lemma list_artifact_paths_run plugins w :
  Forall (fun plugin => list_search plugin = false) plugins ->
  list_artifact_paths plugins w =
  (w, path_lines (flat_map search_regexes plugins), Ok tt).
Proof.
  induction plugins as [|plugin rest IH]; intros Hall; [reflexivity|].
  apply Forall_cons in Hall as [Hplugin Hrest].
  cbn [list_artifact_paths flat_map]. rewrite path_lines_app.
  unfold list_search, search_regexes in *.
  destruct (search plugin) as [regex|regexes|regexes]; [| |discriminate].
  - unfold print. rewrite bind_assoc, !bind_emit, (IH Hrest). reflexivity.
  - rewrite (bind_Ok _ _ _ _ _ _ (write_paths_run regexes w)), (IH Hrest).
    reflexivity.
Qed.

Lemma list_artifact_paths_app before after w :
  Forall (fun plugin => list_search plugin = false) before ->
  list_artifact_paths (before ++ after) w =
  after_calls (path_lines (flat_map search_regexes before))
    (list_artifact_paths after w).
Proof.
  induction before as [|plugin rest IH]; intros Hall.
  - simpl. rewrite after_calls_nil. reflexivity.
  - apply Forall_cons in Hall as [Hplugin Hrest].
    cbn [app list_artifact_paths flat_map]. rewrite path_lines_app.
    unfold list_search, search_regexes in *.
    destruct (search plugin) as [regex|regexes|regexes]; [| |discriminate].
    + unfold print. rewrite bind_assoc, !bind_emit, (IH Hrest), !after_calls_app.
      reflexivity.
    + rewrite (bind_Ok _ _ _ _ _ _ (write_paths_run regexes w)), (IH Hrest),
        after_calls_app.
      reflexivity.
Qed.

Lemma call_run {A} (f : World -> World * result A) w w1 r :
  f w = (w1, r) -> call f w = (w1, [], r).
Proof. intros Hf. unfold call. rewrite Hf. reflexivity. Qed.

(** X9 (the list of artifact paths).  With [-p], whatever the other
    arguments, [main] validates nothing and, once [path_list.txt] is open
    for appending, writes every pattern of every plugin to it and prints
    it, in the order of the registry and of [plugin.search], and returns:
    nothing is searched, invoked or reported, and the world is as the
    opening of [path_list.txt] leaves it.  When the file cannot be opened,
    [main] ends in the exception of [open], after the two lines that
    announce the listing.  This holds when no plugin declares its patterns
    as a [list]. *)
Theorem artifact_paths_listing available_plugins args w :
  arg_artifact_paths args = true ->
  Forall (fun plugin => list_search plugin = false) available_plugins ->
  match open_for_writing "path_list.txt" "a" w with
  | (w1, Ok _) =>
      main available_plugins args w =
      (w1,
       [EPrint (info_line available_plugins);
        EPrint "Artifact path list generation started."; EPrint ""]
       ++ path_lines (flat_map search_regexes available_plugins)
       ++ [EPrint ""; EPrint "Artifact path list generation completed"],
       Ok MainReturned)
  | (w1, Raised ex) =>
      main available_plugins args w =
      (w1,
       [EPrint (info_line available_plugins);
        EPrint "Artifact path list generation started."; EPrint ""],
       Raised ex)
  end.
Proof.
  intros Hp Hall.
  destruct (open_for_writing "path_list.txt" "a" w) as [w1 [[]|ex]] eqn:Hopen;
    unfold main, print;
    rewrite bind_emit, bind_ask, validate_args_stand_alone by (left; exact Hp);
    rewrite Hp, !bind_emit.
  - rewrite (bind_Ok _ _ _ _ _ _ (call_run _ _ _ _ Hopen)).
    rewrite (bind_Ok _ _ _ _ _ _ (list_artifact_paths_run _ w1 Hall)).
    rewrite !bind_emit, !after_calls_app.
    unfold ret, after_calls, info_line. rewrite app_nil_r, <- !app_assoc.
    reflexivity.
  - rewrite (bind_Raised _ _ _ _ _ _ (call_run _ _ _ _ Hopen)).
    rewrite !after_calls_app. reflexivity.
Qed.

(** X10 (a plugin whose patterns are a list).  With [-p], a plugin that
    declares its patterns as a [list] ends [main] in an exception, and the
    line that reports completion is not printed.  Once [path_list.txt] is
    open the exception is a [TypeError]: the patterns of the plugins before
    it have been written and printed, nothing of this plugin or of those
    after it is.  When the file cannot be opened the exception is that of
    [open], and no pattern is written or printed. *)
Theorem artifact_paths_list_search_raises before plugin after args w :
  arg_artifact_paths args = true ->
  Forall (fun plugin => list_search plugin = false) before ->
  list_search plugin = true ->
  match open_for_writing "path_list.txt" "a" w with
  | (w1, Ok _) =>
      exists ex,
        main (before ++ plugin :: after) args w =
        (w1,
         [EPrint (info_line (before ++ plugin :: after));
          EPrint "Artifact path list generation started."; EPrint ""]
         ++ path_lines (flat_map search_regexes before),
         Raised ex)
        /\ exn_cls ex = TypeError
  | (w1, Raised ex) =>
      main (before ++ plugin :: after) args w =
      (w1,
       [EPrint (info_line (before ++ plugin :: after));
        EPrint "Artifact path list generation started."; EPrint ""],
       Raised ex)
  end.
Proof.
  intros Hp Hall Hlist.
  destruct (open_for_writing "path_list.txt" "a" w) as [w1 [[]|ex]] eqn:Hopen.
  - exists (Exn TypeError "can only concatenate list (not 'str') to list" "").
    split; [|reflexivity].
    unfold main, print.
    rewrite bind_emit, bind_ask, validate_args_stand_alone by (left; exact Hp).
    rewrite Hp, !bind_emit, !after_calls_app.
    rewrite (bind_Ok _ _ _ _ _ _ (call_run _ _ _ _ Hopen)), after_calls_app.
    erewrite bind_Raised.
    + unfold after_calls, info_line. rewrite <- !app_assoc. reflexivity.
    + rewrite (list_artifact_paths_app _ _ _ Hall).
      cbn [list_artifact_paths]. unfold list_search in Hlist.
      destruct (search plugin); [discriminate|discriminate|].
      unfold bind, python_error, raise, after_calls. rewrite app_nil_r.
      reflexivity.
  - unfold main, print.
    rewrite bind_emit, bind_ask, validate_args_stand_alone by (left; exact Hp).
    rewrite Hp, !bind_emit, !after_calls_app.
    rewrite (bind_Raised _ _ _ _ _ _ (call_run _ _ _ _ Hopen)). reflexivity.
Qed.

Lemma dump_event_of_console out filename value :
  EDump filename value ∈ console_event <$> out ->
  (filename, value) ∈ dumps out.
Proof.
  induction out as [|c out IH]; intros Hin; [inversion Hin|].
  rewrite fmap_cons in Hin. apply elem_of_cons in Hin as [Heq|Hin].
  - destruct c; try discriminate. injection Heq as <- <-. left.
  - destruct c; simpl; try right; apply IH; exact Hin.
Qed.

(** X11 (profile creation mode).  With a non-empty [-c path] and without
    [-p], whatever the other arguments, [main] validates nothing and
    enters no pass.  When the path is not a folder it prints a line that
    says so and returns, the world untouched.  When it is a folder, [main]
    runs the profile session on the whole registry with the lines typed,
    and ends as the session ends: it returns when the session returns,
    ends in [EOFError] when the input ends first, and in the exception of
    the session otherwise; its calls are the line of the plugin count and
    then those of the session, and the world is as the session leaves it.
    A profile is written only by a run that returns. *)
Theorem profile_creation_mode available_plugins args path w :
  arg_artifact_paths args = false ->
  given (arg_create_profile args) = Some path ->
  (os_path_isdir w path = false ->
   main available_plugins args w =
   (w,
    [EPrint (info_line available_plugins);
     EPrint ("OUTPUT folder for storing DLEAPP Profile file does not exist!"
             +:+ nl +:+ "Run the program again.")],
    Ok MainReturned))
  /\ (os_path_isdir w path = true ->
      let ran :=
        create_profile str_of_tuple available_plugins path (typed_lines w) w in
      main available_plugins args w =
      (ran.1.1,
       EPrint (info_line available_plugins) :: (console_event <$> ran.1.2),
       match ran.2 with
       | SessionReturned => Ok MainReturned
       | EndOfInput => Raised (Exn EOFError "EOF when reading a line" "")
       | SessionRaised ex => Raised ex
       end)
      /\ forall filename value,
           EDump filename value ∈ (main available_plugins args w).1.2 ->
           (main available_plugins args w).2 = Ok MainReturned).
Proof.
  intros Hp Hc.
  assert (Hvalid : validate_args w args = None).
  { apply validate_args_stand_alone. right. rewrite truthy_given, Hc.
    reflexivity. }
  assert (Hmain : main available_plugins args w =
                  after_calls [EPrint (info_line available_plugins)]
                    (if os_path_isdir w path
                     then bind (run_create_profile available_plugins path)
                            (fun _ => ret MainReturned) w
                     else (w,
                           [EPrint ("OUTPUT folder for storing DLEAPP Profile file does not exist!"
                                    +:+ nl +:+ "Run the program again.")],
                           Ok MainReturned))).
  { unfold main, print. rewrite bind_emit, bind_ask, Hvalid, Hp, Hc, bind_ask.
    destruct (os_path_isdir w path); reflexivity. }
  split.
  - intros Hdir. rewrite Hmain, Hdir. reflexivity.
  - intros Hdir ran.
    assert (Heq : main available_plugins args w =
                  (ran.1.1,
                   EPrint (info_line available_plugins)
                   :: (console_event <$> ran.1.2),
                   match ran.2 with
                   | SessionReturned => Ok MainReturned
                   | EndOfInput =>
                       Raised (Exn EOFError "EOF when reading a line" "")
                   | SessionRaised ex => Raised ex
                   end)).
    { rewrite Hmain, Hdir. unfold bind, run_create_profile. subst ran.
      destruct (create_profile str_of_tuple available_plugins path
                  (typed_lines w) w) as [[w1 out] ending].
      destruct ending; simpl; rewrite ?app_nil_r; reflexivity. }
    split; [exact Heq|].
    intros filename value. rewrite Heq. simpl. intros Hin.
    apply elem_of_cons in Hin as [Hin|Hin]; [discriminate|].
    apply dump_event_of_console in Hin. subst ran.
    destruct (create_profile_outcome str_of_tuple available_plugins path
                (typed_lines w) w) as [Hnone|[Hend _]].
    + rewrite Hnone in Hin. inversion Hin.
    + rewrite Hend. reflexivity.
Qed.


End CommandLine.

(** * Profiles at the edges *)

Section ProfileEdges.
Context `{E : Externals}.

Lemma main_with_profile available_plugins args input output kind path w :
  run_request w args input output kind ->
  given (arg_load_profile args) = Some path ->
  os_path_exists w path = true ->
  main available_plugins args w =
  after_calls [EPrint (info_line available_plugins)]
    (bind (load_profile available_plugins path)
       (fun loaded =>
          match loaded with
          | None => ret MainReturned
          | Some selected_plugins =>
              dispatch selected_plugins args input output kind (Some path)
          end) w).
Proof.
  intros Hreq Hgiven Hexists.
  rewrite (main_run_request _ _ _ _ _ _ Hreq).
  - rewrite (load_and_dispatch_profile _ _ _ _ _ _ _ Hreq Hgiven). reflexivity.
  - rewrite (validate_args_run_request _ _ _ _ _ Hreq), Hgiven, Hexists.
    reflexivity.
Qed.

(** X12 (a profile that is not an object).  On a command line that asks
    for a run with a profile: when the file decodes to a value that is not
    an object (a list, a string, a number, [true], [false] or [null]),
    [main] prints that the format is invalid and returns without a pass. *)
Theorem non_object_profile_rejected available_plugins args input output kind
    path w value :
  run_request w args input output kind ->
  given (arg_load_profile args) = Some path ->
  os_path_exists w path = true ->
  json_load (file_read w path) = inr value ->
  (forall members, value <> JDict members) ->
  main available_plugins args w =
  (w,
   [EPrint (info_line available_plugins);
    EPrint "File was not a valid profile file: invalid format"],
   Ok MainReturned).
Proof.
  intros Hreq Hgiven Hexists Hload Hshape.
  rewrite (main_with_profile _ _ _ _ _ _ _ Hreq Hgiven Hexists).
  assert (Hrej : load_profile available_plugins path w =
                 (w, [EPrint (invalid_profile "invalid format")], Ok None)).
  { unfold load_profile. rewrite bind_ask, Hload.
    destruct value; try reflexivity. destruct (Hshape _ eq_refl). }
  rewrite (bind_Ok _ _ _ _ _ _ Hrej). reflexivity.
Qed.

Lemma str_members_unhashable items item w :
  item ∈ items -> unhashable item = true ->
  exists ex, str_members items w = (w, [], Raised ex) /\ exn_cls ex = TypeError.
Proof.
  induction items as [|head rest IH]; intros Hin Hun; [inversion Hin|].
  apply elem_of_cons in Hin as [<-|Hin].
  - destruct item; try discriminate; eexists; split; reflexivity.
  - destruct (IH Hin Hun) as (ex & Hrest & Hcls).
    destruct head; cbn [str_members];
      try (exists ex; split; [exact Hrest|exact Hcls]);
      try (eexists; split; reflexivity).
    exists ex. rewrite (bind_Raised _ _ _ _ _ _ Hrest).
    split; [reflexivity|exact Hcls].
Qed.

Lemma str_members_hashable items w :
  Forall (fun item => unhashable item = false) items ->
  exists names : gset string,
    str_members items w = (w, [], Ok names)
    /\ forall n, n ∈ names <-> JStr n ∈ items.
Proof.
  induction items as [|head rest IH]; intros Hall.
  - exists ∅. split; [reflexivity|].
    intros n. split; intros H; [destruct (not_elem_of_empty _ H)|inversion H].
  - apply Forall_cons in Hall as [Hhead Hrest].
    destruct (IH Hrest) as (names & Hrun & Hiff).
    destruct head; try discriminate; cbn [str_members];
      try (exists names; split; [exact Hrun|];
           intros n; rewrite elem_of_cons, <- Hiff;
           split; [intros H; right; exact H|intros [H|H]; [discriminate|exact H]]).
    exists ({[ s ]} ∪ names). rewrite (bind_Ok _ _ _ _ _ _ Hrun).
    split; [reflexivity|].
    intros n. rewrite elem_of_union, elem_of_singleton, elem_of_cons, <- Hiff.
    split; (intros [H|H]; [left; congruence|right; exact H]).
Qed.

Lemma elem_of_characters n s :
  n ∈ characters s <->
  exists c, c ∈ String.list_ascii_of_string s /\ n = String c "".
Proof.
  induction s as [|a s IH]; simpl.
  - split; [intros H; destruct (not_elem_of_empty _ H)|].
    intros (c & Hc & _). inversion Hc.
  - rewrite elem_of_union, elem_of_singleton, IH. split.
    + intros [->|(c & Hc & ->)].
      * exists a. split; [left|reflexivity].
      * exists c. split; [right; exact Hc|reflexivity].
    + intros (c & Hc & ->). apply elem_of_cons in Hc as [->|Hc].
      * left. reflexivity.
      * right. exists c. split; [exact Hc|reflexivity].
Qed.

(** X13 (a ["plugins"] member that [set] refuses).  On a command line that
    asks for a run with a profile whose schema tag and format version are
    the expected ones: when the ["plugins"] member is a number, [true],
    [false] or [null], or a list that holds a list or an object, [main]
    ends in a [TypeError] at line 182.  Nothing is printed about the
    profile and no pass is entered. *)
Theorem plugins_member_refused available_plugins args input output kind path w
    profile plugins :
  run_request w args input output kind ->
  given (arg_load_profile args) = Some path ->
  os_path_exists w path = true ->
  json_load (file_read w path) = inr (JDict profile) ->
  profile !! "leapp" = Some (JStr "dleapp") ->
  profile !! "format_version" = Some (JInt 1) ->
  profile !! "plugins" = Some plugins ->
  (iterable plugins = false
   \/ exists items item,
        plugins = JList items /\ item ∈ items /\ unhashable item = true) ->
  exists ex,
    main available_plugins args w =
      (w, [EPrint (info_line available_plugins)], Raised ex)
    /\ exn_cls ex = TypeError.
Proof.
  intros Hreq Hgiven Hexists Hload Htag Hversion Hplugins Hbad.
  assert (Hset : exists ex, py_set plugins w = (w, [], Raised ex)
                            /\ exn_cls ex = TypeError).
  { destruct Hbad as [Hit|(items & item & -> & Hin & Hun)].
    - destruct plugins; try discriminate; eexists; split; reflexivity.
    - apply (str_members_unhashable _ _ _ Hin Hun). }
  destruct Hset as (ex & Hset & Hcls). exists ex. split; [|exact Hcls].
  rewrite (main_with_profile _ _ _ _ _ _ _ Hreq Hgiven Hexists).
  erewrite bind_Raised; [reflexivity|].
  assert (Hset' : py_set (dict_get_default profile "plugins" (JList [])) w =
                  (w, [], Raised ex)).
  { unfold dict_get_default. rewrite Hplugins. exact Hset. }
  unfold load_profile. rewrite bind_ask, Hload. unfold dict_get.
  rewrite Htag, Hversion. simpl.
  rewrite (bind_Raised _ _ _ _ _ _ Hset'). reflexivity.
Qed.

(** X14 (what the ["plugins"] member selects).  A profile whose schema tag
    and format version are the expected ones is accepted without a word
    when its ["plugins"] member is a list of values other than lists and
    objects, a string or an object.  The plugins selected are those of the
    registry, in its order, whose name is: a string of the list (numbers,
    booleans and [null] in the list select nothing); one character of the
    string; a key of the object. *)
Theorem plugins_member_selection available_plugins path w profile plugins :
  json_load (file_read w path) = inr (JDict profile) ->
  profile !! "leapp" = Some (JStr "dleapp") ->
  profile !! "format_version" = Some (JInt 1) ->
  profile !! "plugins" = Some plugins ->
  (forall items, plugins = JList items ->
     Forall (fun item => unhashable item = false) items ->
     exists names : gset string,
       load_profile available_plugins path w =
         (w, [],
          Ok (Some (filter (fun plugin => name plugin ∈ names)
                      available_plugins)))
       /\ forall n, n ∈ names <-> JStr n ∈ items)
  /\ (forall text, plugins = JStr text ->
      exists names : gset string,
        load_profile available_plugins path w =
          (w, [],
           Ok (Some (filter (fun plugin => name plugin ∈ names)
                       available_plugins)))
        /\ forall n, n ∈ names <->
             exists c, c ∈ String.list_ascii_of_string text
                       /\ n = String c "")
  /\ (forall members, plugins = JDict members ->
      exists names : gset string,
        load_profile available_plugins path w =
          (w, [],
           Ok (Some (filter (fun plugin => name plugin ∈ names)
                       available_plugins)))
        /\ forall n, n ∈ names <-> is_Some (members !! n)).
Proof.
  intros Hload Htag Hversion Hplugins.
  assert (Haccept : forall names,
             py_set plugins w = (w, [], Ok names) ->
             load_profile available_plugins path w =
             (w, [],
              Ok (Some (filter (fun plugin => name plugin ∈ names)
                          available_plugins)))).
  { intros names Hset.
    apply (load_profile_accepts _ _ _ _ names Hload Htag Hversion).
    unfold dict_get_default. rewrite Hplugins. exact Hset. }
  split; [|split].
  - intros items -> Hall.
    destruct (str_members_hashable items w Hall) as (names & Hrun & Hiff).
    exists names. split; [apply Haccept; exact Hrun|exact Hiff].
  - intros text ->. exists (characters text).
    split; [apply Haccept; reflexivity|].
    intros n. apply elem_of_characters.
  - intros members ->. exists (dom members).
    split; [apply Haccept; reflexivity|]. intros n. apply elem_of_dom.
Qed.

End ProfileEdges.

(** * From the command line to the pass *)

Section Paths.
Context `{E : Externals}.

Lemma main_without_profile available_plugins args input output kind w :
  run_request w args input output kind ->
  given (arg_load_profile args) = None ->
  main available_plugins args w =
  after_calls [EPrint (info_line available_plugins)]
    (dispatch available_plugins args input output kind None w).
Proof.
  intros Hreq Hnone.
  rewrite (main_run_request _ _ _ _ _ _ Hreq).
  - rewrite (load_and_dispatch_no_profile _ _ _ _ _ _ Hreq Hnone). reflexivity.
  - rewrite (validate_args_run_request _ _ _ _ _ Hreq), Hnone. reflexivity.
Qed.

Lemma call_total_run {A} (f : World -> World * A) w :
  call_total f w = ((f w).1, [], Ok (f w).2).
Proof. unfold call_total. destruct (f w). reflexivity. Qed.

(** Lines 190-208 where no prefix is added. *)
Lemma dispatch_elsewhere selected args input output kind profile_filename w :
  is_platform_windows = false ->
  let init := OutputParameters_init (os_path_abspath w output) w in
  dispatch selected args input output kind profile_filename w =
  bind (crunch_artifacts selected kind input init.2 1 (arg_wrap_text args)
          empty_casedata profile_filename)
    (fun _ => ret MainReturned) init.1.
Proof.
  intros Hwin init. unfold dispatch.
  rewrite bind_ask, Hwin, !bind_ret.
  rewrite (bind_Ok _ _ _ _ _ _ (call_total_run _ w)), after_calls_nil.
  reflexivity.
Qed.

(** Lines 190-208 on Windows, for paths of two characters at least. *)
Lemma dispatch_windows selected args input output kind profile_filename w c1 c2 :
  is_platform_windows = true ->
  str_index input 1 = Some c1 ->
  str_index (os_path_abspath w output) 1 = Some c2 ->
  let input' :=
    if Ascii.eqb c1 ":"%char && String.eqb kind "fs"
    then long_path_prefix +:+ replace_slashes input else input in
  let output' :=
    if Ascii.eqb c2 ":"%char
    then long_path_prefix +:+ replace_slashes (os_path_abspath w output)
    else os_path_abspath w output in
  let init := OutputParameters_init output' w in
  dispatch selected args input output kind profile_filename w =
  bind (crunch_artifacts selected kind input' init.2 1 (arg_wrap_text args)
          empty_casedata profile_filename)
    (fun _ => ret MainReturned) init.1.
Proof.
  intros Hwin Hin Hout input' output' init. unfold dispatch.
  rewrite bind_ask, Hwin. unfold add_long_path_prefix. rewrite Hin, Hout.
  rewrite andb_true_r. fold input' output'.
  assert (Hret : forall (b : bool) (x y : string),
             (if b then ret x else ret y : M string) = ret (if b then x else y))
    by (intros []; reflexivity).
  rewrite !Hret, !bind_ret.
  rewrite (bind_Ok _ _ _ _ _ _ (call_total_run _ w)), after_calls_nil.
  reflexivity.
Qed.

(** X15 (the outcome of the pass is not looked at).  On a command line
    that asks for a run without a profile, away from Windows: when the
    container cannot be opened (the seeker raises, or the type is none of
    the four), [main] returns as it does after a pass that went well; the
    run log has the banner and the lines about the seeker, and nothing was
    searched, invoked or reported. *)
Theorem main_returns_without_seeker available_plugins args input output kind
    w w0 tr0 :
  is_platform_windows = false ->
  run_request w args input output kind ->
  given (arg_load_profile args) = None ->
  open_seeker kind input
    (OutputParameters_init (os_path_abspath w output) w).2
    (OutputParameters_init (os_path_abspath w output) w).1 = (w0, tr0, Ok None) ->
  main available_plugins args w =
    (w0, EPrint (info_line available_plugins) :: banner ++ tr0, Ok MainReturned)
  /\ Forall is_run_log (banner ++ tr0).
Proof.
  intros Hwin Hreq Hnone Hopen.
  destruct (seeker_failure_ends_pass available_plugins kind input _ 1
              (arg_wrap_text args) empty_casedata None _ _ _ Hopen)
    as [Hpass Hlog].
  split; [|exact Hlog].
  rewrite (main_without_profile _ _ _ _ _ _ Hreq Hnone).
  pose proof (dispatch_elsewhere available_plugins args input output kind None w
                Hwin) as Hd.
  cbv zeta in Hd. rewrite Hd, (bind_Ok _ _ _ _ _ _ Hpass).
  unfold ret, after_calls. rewrite app_nil_r. reflexivity.
Qed.

Lemma short_string_index (s : string) :
  (String.length s < 2)%nat -> str_index s 1 = None.
Proof.
  destruct s as [|a [|b s]]; simpl; intros H; [reflexivity|reflexivity|lia].
Qed.

(** X16 (a short input path on Windows).  On Windows, on a command line
    that asks for a run without a profile, an input path of fewer than two
    characters (such as [.]) ends [main] in an [IndexError] at line 198,
    whatever the type: the paths have been validated and the number of
    plugins printed, and no pass is entered. *)
Theorem windows_short_input_path available_plugins args input output kind w :
  is_platform_windows = true ->
  run_request w args input output kind ->
  given (arg_load_profile args) = None ->
  (String.length input < 2)%nat ->
  validate_args w args = None
  /\ exists ex,
       main available_plugins args w =
         (w, [EPrint (info_line available_plugins)], Raised ex)
       /\ exn_cls ex = IndexError.
Proof.
  intros Hwin Hreq Hnone Hshort. split.
  { rewrite (validate_args_run_request _ _ _ _ _ Hreq), Hnone. reflexivity. }
  exists (Exn IndexError "string index out of range" ""). split; [|reflexivity].
  rewrite (main_without_profile _ _ _ _ _ _ Hreq Hnone).
  unfold dispatch. rewrite bind_ask, Hwin.
  unfold add_long_path_prefix. rewrite (short_string_index _ Hshort).
  reflexivity.
Qed.

Lemma drive_path_not_prefixed (p : string) :
  str_index p 1 = Some ":"%char -> strip_long_path p = p.
Proof.
  destruct p as [|a [|b p]]; simpl; try discriminate.
  intros [= ->]. unfold strip_long_path, long_path_prefix.
  cbn [startswith]. change (Ascii.eqb "\" ":") with false.
  rewrite andb_false_r. reflexivity.
Qed.

(** X17 (long paths on Windows).  On Windows, on a command line that asks
    for a run without a profile, with an input path and an absolute output
    path whose second character is a colon: the output folder is set up
    under the long-path prefix with its slashes turned, and so is the input
    path handed to the pass when the type is [fs]; the input path that the
    report of that pass shows is the one given, without the prefix, its
    slashes turned when the type is [fs]. *)
Theorem windows_long_paths available_plugins args input output kind w :
  is_platform_windows = true ->
  run_request w args input output kind ->
  given (arg_load_profile args) = None ->
  str_index input 1 = Some ":"%char ->
  str_index (os_path_abspath w output) 1 = Some ":"%char ->
  let input' :=
    if String.eqb kind "fs"
    then long_path_prefix +:+ replace_slashes input else input in
  let init :=
    OutputParameters_init
      (long_path_prefix +:+ replace_slashes (os_path_abspath w output)) w in
  main available_plugins args w =
    after_calls [EPrint (info_line available_plugins)]
      (bind (crunch_artifacts available_plugins kind input' init.2 1
               (arg_wrap_text args) empty_casedata None)
         (fun _ => ret MainReturned) init.1)
  /\ reported_path input' =
     (if String.eqb kind "fs" then replace_slashes input else input).
Proof.
  intros Hwin Hreq Hnone Hin Hout input' init. split.
  - rewrite (main_without_profile _ _ _ _ _ _ Hreq Hnone).
    pose proof (dispatch_windows available_plugins args input output kind None w
                  _ _ Hwin Hin Hout) as Hd.
    cbv zeta in Hd. rewrite Ascii.eqb_refl in Hd. rewrite Hd. reflexivity.
  - subst input'. unfold reported_path. rewrite Hwin.
    destruct (String.eqb kind "fs").
    + apply strip_added_prefix.
    + apply drive_path_not_prefixed. exact Hin.
Qed.

End Paths.

(** * More about the pass *)

Section Passes.
Context `{E : Externals}.

(** X18 (a type that is none of the four).  Called with a type other than
    [fs], [tar], [gz] and [zip], [crunch_artifacts] logs the banner and one
    line about the argument and returns [False]: no seeker is built, the
    world is left as it was, nothing is searched, invoked or reported. *)
Theorem unknown_container_kind plugins extracttype input_path out_params ratio
    wrap casedata profile_filename w :
  extracttype ∉ ["fs"; "tar"; "gz"; "zip"] ->
  crunch_artifacts plugins extracttype input_path out_params ratio wrap
    casedata profile_filename w =
  (w, banner ++ [ELogfunc "Error on argument -o (input type)"], Ok false).
Proof.
  rewrite !not_elem_of_cons. intros (Hfs & Htar & Hgz & Hzip & _).
  apply (seeker_failure_ends_pass plugins extracttype input_path out_params
           ratio wrap casedata profile_filename w w).
  unfold open_seeker, try_except.
  apply String.eqb_neq in Hfs, Htar, Hgz, Hzip.
  rewrite Hfs, Htar, Hgz, Hzip. reflexivity.
Qed.

(** X19 (a seeker that cannot be built).  When the constructor of the
    seeker of the type asked for raises, whatever the exception,
    [crunch_artifacts] logs the banner, one line about the failure and the
    traceback, and returns [False]: the exception does not leave it, and
    nothing is searched, invoked or reported. *)
Theorem seeker_exception_ends_pass plugins extracttype input_path out_params
    ratio wrap casedata profile_filename w w0 ex :
  (extracttype = "fs" /\ FileSeekerDir input_path w = (w0, Raised ex))
  \/ ((extracttype = "tar" \/ extracttype = "gz")
      /\ FileSeekerTar input_path (temp_folder out_params) w = (w0, Raised ex))
  \/ (extracttype = "zip"
      /\ FileSeekerZip input_path (temp_folder out_params) w = (w0, Raised ex)) ->
  crunch_artifacts plugins extracttype input_path out_params ratio wrap
    casedata profile_filename w =
  (w0,
   banner
   ++ [ELogfunc "Had an exception in Seeker - see details below. Terminating Program!";
       ELogfunc (exn_traceback ex)],
   Ok false).
Proof.
  intros Hfail.
  apply (seeker_failure_ends_pass plugins extracttype input_path out_params
           ratio wrap casedata profile_filename w w0).
  unfold open_seeker, try_except, bind, call.
  destruct Hfail as [[-> Hraise]|[[[->| ->] Hraise]|[-> Hraise]]];
    cbn [String.eqb Ascii.eqb Bool.eqb orb]; rewrite Hraise; reflexivity.
Qed.

(** ** What a pass calls *)

Lemma progress_calls_app a b :
  progress_calls (a ++ b) = progress_calls a ++ progress_calls b.
Proof.
  induction a as [|e a IH]; [reflexivity|].
  destruct e; simpl; rewrite ?IH; reflexivity.
Qed.

Lemma invocations_app a b :
  invocations (a ++ b) = invocations a ++ invocations b.
Proof.
  induction a as [|e a IH]; [reflexivity|].
  destruct e; simpl; rewrite ?IH; reflexivity.
Qed.

Lemma audit_entries_quiet regexes results :
  progress_calls (audit_entries regexes results) = []
  /\ invocations (audit_entries regexes results) = [].
Proof.
  revert results. induction regexes as [|regex rest IH]; intros results;
    [split; reflexivity|].
  destruct results as [|found results]; [split; reflexivity|].
  destruct (IH results) as [IHp IHi].
  cbn [audit_entries]. rewrite progress_calls_app, invocations_app, IHp, IHi.
  destruct found as [|f fs]; [split; reflexivity|].
  unfold audit_entry. generalize (f :: fs). intros found.
  cbn [progress_calls invocations].
  rewrite progress_calls_app, invocations_app.
  assert (Hlines : progress_calls (map located_line found) = []
                   /\ invocations (map located_line found) = []).
  { induction found as [|x xs [IH1 IH2]]; split; auto. }
  destruct Hlines as [-> ->]. split; reflexivity.
Qed.

Lemma audit_block_quiet seeker plugin w :
  progress_calls (audit_block seeker plugin w) = []
  /\ invocations (audit_block seeker plugin w) = [].
Proof. unfold audit_block. cbn [progress_calls invocations]. apply audit_entries_quiet. Qed.

Lemma ensure_category_folder_quiet plugin folder w :
  progress_calls (trace_of (ensure_category_folder plugin folder w)) = []
  /\ invocations (trace_of (ensure_category_folder plugin folder w)) = [].
Proof.
  unfold ensure_category_folder, try_except, bind, ask, emit, call, logfunc,
    ret, trace_of.
  destruct (os_path_exists w folder); [split; reflexivity|]. simpl.
  destruct (os_mkdir folder w) as [w1 [[]|ex]]; [split; reflexivity|]. simpl.
  destruct (caught_by_mkdir_handler (exn_cls ex)); split; reflexivity.
Qed.

(** What one iteration calls, when the parse routine keeps to itself. *)
Lemma process_plugin_calls seeker out_params ratio wrap plugin cs w :
  keeps_to_itself plugin ->
  (invocations (trace_of (process_plugin seeker out_params ratio wrap plugin cs w))
   = []
   \/ (files_found_of seeker plugin w <> []
       /\ invocations
            (trace_of (process_plugin seeker out_params ratio wrap plugin cs w))
          = [(name plugin, files_found_of seeker plugin w)]))
  /\ match result_of (process_plugin seeker out_params ratio wrap plugin cs w) with
     | Ok cs' =>
         (cs' = cs + 1
          /\ progress_calls
               (trace_of (process_plugin seeker out_params ratio wrap plugin cs w))
             = [(cs + 1) * ratio])
         \/ (cs' = cs
             /\ progress_calls
                  (trace_of (process_plugin seeker out_params ratio wrap plugin cs w))
                = [])
     | Raised _ =>
         progress_calls
           (trace_of (process_plugin seeker out_params ratio wrap plugin cs w))
         = []
     end.
Proof.
  intros Hquiet.
  pose proof (process_plugin_run seeker out_params ratio wrap plugin cs w) as Hrun.
  cbv zeta in Hrun. rewrite Hrun. clear Hrun.
  destruct (audit_block_quiet seeker plugin w) as [Hap Hai].
  destruct (files_found_of seeker plugin w) as [|f fs] eqn:Hfiles.
  { unfold trace_of, result_of, progress_event. cbn [fst snd].
    rewrite progress_calls_app, invocations_app, Hap, Hai.
    split; [left; reflexivity|left; split; reflexivity]. }
  pose proof (run_plugin_run plugin (f :: fs) seeker out_params wrap
                (world_after_search seeker (search_regexes plugin) w)) as Hrp.
  cbv zeta in Hrp. rewrite Hrp. clear Hrp.
  destruct (ensure_category_folder_quiet plugin
              (category_folder_of out_params plugin)
              (world_after_search seeker (search_regexes plugin) w)) as [Hep Hei].
  destruct (ensure_category_folder plugin (category_folder_of out_params plugin)
              (world_after_search seeker (search_regexes plugin) w))
    as [[w1 tr1] [[]|ex]];
    unfold world_of, trace_of, result_of, progress_event in *;
    cbn [fst snd] in *.
  - destruct (Hquiet (f :: fs) (category_folder_of out_params plugin) seeker
                wrap w1) as [Hmp Hmi].
    destruct (method plugin (f :: fs) (category_folder_of out_params plugin)
                seeker wrap w1) as [[w2 tr2] [[]|ex2]] eqn:Hm;
      unfold trace_of in Hmp, Hmi; cbn [fst snd] in Hmp, Hmi.
    + rewrite (invoke_method_returns _ _ _ _ _ _ _ _ Hm). cbn [fst snd].
      rewrite !progress_calls_app, !invocations_app, Hap, Hai, Hep, Hei.
      cbn [progress_calls invocations app].
      rewrite ?progress_calls_app, ?invocations_app, ?Hmp, ?Hmi.
      split; [right; split; [discriminate|reflexivity]|].
      left. split; reflexivity.
    + rewrite (invoke_method_raises _ _ _ _ _ _ _ _ _ Hm). cbn [fst snd].
      rewrite !progress_calls_app, !invocations_app, Hap, Hai, Hep, Hei.
      cbn [progress_calls invocations app].
      rewrite ?progress_calls_app, ?invocations_app, ?Hmp, ?Hmi.
      split; [right; split; [discriminate|reflexivity]|].
      right. split; reflexivity.
  - rewrite !progress_calls_app, !invocations_app, Hap, Hai, Hep, Hei.
    split; [left; reflexivity|right; split; reflexivity].
  - rewrite !progress_calls_app, !invocations_app, Hap, Hai, Hep, Hei.
    split; [left; reflexivity|reflexivity].
Qed.

(** X20 (the values of the progress bar).  In a loop that returns, over
    plugins whose parse routines keep to themselves, the progress bar is
    called with [ratio] times the successive values of the counter, one
    apart and without a gap from the value after the first call on, and as
    many times as the counter has grown; the counter grows by one for each
    plugin at most. *)
Theorem progress_values seeker out_params ratio wrap plugins cs w w1 tr cs1 :
  Forall keeps_to_itself plugins ->
  process_plugins seeker out_params ratio wrap plugins cs w = (w1, tr, Ok cs1) ->
  progress_calls tr =
    (fun k => (cs + Z.of_nat k) * ratio) <$> seq 1 (length (progress_calls tr))
  /\ cs1 = cs + Z.of_nat (length (progress_calls tr))
  /\ (length (progress_calls tr) <= length plugins)%nat.
Proof.
  revert cs w w1 tr cs1.
  induction plugins as [|plugin rest IH]; intros cs w w1 tr cs1 Hall Hrun.
  - simpl in Hrun. unfold ret in Hrun. inversion Hrun; subst. simpl.
    split; [reflexivity|]. split; lia.
  - apply Forall_cons in Hall as [Hplugin Hrest].
    rewrite process_plugins_cons in Hrun.
    destruct (process_plugin_calls seeker out_params ratio wrap plugin cs w
                Hplugin) as [_ Hstep].
    destruct (process_plugin seeker out_params ratio wrap plugin cs w)
      as [[wa tra] [csa|ex]] eqn:Hp.
    2:{ rewrite (bind_Raised _ _ _ _ _ _ Hp) in Hrun. discriminate. }
    rewrite (bind_Ok _ _ _ _ _ _ Hp) in Hrun.
    destruct (process_plugins seeker out_params ratio wrap rest csa wa)
      as [[wb trb] rb] eqn:Hloop.
    simpl in Hrun. inversion Hrun; subst. clear Hrun.
    destruct (IH _ _ _ _ _ Hrest Hloop) as (Hvalues & Hcount & Hbound).
    unfold trace_of, result_of in Hstep. cbn [fst snd] in Hstep.
    rewrite progress_calls_app.
    destruct Hstep as [[-> Hone]|[-> Hnone]].
    + rewrite Hone. cbn [app length seq fmap list_fmap].
      split; [|split; [lia|simpl; lia]].
      f_equal.
      rewrite <- seq_shift, <- list_fmap_compose.
      etransitivity; [exact Hvalues|].
      apply list_fmap_ext. intros i k _. simpl. f_equal. lia.
    + rewrite Hnone. cbn [app].
      split; [exact Hvalues|]. split; [exact Hcount|simpl; lia].
Qed.

(** X21 (who is invoked).  Whatever the outcome of the loop, over plugins
    whose parse routines keep to themselves: the parse routines invoked
    are those of plugins of the list, in the order of the list and each
    once at most, and none is handed an empty list of files. *)
Theorem invocations_follow_registry seeker out_params ratio wrap plugins cs w :
  Forall keeps_to_itself plugins ->
  (invocations
     (trace_of (process_plugins seeker out_params ratio wrap plugins cs w))).*1
    `sublist_of` (name <$> plugins)
  /\ Forall (fun invoked => invoked.2 <> [])
       (invocations
          (trace_of (process_plugins seeker out_params ratio wrap plugins cs w))).
Proof.
  revert cs w. induction plugins as [|plugin rest IH]; intros cs w Hall.
  - split; [reflexivity|constructor].
  - apply Forall_cons in Hall as [Hplugin Hrest].
    rewrite process_plugins_cons.
    destruct (process_plugin_calls seeker out_params ratio wrap plugin cs w
                Hplugin) as [Hstep _].
    destruct (process_plugin seeker out_params ratio wrap plugin cs w)
      as [[wa tra] [csa|ex]] eqn:Hp;
      unfold trace_of in Hstep; cbn [fst snd] in Hstep.
    + rewrite (bind_Ok _ _ _ _ _ _ Hp).
      destruct (IH csa wa Hrest) as [Hsub Hfiles].
      destruct (process_plugins seeker out_params ratio wrap rest csa wa)
        as [[wb trb] rb].
      unfold trace_of in *. cbn [after_calls fst snd] in *.
      rewrite invocations_app.
      destruct Hstep as [->|[Hne ->]]; cbn [app fmap list_fmap fst].
      * split; [apply sublist_cons; exact Hsub|exact Hfiles].
      * split; [apply sublist_skip; exact Hsub|].
        constructor; [exact Hne|exact Hfiles].
    + rewrite (bind_Raised _ _ _ _ _ _ Hp). unfold trace_of. cbn [fst snd].
      destruct Hstep as [->|[Hne ->]]; cbn [fmap list_fmap fst].
      * split; [apply sublist_nil_l|constructor].
      * split; [apply sublist_skip; apply sublist_nil_l|].
        constructor; [exact Hne|constructor].
Qed.

(** ** The audit log of a pass that completes *)




End Passes.

(** * Dispatch in the small world *)

Module Runs.
Import Toy Scene.

Lemma seeker_opens : open_seeker "fs" "in" out w0 = (w0, [], Ok (Some the_seeker)).
Proof. vm_compute. reflexivity. Qed.

Lemma matches_csv p :
  search_regexes p = ["*.csv"] \/ search_regexes p = ["*/a.csv"] ->
  always_matches the_seeker p.
Proof.
  intros [Hp|Hp] w; unfold files_found_of; rewrite Hp; vm_compute; discriminate.
Qed.

Lemma folder_ready p :
  mkdir_errors container !! category_folder_of out p = None ->
  folder_always_ready out p.
Proof.
  intros Hfree w.
  destruct (os_path_exists w (category_folder_of out p)) eqn:Hex.
  - exists w, []. apply ensure_category_folder_present. exact Hex.
  - exists (category_folder_of out p :: w), [EMkdir (category_folder_of out p)].
    apply ensure_category_folder_created; [exact Hex|].
    change (mkdir container (category_folder_of out p) w =
            (category_folder_of out p :: w, Ok tt)).
    unfold mkdir. rewrite Hfree. reflexivity.
Qed.

Lemma crashing_always_raises : always_raises second.
Proof. intros files folder seeker wrap w. exists w, [], boom. reflexivity. Qed.

(** Witness of C1: [first], [second], [third], where the parse routine of
    [second] raises.  The loop goes on with [third], and the whole pass
    returns [True]. *)
Lemma fault_isolation_witness :
  (let rest := process_plugins the_seeker out 1 true [third] 1 w0 in
   process_plugins the_seeker out 1 true ([first] ++ second :: [third]) 0 w0 =
   (world_of rest,
    after_first
    ++ (audit_block the_seeker second w0
        ++ [ELogfunc ""; ELogfunc (started_line second)] ++ []
        ++ EInvoke "second" ["logs/a.csv"; "logs/b.csv"] "out/Logs" true :: []
        ++ [ELogfunc "Reading second artifact had errors!";
            ELogfunc "Error was boom";
            ELogfunc ("Exception Traceback: " +:+ exn_traceback boom)])
    ++ trace_of rest,
    result_of rest))
  /\ (exists w1 files1 files3 ex t1 t2 t3 t4,
        crunch_artifacts [first; second; third] "fs" "in" out 1 true
          no_casedata None w0 =
        (w1,
         t1 ++ EInvoke "first" files1 "out/Logs" true
         :: t2 ++ method_failure_log second ex
         ++ t3 ++ EInvoke "third" files3 "out/Flights" true :: t4,
         Ok true)).
Proof.
  split.
  - apply (proj1 fault_isolation the_seeker out 1 true [first] second [third]
             0 w0 w0 after_first 1 w0 [] w0 [] boom).
    + vm_compute. reflexivity.
    + vm_compute. discriminate.
    + vm_compute. reflexivity.
    + vm_compute. reflexivity.
  - apply (proj2 fault_isolation first second third "fs" "in" out 1 true
             no_casedata None w0 w0 [] the_seeker
             ("out/Script Logs/ProcessedFilesLog.html" :: w0)).
    + exact seeker_opens.
    + vm_compute. reflexivity.
    + intros p Hp.
      apply elem_of_cons in Hp as [->|Hp];
        [|apply elem_of_cons in Hp as [->|Hp];
          [|apply elem_of_cons in Hp as [->|Hp]; [|inversion Hp]]];
        (split; [apply matches_csv; auto|apply folder_ready; reflexivity]).
    + exact crashing_always_raises.
Defined.

(** The same pass, run: all three parse routines are called, the failure of
    the second is in the run log, and the report is generated. *)
Lemma three_plugins_run :
  let run :=
    crunch_artifacts [first; second; third] "fs" "in" out 1 true no_casedata
      None w0 in
  result_of run = Ok true
  /\ invocations (trace_of run) =
     [("first", ["logs/a.csv"]);
      ("second", ["logs/a.csv"; "logs/b.csv"]);
      ("third", ["logs/a.csv"; "logs/b.csv"])]
  /\ filter (fun line => line ∈ ["Reading second artifact had errors!";
                                 "Error was boom"])
       (run_log (trace_of run)) =
     ["Reading second artifact had errors!"; "Error was boom"]
  /\ reports (trace_of run) = ["in"].
Proof. vm_compute. repeat split; reflexivity. Qed.

(** C2 as stated fails: [logs/a.csv] is matched by both patterns of [dup]
    and is passed twice to its parse routine. *)
Lemma duplicate_location_passed_twice :
  search_results the_seeker (search_regexes dup) w0 =
    [["logs/a.csv"]; ["logs/a.csv"; "logs/b.csv"]]
  /\ invocations (trace_of (process_plugin the_seeker out 1 true dup 0 w0)) =
     [("dup", ["logs/a.csv"; "logs/a.csv"; "logs/b.csv"])]
  /\ occurrences "logs/a.csv" ["logs/a.csv"; "logs/a.csv"; "logs/b.csv"] = 2%nat
  /\ ~ NoDup ["logs/a.csv"; "logs/a.csv"; "logs/b.csv"].
Proof.
  repeat split; try (vm_compute; reflexivity).
  intros Hnodup. apply NoDup_cons in Hnodup as [Hnotin _].
  apply Hnotin. constructor.
Qed.

(** Witness of C2 (amended), on the same plugin. *)
Lemma matches_concatenated_witness :
  exists rest,
    trace_of (process_plugin the_seeker out 1 true dup 0 w0) =
      audit_block the_seeker dup w0
      ++ [ELogfunc ""; ELogfunc (started_line dup)] ++ []
      ++ EInvoke "dup"
           (concat [["logs/a.csv"]; ["logs/a.csv"; "logs/b.csv"]])
           "out/Logs" true :: rest
    /\ forall location,
         occurrences location
           (concat [["logs/a.csv"]; ["logs/a.csv"; "logs/b.csv"]]) =
         sum_list_with (occurrences location)
           [["logs/a.csv"]; ["logs/a.csv"; "logs/b.csv"]].
Proof.
  apply (matches_concatenated the_seeker out 1 true dup 0 w0 w0 []).
  - vm_compute. discriminate.
  - vm_compute. reflexivity.
Defined.

(** Witness of C7: nothing in the container matches the patterns of
    [nothing]. *)
Lemma empty_match_skip_witness :
  process_plugin the_seeker out 1 true nothing 0 w0 =
  (w0,
   EAuditWrite "<b>For nothing parser</b>"
   :: map (fun regex => EAuditWrite (no_file_note regex)) ["*.db"; "*.sqlite"]
   ++ [ESetProgressBar ((0 + 1) * 1)],
   Ok (0 + 1)).
Proof.
  apply (empty_match_skip the_seeker out 1 true nothing 0 w0).
  vm_compute. reflexivity.
Defined.

(** C3 at its failing input.  The folder of [locked] cannot be created for
    want of permission: [os.mkdir] raises [PermissionError], which the
    handler of lines 285-288 does not name.  The exception leaves
    [crunch_artifacts]: the failure is not logged, [first] is neither
    searched for nor invoked, and no report is generated. *)
Theorem permission_error_not_isolated :
  let run :=
    crunch_artifacts [locked; first] "fs" "in" out 1 true no_casedata None w0 in
  os_mkdir "out/Locked" w0 = (w0, Raised denied)
  /\ result_of run = Raised denied
  /\ audit_writes (trace_of run) =
     ["Extraction/Path selected: in<br><br>";
      "<b>For locked parser</b>";
      "<ul><li>2 files for regex <i>*.csv</i> located at:";
      "<ul><li>logs/a.csv</li></ul>";
      "<ul><li>logs/b.csv</li></ul>";
      "</li></ul>"]
  /\ last (run_log (trace_of run)) = Some "locked [locked_mod] artifact started"
  /\ invocations (trace_of run) = []
  /\ reports (trace_of run) = [].
Proof. vm_compute. repeat split; reflexivity. Qed.

(** C6 at its failing input.  In the pass of [locked] and [first] the
    plugin [first] is selected and its pattern [*/a.csv] has a match, yet
    the audit log gets no entry for it, neither its heading nor a line for
    its pattern: the [PermissionError] of the folder of [locked], which
    lines 285-288 do not catch, ends the pass before the loop reaches
    [first].  Alone, [first] gets its heading and the entry of its
    pattern. *)
Theorem audit_entries_missing_after_folder_failure :
  let run :=
    crunch_artifacts [locked; first] "fs" "in" out 1 true no_casedata None w0 in
  let alone :=
    crunch_artifacts [first] "fs" "in" out 1 true no_casedata None w0 in
  first ∈ [locked; first]
  /\ search_regexes first = ["*/a.csv"]
  /\ search_results the_seeker ["*/a.csv"] w0 = [["logs/a.csv"]]
  /\ result_of run = Raised denied
  /\ audit_writes (trace_of run) =
     ["Extraction/Path selected: in<br><br>";
      "<b>For locked parser</b>";
      "<ul><li>2 files for regex <i>*.csv</i> located at:";
      "<ul><li>logs/a.csv</li></ul>";
      "<ul><li>logs/b.csv</li></ul>";
      "</li></ul>"]
  /\ ("<b>For first parser</b>" ∉ audit_writes (trace_of run))
  /\ ("<ul><li>1 file for regex <i>*/a.csv</i> located at:"
      ∉ audit_writes (trace_of run))
  /\ result_of alone = Ok true
  /\ audit_writes (trace_of alone) =
     ["Extraction/Path selected: in<br><br>";
      "<b>For first parser</b>";
      "<ul><li>1 file for regex <i>*/a.csv</i> located at:";
      "<ul><li>logs/a.csv</li></ul>";
      "</li></ul>"].
Proof.
  intros run alone.
  assert (Hrun : audit_writes (trace_of run) =
                 ["Extraction/Path selected: in<br><br>";
                  "<b>For locked parser</b>";
                  "<ul><li>2 files for regex <i>*.csv</i> located at:";
                  "<ul><li>logs/a.csv</li></ul>";
                  "<ul><li>logs/b.csv</li></ul>";
                  "</li></ul>"])
    by (vm_compute; reflexivity).
  split; [right; left|].
  split; [reflexivity|].
  split; [vm_compute; reflexivity|].
  split; [vm_compute; reflexivity|].
  split; [exact Hrun|].
  split; [|split].
  - rewrite Hrun. intros Hin.
    repeat (apply elem_of_cons in Hin as [Hin|Hin]; [discriminate Hin|]).
    inversion Hin.
  - rewrite Hrun. intros Hin.
    repeat (apply elem_of_cons in Hin as [Hin|Hin]; [discriminate Hin|]).
    inversion Hin.
  - split; vm_compute; reflexivity.
Qed.

(** Where the folder [Script Logs] is missing the audit log cannot be
    opened (line 253): the pass ends in the exception of [open] before the
    loop, and nothing is searched, written to the audit log or reported. *)
Lemma audit_log_cannot_open :
  let run :=
    crunch_artifacts [first] "fs" "in" out 1 true no_casedata None
      ["in"; "out"] in
  exists ex,
    result_of run = Raised ex
    /\ exn_cls ex = FileNotFoundError
    /\ world_of run = ["in"; "out"]
    /\ audit_writes (trace_of run) = []
    /\ invocations (trace_of run) = []
    /\ reports (trace_of run) = [].
Proof. eexists. vm_compute. repeat split; reflexivity. Qed.

(** Profile creation where nothing can be typed: [input] raises
    [EOFError] at the first prompt, and [main] ends in it. *)
Lemma profile_session_without_input :
  main [first] (Studio.make_profile "out") w0 =
  (w0,
   [EPrint "Info: 1 plugins loaded.";
    EPrint fifty_dashes;
    EPrint ("Welcome to the DLEAPP Profile file creation" +:+ nl);
    EPrint instructions;
    EInput choice_prompt],
   Raised (Exn EOFError "EOF when reading a line" "")).
Proof. vm_compute. reflexivity. Qed.

(** For comparison, a folder whose parent is missing: [FileNotFoundError] is
    caught, the failure is logged, and [first] is processed. *)
Lemma missing_parent_isolated :
  let run :=
    crunch_artifacts [orphan; first] "fs" "in" out 1 true no_casedata None w0 in
  os_mkdir "out/No/Parent" w0 = (w0, Raised orphaned)
  /\ result_of run = Ok true
  /\ invocations (trace_of run) = [("first", ["logs/a.csv"])]
  /\ reports (trace_of run) = ["in"].
Proof. vm_compute. repeat split; reflexivity. Qed.

(** C8 at its failing input.  The seeker opens, so the pass is not one that
    fails at construction; yet a single plugin whose folder cannot be
    created for want of permission keeps it from its end: it does not return
    [True], the audit log is not closed and the report generator is not
    called. *)
Theorem pass_cut_short_by_plugin_failure :
  let run :=
    crunch_artifacts [locked] "fs" "in" out 1 true no_casedata None w0 in
  open_seeker "fs" "in" out w0 = (w0, [], Ok (Some the_seeker))
  /\ result_of run = Raised denied
  /\ result_of run <> Ok true
  /\ reports (trace_of run) = []
  /\ last (trace_of run) = Some (EMkdir "out/Locked").
Proof.
  vm_compute. repeat split; try reflexivity. discriminate.
Qed.

(** C9 at its failing input.  Of three plugins the second raises in its
    parse routine: the [continue] of line 295 skips lines 299-300, the
    progress sink is called twice, and the counter ends at 2, not at 3. *)
Theorem progress_skipped_for_failed_plugin :
  let loop := process_plugins the_seeker out 1 true [first; second; third] 0 w0 in
  result_of loop = Ok 2
  /\ progress_calls (trace_of loop) = [1; 2]
  /\ invocations (trace_of loop) =
     [("first", ["logs/a.csv"]);
      ("second", ["logs/a.csv"; "logs/b.csv"]);
      ("third", ["logs/a.csv"; "logs/b.csv"])]
  /\ Z.of_nat (length [first; second; third]) = 3.
Proof. vm_compute. repeat split; reflexivity. Qed.

End Runs.

(** * Profiles in the small world *)

Module Profiles.
Import Toy Desk.

Lemma asked_to_run w profile :
  os_path_exists w "in" = true -> os_path_exists w "out" = true ->
  run_request w (run_with profile) "in" "out" "fs".
Proof. intros Hin Hout. constructor; try reflexivity; assumption. Qed.

(** A profile of format version 2, present and absent. *)
Lemma profile_fails_closed_witness :
  exists why,
    main registry (run_with (Some "v2.dlprofile")) with_profiles =
      (with_profiles,
       [EPrint (info_line registry);
        EPrint ("File was not a valid profile file: " +:+ why)],
       Ok MainReturned)
    /\ main registry (run_with (Some "v2.dlprofile")) without_profiles =
      (without_profiles, [EPrint (info_line registry)],
       Ok (ParserError "DLEAPP Profile file not found! Run the program again."))
    /\ "File was not a valid profile file: " +:+ why
       <> "DLEAPP Profile file not found! Run the program again.".
Proof.
  apply (profile_fails_closed registry (run_with (Some "v2.dlprofile"))
           "in" "out" "fs" "v2.dlprofile" with_profiles without_profiles).
  - reflexivity.
  - apply asked_to_run; vm_compute; reflexivity.
  - vm_compute. reflexivity.
  - apply (wrong_format_version _ version_two);
      [reflexivity|reflexivity].
  - apply asked_to_run; vm_compute; reflexivity.
  - vm_compute. reflexivity.
Defined.

(** The same for a text that is not JSON at all. *)
Lemma torn_profile_rejected :
  main registry (run_with (Some "torn.dlprofile")) with_profiles =
  (with_profiles,
   [EPrint "Info: 3 plugins loaded.";
    EPrint "File was not a valid profile file: Expecting value: line 1 column 1 (char 0)"],
   Ok MainReturned).
Proof. vm_compute. reflexivity. Qed.

(** Witness of C5: the profile names [first] and [gone]; the registry holds
    [zeta], [first] and [alpha]. *)
Lemma profile_selection_witness :
  main registry (run_with (Some "two.dlprofile")) with_profiles =
    after_calls [EPrint (info_line registry)]
      (dispatch (filter (fun p => name p ∈ ["first"; "gone"]) registry)
         (run_with (Some "two.dlprofile"))
         "in" "out" "fs" (Some "two.dlprofile") with_profiles)
  /\ filter (fun p => name p ∈ ["first"; "gone"]) registry =
     filter (fun p =>
               name p ∈ filter (fun n => n ∈ name <$> registry) ["first"; "gone"])
       registry
  /\ main registry (run_with None) with_profiles =
    after_calls [EPrint (info_line registry)]
      (dispatch registry (run_with None) "in" "out" "fs" None with_profiles).
Proof.
  assert (Hreq : forall profile,
             run_request with_profiles (run_with profile) "in" "out" "fs").
  { intros profile. apply asked_to_run; vm_compute; reflexivity. }
  destruct (profile_selection registry (run_with (Some "two.dlprofile"))
              "in" "out" "fs" with_profiles (Hreq _)) as [Hprofile _].
  destruct (profile_selection registry (run_with None)
              "in" "out" "fs" with_profiles (Hreq _)) as [_ Hnone].
  destruct (Hprofile "two.dlprofile" two_names ["first"; "gone"])
    as [Hmain Hknown];
    [reflexivity | reflexivity | reflexivity
    | reflexivity | reflexivity | reflexivity |].
  split; [exact Hmain|]. split; [exact Hknown|].
  apply Hnone. reflexivity.
Defined.

(** The selection of that profile is [first] alone. *)
Lemma two_names_select_first :
  filter (fun p => name p ∈ ["first"; "gone"]) registry = [plugin "first"].
Proof. vm_compute. reflexivity. Qed.

(** Witness of C10: the profile in [bare.dlprofile] has no plugin names. *)
Lemma profile_without_plugins_witness :
  load_profile registry "bare.dlprofile" with_profiles =
    (with_profiles, [], Ok (Some []))
  /\ main registry (run_with (Some "bare.dlprofile")) with_profiles =
     after_calls [EPrint (info_line registry)]
       (dispatch [] (run_with (Some "bare.dlprofile")) "in" "out" "fs"
          (Some "bare.dlprofile") with_profiles).
Proof.
  apply (profile_without_plugins registry (run_with (Some "bare.dlprofile"))
           "in" "out" "fs" with_profiles "bare.dlprofile" bare).
  - apply asked_to_run; reflexivity.
  - reflexivity.
  - reflexivity.
  - reflexivity.
  - reflexivity.
  - reflexivity.
  - reflexivity.
Defined.

(** The pass that follows is entered with no plugin and reaches its end. *)
Lemma bare_profile_run :
  let run := main registry (run_with (Some "bare.dlprofile")) with_profiles in
  result_of run = Ok MainReturned
  /\ invocations (trace_of run) = []
  /\ audit_writes (trace_of run) = ["Extraction/Path selected: in<br><br>"]
  /\ reports (trace_of run) = ["in"].
Proof. vm_compute. repeat split; reflexivity. Qed.

End Profiles.

(** * Sessions in the studio *)

Module Takes.
Import Toy Studio.

(** The registry of the studio, sorted. *)
Lemma registry_listed : available_parsers_of registry = listed.
Proof. reflexivity. Qed.

(** The session of the lines typed, as the console saw it, in a studio
    that holds no profile yet. *)
Lemma session_of_typed :
  create_profile show registry "profiles" typed_in_studio empty_studio =
  ("profiles/mine.dlprofile" :: empty_studio,
   [CPrint fifty_dashes;
    CPrint ("Welcome to the DLEAPP Profile file creation" +:+ nl);
    CPrint instructions; CInput choice_prompt; CPrint "";
    CPrint "Available parsers:";
    CPrint "1 ('Flights', 'first')";
    CPrint "2 ('Logs', 'a')";
    CPrint "3 ('Logs', 'zeta')";
    CPrint "";
    CPrint instructions; CInput choice_prompt; CPrint "";
    CInput numbers_prompt;
    CPrint "parser number 1 ('Flights', 'first') was added";
    CPrint "parser number 3 ('Logs', 'zeta') was added";
    CPrint ("Please enter the number of a parser!!!" +:+ nl);
    CPrint "parser number 3 ('Logs', 'zeta') was removed";
    CPrint "";
    CPrint instructions; CInput choice_prompt; CPrint "";
    CPrint "1 ('Flights', 'first')";
    CPrint "";
    CPrint instructions; CInput choice_prompt; CPrint "";
    CInput name_prompt; CInput name_prompt;
    CDump "profiles/mine.dlprofile" (profile_json ["first"]);
    CPrint (nl +:+ "Profile saved: profiles/mine.dlprofile")],
   SessionReturned).
Proof. reflexivity. Qed.

(** The same lines where the folder of the profiles is missing: the file
    cannot be opened, and the session ends in the exception of [open]
    without a profile. *)
Lemma session_without_folder :
  exists ex,
    create_profile show registry "profiles" typed_in_studio ["in"; "out"] =
    (["in"; "out"],
     [CPrint fifty_dashes;
      CPrint ("Welcome to the DLEAPP Profile file creation" +:+ nl);
      CPrint instructions; CInput choice_prompt; CPrint "";
      CPrint "Available parsers:";
      CPrint "1 ('Flights', 'first')";
      CPrint "2 ('Logs', 'a')";
      CPrint "3 ('Logs', 'zeta')";
      CPrint "";
      CPrint instructions; CInput choice_prompt; CPrint "";
      CInput numbers_prompt;
      CPrint "parser number 1 ('Flights', 'first') was added";
      CPrint "parser number 3 ('Logs', 'zeta') was added";
      CPrint ("Please enter the number of a parser!!!" +:+ nl);
      CPrint "parser number 3 ('Logs', 'zeta') was removed";
      CPrint "";
      CPrint instructions; CInput choice_prompt; CPrint "";
      CPrint "1 ('Flights', 'first')";
      CPrint "";
      CPrint instructions; CInput choice_prompt; CPrint "";
      CInput name_prompt; CInput name_prompt],
     SessionRaised ex)
    /\ exn_cls ex = FileNotFoundError.
Proof. eexists. split; reflexivity. Qed.

Lemma within_limit_here (s : string) :
  (N.of_nat (String.length s) <=? 4300)%N = true -> within_int_limit s.
Proof. intros H. right. apply N.leb_le. exact H. Qed.

Lemma toggle_parser_flips_witness :
  let toggled := (toggle_parser show listed [] "2").1.1 in
  (toggle_parser show listed [] "2").2 = None
  /\ (dict_lookup 2 [] = None ->
      dict_lookup 2 toggled = listed !! 1%nat
      /\ is_Some (dict_lookup 2 toggled)
      /\ (toggle_parser show listed toggled "2").1.1 = [])
  /\ (is_Some (dict_lookup 2 []) -> dict_lookup 2 toggled = None)
  /\ (forall other, other <> 2%N ->
        dict_lookup other toggled = dict_lookup other []).
Proof.
  apply (toggle_parser_flips show listed [] "2").
  - reflexivity.
  - apply within_limit_here. reflexivity.
  - vm_compute. split; [reflexivity|discriminate].
Defined.

Lemma numbers_line_toggles_witness :
  exists added said,
    toggle_parsers show listed []
      (parse_numbers (String.concat ", " (pretty <$> [3; 1]%N))) =
      ([] ++ added, said, None)
    /\ added.*1 = [3; 1]%N
    /\ Forall2 (fun entry line =>
                  listed !! N.to_nat (entry.1 - 1) = Some entry.2
                  /\ line = CPrint ("parser number " +:+ pretty entry.1 +:+ " "
                                    +:+ show entry.2 +:+ " was added"))
         added said.
Proof.
  apply (numbers_line_toggles show listed [] [3; 1]%N).
  - apply (bool_decide_unpack _). reflexivity.
  - repeat (constructor;
            [split; [vm_compute; split; [reflexivity|discriminate]|];
             split; [reflexivity|apply within_limit_here; reflexivity]|]).
    constructor.
Defined.


Lemma digits_beyond_limit_witness :
  exists ex,
    exn_cls ex = ValueError
    /\ toggle_parser show listed [(1%N, ("Flights", "first"))] many_digits =
       ([(1%N, ("Flights", "first"))], [], Some ex)
    /\ session show listed "profiles" []
         ("A" :: ("1, " +:+ many_digits +:+ ",2") :: ["q"; "mine"])
         empty_studio =
       (empty_studio,
        [CPrint instructions; CInput choice_prompt; CPrint "";
         CInput numbers_prompt]
        ++ [CPrint "parser number 1 ('Flights', 'first') was added"],
        SessionRaised ex).
Proof.
  apply (digits_beyond_limit show listed "profiles" [] "A"
           ("1, " +:+ many_digits +:+ ",2") ["q"; "mine"]
           ["1"] many_digits ["2"]
           [(1%N, ("Flights", "first"))]
           [CPrint "parser number 1 ('Flights', 'first') was added"]
           empty_studio).
  - reflexivity.
  - vm_compute. reflexivity.
  - reflexivity.
  - vm_compute. reflexivity.
  - intros [H|H]; [discriminate H|].
    apply N.leb_le in H. vm_compute in H. discriminate H.
Defined.

Lemma saved_profile_well_formed_witness :
  exists names base,
    profile_json ["first"] =
      JDict {[ "leapp" := JStr "dleapp"; "format_version" := JInt 1;
               "plugins" := JList (JStr <$> names) ]}
    /\ names <> []
    /\ (forall n, n ∈ names -> n ∈ name <$> registry)
    /\ base ∈ typed_in_studio /\ base <> ""
    /\ "profiles/mine.dlprofile" = os_path_join "profiles" (base +:+ ".dlprofile").
Proof.
  apply (saved_profile_well_formed show registry "profiles" typed_in_studio
           empty_studio "profiles/mine.dlprofile" (profile_json ["first"])).
  rewrite session_of_typed. repeat constructor.
Defined.

Lemma saved_profile_reloads_witness :
  exists names,
    load_profile registry "profiles/mine.dlprofile" w0 =
      (w0, [],
       Ok (Some (filter (fun plugin => name plugin ∈ names) registry)))
    /\ names <> []
    /\ forall n, n ∈ names ->
         exists plugin,
           plugin ∈ filter (fun plugin => name plugin ∈ names) registry
           /\ name plugin = n.
Proof.
  apply (saved_profile_reloads show registry "profiles" typed_in_studio
           empty_studio "profiles/mine.dlprofile" (profile_json ["first"]) w0).
  - rewrite session_of_typed. repeat constructor.
  - reflexivity.
Defined.

End Takes.

(** * The command line in the studio *)

Module Commands.
Import Toy Studio.

Lemma studio_asked_to_run profile :
  run_request w0 (run_with profile) "in" "out" "fs".
Proof. constructor; reflexivity. Qed.

Lemma artifact_paths_listing_witness :
  main registry list_paths w0 =
  ("path_list.txt" :: w0,
   [EPrint (info_line registry);
    EPrint "Artifact path list generation started."; EPrint ""]
   ++ path_lines (flat_map search_regexes registry)
   ++ [EPrint ""; EPrint "Artifact path list generation completed"],
   Ok MainReturned).
Proof.
  assert (Hall : Forall (fun plugin => list_search plugin = false) registry)
    by repeat constructor.
  exact (artifact_paths_listing registry list_paths w0 eq_refl Hall).
Defined.

(** The list that is written: the patterns of [zeta], [first] and [a]. *)
Lemma paths_of_registry :
  path_lines (flat_map search_regexes registry) =
  [EPathsWrite ("*.csv" +:+ nl); EPrint "*.csv";
   EPathsWrite ("*.csv" +:+ nl); EPrint "*.csv";
   EPathsWrite ("*.dat" +:+ nl); EPrint "*.dat";
   EPathsWrite ("*.txt" +:+ nl); EPrint "*.txt"].
Proof. reflexivity. Qed.

Lemma artifact_paths_list_search_raises_witness :
  exists ex,
    main ([plugin "Logs" "zeta" (SearchStr "*.csv")] ++ listy :: registry)
      list_paths w0 =
    ("path_list.txt" :: w0,
     [EPrint (info_line
                ([plugin "Logs" "zeta" (SearchStr "*.csv")] ++ listy :: registry));
      EPrint "Artifact path list generation started."; EPrint ""]
     ++ path_lines
          (flat_map search_regexes [plugin "Logs" "zeta" (SearchStr "*.csv")]),
     Raised ex)
    /\ exn_cls ex = TypeError.
Proof.
  assert (Hall : Forall (fun plugin => list_search plugin = false)
                   [plugin "Logs" "zeta" (SearchStr "*.csv")])
    by repeat constructor.
  exact (artifact_paths_list_search_raises
           [plugin "Logs" "zeta" (SearchStr "*.csv")] listy registry
           list_paths w0 eq_refl Hall eq_refl).
Defined.

Lemma profile_creation_mode_witness :
  (os_path_isdir empty_studio "profiles" = false ->
   main registry (make_profile "profiles") empty_studio =
   (empty_studio,
    [EPrint (info_line registry);
     EPrint ("OUTPUT folder for storing DLEAPP Profile file does not exist!"
             +:+ nl +:+ "Run the program again.")],
    Ok MainReturned))
  /\ (os_path_isdir empty_studio "profiles" = true ->
      let ran :=
        create_profile str_of_tuple registry "profiles"
          (typed_lines empty_studio) empty_studio in
      main registry (make_profile "profiles") empty_studio =
      (ran.1.1,
       EPrint (info_line registry) :: (console_event <$> ran.1.2),
       match ran.2 with
       | SessionReturned => Ok MainReturned
       | EndOfInput => Raised (Exn EOFError "EOF when reading a line" "")
       | SessionRaised ex => Raised ex
       end)
      /\ forall filename value,
           EDump filename value
           ∈ (main registry (make_profile "profiles") empty_studio).1.2 ->
           (main registry (make_profile "profiles") empty_studio).2
           = Ok MainReturned).
Proof.
  apply (profile_creation_mode registry (make_profile "profiles") "profiles"
           empty_studio); reflexivity.
Defined.

(** The run of [-c profiles] in the studio: the session of the lines typed
    is on the console, and the profile is in the folder. *)
Lemma profile_made_in_studio :
  main registry (make_profile "profiles") empty_studio =
  ("profiles/mine.dlprofile" :: empty_studio,
   [EPrint (info_line registry);
    EPrint fifty_dashes;
    EPrint ("Welcome to the DLEAPP Profile file creation" +:+ nl);
    EPrint instructions; EInput choice_prompt; EPrint "";
    EPrint "Available parsers:";
    EPrint "1 ('Flights', 'first')";
    EPrint "2 ('Logs', 'a')";
    EPrint "3 ('Logs', 'zeta')";
    EPrint "";
    EPrint instructions; EInput choice_prompt; EPrint "";
    EInput numbers_prompt;
    EPrint "parser number 1 ('Flights', 'first') was added";
    EPrint "parser number 3 ('Logs', 'zeta') was added";
    EPrint ("Please enter the number of a parser!!!" +:+ nl);
    EPrint "parser number 3 ('Logs', 'zeta') was removed";
    EPrint "";
    EPrint instructions; EInput choice_prompt; EPrint "";
    EPrint "1 ('Flights', 'first')";
    EPrint "";
    EPrint instructions; EInput choice_prompt; EPrint "";
    EInput name_prompt; EInput name_prompt;
    EDump "profiles/mine.dlprofile" (profile_json ["first"]);
    EPrint (nl +:+ "Profile saved: profiles/mine.dlprofile")],
   Ok MainReturned).
Proof. reflexivity. Qed.

(** Where [profiles] is not a folder, nothing is asked. *)
Lemma profile_folder_missing :
  main registry (make_profile "profiles") ["in"; "out"] =
  (["in"; "out"],
   [EPrint (info_line registry);
    EPrint ("OUTPUT folder for storing DLEAPP Profile file does not exist!"
            +:+ nl +:+ "Run the program again.")],
   Ok MainReturned).
Proof. reflexivity. Qed.

(** C4 at its failing input.  The profile [true.dlprofile] is a well-formed
    object with the expected schema tag whose format version is [true],
    which is not the number 1.  Line 177 compares with [!=], and for
    Python [True] equals 1: the file is not refused, nothing is printed
    about an invalid profile, the plugin that it names is selected and
    the pass runs, invokes it and generates the report. *)
Theorem boolean_format_version_accepted :
  let run := main registry (run_with (Some "true.dlprofile")) w0 in
  json_load (file_read w0 "true.dlprofile") = inr (JDict true_version)
  /\ true_version !! "leapp" = Some (JStr "dleapp")
  /\ true_version !! "format_version" = Some (JBool true)
  /\ JBool true <> JInt 1
  /\ load_profile registry "true.dlprofile" w0 =
     (w0, [], Ok (Some [plugin "Flights" "first" (SearchTuple ["*.csv"; "*.dat"])]))
  /\ result_of run = Ok MainReturned
  /\ prints (trace_of run) = ["Info: 3 plugins loaded."]
  /\ run_log (trace_of run) !! 6%nat = Some "Loaded profile: true.dlprofile"
  /\ invocations (trace_of run) = [("first", ["logs/a.csv"])]
  /\ reports (trace_of run) = ["in"].
Proof.
  intros run.
  assert (Hrun : (result_of run, prints (trace_of run),
                  run_log (trace_of run) !! 6%nat,
                  invocations (trace_of run), reports (trace_of run)) =
                 (Ok MainReturned, ["Info: 3 plugins loaded."],
                  Some "Loaded profile: true.dlprofile",
                  [("first", ["logs/a.csv"])], ["in"]))
    by (vm_compute; reflexivity).
  split; [reflexivity|]. split; [reflexivity|]. split; [reflexivity|].
  split; [discriminate|].
  split; [reflexivity|].
  split; [exact (f_equal (fun x => x.1.1.1.1) Hrun)|].
  split; [exact (f_equal (fun x => x.1.1.1.2) Hrun)|].
  split; [exact (f_equal (fun x => x.1.1.2) Hrun)|].
  split; [exact (f_equal (fun x => x.1.2) Hrun)|].
  exact (f_equal (fun x => x.2) Hrun).
Qed.

Lemma non_object_profile_rejected_witness :
  main registry (run_with (Some "list.dlprofile")) w0 =
  (w0,
   [EPrint (info_line registry);
    EPrint "File was not a valid profile file: invalid format"],
   Ok MainReturned).
Proof.
  apply (non_object_profile_rejected registry (run_with (Some "list.dlprofile"))
           "in" "out" "fs" "list.dlprofile" w0 (JList [JStr "first"]));
    [apply studio_asked_to_run|reflexivity|reflexivity|reflexivity|discriminate].
Defined.

Lemma plugins_member_refused_witness :
  exists ex,
    main registry (run_with (Some "null.dlprofile")) w0 =
      (w0, [EPrint (info_line registry)], Raised ex)
    /\ exn_cls ex = TypeError.
Proof.
  apply (plugins_member_refused registry (run_with (Some "null.dlprofile"))
           "in" "out" "fs" "null.dlprofile" w0 null_plugins JNull);
    [apply studio_asked_to_run|reflexivity|reflexivity|reflexivity|reflexivity
    |reflexivity|reflexivity|left; reflexivity].
Defined.

Lemma plugins_member_selection_witness :
  exists names : gset string,
    load_profile registry "mixed.dlprofile" w0 =
      (w0, [],
       Ok (Some (filter (fun plugin => name plugin ∈ names) registry)))
    /\ forall n, n ∈ names <-> JStr n ∈ [JInt 1; JStr "first"; JNull; JBool true].
Proof.
  apply (proj1 (plugins_member_selection registry "mixed.dlprofile" w0
                  mixed_plugins
                  (JList [JInt 1; JStr "first"; JNull; JBool true])
                  eq_refl eq_refl eq_refl eq_refl)
           [JInt 1; JStr "first"; JNull; JBool true] eq_refl).
  repeat constructor.
Defined.

(** Without the input folder the same command line fails validation. *)
Lemma validation_failure_ends_main_witness :
  main registry (run_with None) ["out"] =
    (["out"], [EPrint (info_line registry)],
     Ok (ParserError "INPUT file/folder does not exist! Run the program again."))
  /\ "INPUT file/folder does not exist! Run the program again."
     ∈ [no_arg_provided "INPUT_PATH"; no_arg_provided "OUTPUT_PATH";
        no_arg_provided "T";
        "INPUT file/folder does not exist! Run the program again.";
        "OUTPUT folder does not exist! Run the program again.";
        profile_not_found].
Proof.
  apply (validation_failure_ends_main registry (run_with None) ["out"]).
  reflexivity.
Defined.

End Commands.

(** * The vault *)

Module Zips.
Import Vault.

Lemma main_returns_without_seeker_witness :
  main registry unzip w0 =
    ("/home/out/temp" :: w0,
     EPrint (info_line registry)
     :: banner
     ++ [ELogfunc "Had an exception in Seeker - see details below. Terminating Program!";
         ELogfunc (exn_traceback bad_zip)],
     Ok MainReturned)
  /\ Forall is_run_log
       (banner
        ++ [ELogfunc "Had an exception in Seeker - see details below. Terminating Program!";
            ELogfunc (exn_traceback bad_zip)]).
Proof.
  apply (main_returns_without_seeker registry unzip
           "in.zip" "out" "zip" w0);
    [reflexivity|constructor; reflexivity|reflexivity|reflexivity].
Defined.

Lemma seeker_exception_ends_pass_witness :
  crunch_artifacts registry "zip" "in.zip"
    {| report_folder_base := "out"; temp_folder := "tmp" |} 1 true tt None
    w0 =
  ("tmp" :: w0,
   banner
   ++ [ELogfunc "Had an exception in Seeker - see details below. Terminating Program!";
       ELogfunc (exn_traceback bad_zip)],
   Ok false).
Proof.
  apply (seeker_exception_ends_pass registry "zip" "in.zip"
           {| report_folder_base := "out"; temp_folder := "tmp" |} 1 true tt
           None w0 ("tmp" :: w0) bad_zip).
  right. right. split; reflexivity.
Defined.

Lemma unknown_container_kind_witness :
  crunch_artifacts registry "rar" "in.rar"
    {| report_folder_base := "out"; temp_folder := "tmp" |} 1 true tt None
    w0 =
  (w0, banner ++ [ELogfunc "Error on argument -o (input type)"], Ok false).
Proof.
  apply (unknown_container_kind registry "rar" "in.rar"
           {| report_folder_base := "out"; temp_folder := "tmp" |} 1 true tt
           None w0).
  rewrite !not_elem_of_cons.
  repeat split; try discriminate. apply not_elem_of_nil.
Defined.

End Zips.

(** * The Windows machine *)

Module Drives.
Import Toy Windows.

Lemma windows_short_input_path_witness :
  validate_args w0 (run_on ".") = None
  /\ exists ex,
       main registry (run_on ".") w0 =
         (w0, [EPrint (info_line registry)], Raised ex)
       /\ exn_cls ex = IndexError.
Proof.
  apply (windows_short_input_path registry (run_on ".")
           "." "C:/out" "fs" w0);
    [reflexivity|constructor; reflexivity|reflexivity|simpl; lia].
Defined.

Lemma windows_long_paths_witness :
  let input' :=
    if String.eqb "fs" "fs"
    then long_path_prefix +:+ replace_slashes "C:/in" else "C:/in" in
  let init :=
    OutputParameters_init
      (long_path_prefix +:+ replace_slashes (os_path_abspath w0 "C:/out"))
      w0 in
  main registry (run_on "C:/in") w0 =
    after_calls [EPrint (info_line registry)]
      (bind (crunch_artifacts registry "fs" input' init.2 1
               (arg_wrap_text (run_on "C:/in")) empty_casedata None)
         (fun _ => ret MainReturned) init.1)
  /\ reported_path input' =
     (if String.eqb "fs" "fs" then replace_slashes "C:/in" else "C:/in").
Proof.
  apply (windows_long_paths registry (run_on "C:/in")
           "C:/in" "C:/out" "fs" w0);
    [reflexivity|constructor; reflexivity|reflexivity|reflexivity|reflexivity].
Defined.

(** That run: the seeker is opened and the plugin invoked under the
    long-path names, the audit log and the report show the plain ones. *)
Lemma windows_run :
  let run := main registry (run_on "C:/in") w0 in
  result_of run = Ok MainReturned
  /\ invocations (trace_of run) =
     [("first", ["\\?\C:\in\logs\a.csv"])]
  /\ audit_writes (trace_of run) =
     ["Extraction/Path selected: \\?\C:\in<br><br>";
      "<b>For first parser</b>";
      "<ul><li>1 file for regex <i>*.csv</i> located at:";
      "<ul><li>C:\in\logs\a.csv</li></ul>";
      "</li></ul>"]
  /\ reports (trace_of run) = ["C:\in"].
Proof. vm_compute. repeat split; reflexivity. Qed.

End Drives.

(** * More passes in the small world *)

Module MoreRuns.
Import Toy Scene.

Lemma scene_keeps_to_itself :
  Forall keeps_to_itself [first; second; third].
Proof. repeat constructor. Qed.

Lemma progress_values_witness :
  let loop := process_plugins the_seeker out 1 true [first; second; third] 0 w0 in
  progress_calls (trace_of loop) =
    (fun k => (0 + Z.of_nat k) * 1) <$> seq 1 (length (progress_calls (trace_of loop)))
  /\ 2 = 0 + Z.of_nat (length (progress_calls (trace_of loop)))
  /\ (length (progress_calls (trace_of loop)) <= length [first; second; third])%nat.
Proof.
  apply (progress_values the_seeker out 1 true [first; second; third] 0 w0
           (world_of (process_plugins the_seeker out 1 true
                        [first; second; third] 0 w0))
           (trace_of (process_plugins the_seeker out 1 true
                        [first; second; third] 0 w0))
           2 scene_keeps_to_itself).
  vm_compute. reflexivity.
Defined.

Lemma invocations_follow_registry_witness :
  (invocations
     (trace_of (process_plugins the_seeker out 1 true
                  [first; nothing; orphan; third] 0 w0))).*1
    `sublist_of` (name <$> [first; nothing; orphan; third])
  /\ Forall (fun invoked => invoked.2 <> [])
       (invocations
          (trace_of (process_plugins the_seeker out 1 true
                       [first; nothing; orphan; third] 0 w0))).
Proof.
  apply (invocations_follow_registry the_seeker out 1 true
           [first; nothing; orphan; third] 0 w0).
  repeat constructor.
Defined.

(** In that pass [first] and [third] are invoked; [nothing] has no match
    and the folder of [orphan] cannot be created. *)
Lemma invoked_in_scene :
  invocations
    (trace_of (process_plugins the_seeker out 1 true
                 [first; nothing; orphan; third] 0 w0)) =
  [("first", ["logs/a.csv"]); ("third", ["logs/a.csv"; "logs/b.csv"])].
Proof. vm_compute. reflexivity. Qed.

Lemma process_plugin_mkdir_caught_witness :
  process_plugin the_seeker out 1 true orphan 0 w0 =
  (w0,
   audit_block the_seeker orphan w0
   ++ [ELogfunc ""; ELogfunc (started_line orphan);
       EMkdir (category_folder_of out orphan)]
   ++ mkdir_failure_log orphan (category_folder_of out orphan) orphaned,
   Ok 0).
Proof.
  apply (process_plugin_mkdir_caught the_seeker out 1 true orphan 0 w0 w0
           orphaned).
  - vm_compute. discriminate.
  - vm_compute. reflexivity.
  - vm_compute. reflexivity.
  - reflexivity.
Defined.




(** The audit log of that pass: a block for each of the four plugins, also
    for [nothing], which matches nothing, and for [orphan], whose folder
    cannot be created. *)
Lemma audit_log_of_scene_pass :
  audit_writes
    (trace_of (crunch_artifacts [first; nothing; orphan; third] "fs" "in" out
                 1 true no_casedata None w0)) =
  ["Extraction/Path selected: in<br><br>";
   "<b>For first parser</b>";
   "<ul><li>1 file for regex <i>*/a.csv</i> located at:";
   "<ul><li>logs/a.csv</li></ul>";
   "</li></ul>";
   "<b>For nothing parser</b>";
   "<ul><li>No file found for regex <i>*.db</i></li></ul>";
   "<ul><li>No file found for regex <i>*.sqlite</i></li></ul>";
   "<b>For orphan parser</b>";
   "<ul><li>2 files for regex <i>*.csv</i> located at:";
   "<ul><li>logs/a.csv</li></ul>";
   "<ul><li>logs/b.csv</li></ul>";
   "</li></ul>";
   "<b>For third parser</b>";
   "<ul><li>2 files for regex <i>*.csv</i> located at:";
   "<ul><li>logs/a.csv</li></ul>";
   "<ul><li>logs/b.csv</li></ul>";
   "</li></ul>"].
Proof. vm_compute. reflexivity. Qed.

End MoreRuns.
